(** * Tribute webhook processor: a shallow embedding and its properties

    The development follows the JavaScript sources:
    - [SignatureVerifier.js]  -> [verifyTributeSignature]
    - [store/InMemorySubscriptionStore.js] -> module [Store]
    - [TributeSubscriptionManager.js] -> module-level handlers and
      [handleWebhook], [cancelSubscriptionLocally]
    - [errors.js] -> the inductive [error]

    Conventions of the embedding.
    - A JSON scalar or an absent field is a [value]; numbers are the
      integer-valued ones ([Z]).
    - A [Date] is its [getTime()] in milliseconds ([Z]); fields declared
      [Date] in [types.js] hold valid dates, so the [instanceof Date] tests
      of the sources on such fields are always true; a [Date | null] field
      is an [option Z].
    - A timestamp field of an inbound JSON document is a [datelike]: what
      [!v] and [new Date(v)] make of it.
    - An [async] method is the state transformer it runs to completion:
      [M A] threads the store, the local emissions and the publisher calls,
      and carries the raised error; state written before a [throw] stays. *)

From stdpp Require Import base decidable countable gmap strings list pretty.
From Stdlib Require Import ZArith Lia Ascii String.

#[local] Open Scope string_scope.
#[local] Open Scope Z_scope.

(** ** JavaScript values *)

Inductive value : Type :=
  | VUndef
  | VNull
  | VBool (b : bool)
  | VNum (n : Z)
  | VStr (s : string).

#[global] Instance value_eq_dec : EqDecision value.
Proof. solve_decision. Defined.

Definition value_to_sum (v : value) : unit + (unit + (bool + (Z + string))) :=
  match v with
  | VUndef => inl tt
  | VNull => inr (inl tt)
  | VBool b => inr (inr (inl b))
  | VNum n => inr (inr (inr (inl n)))
  | VStr s => inr (inr (inr (inr s)))
  end.

Definition value_of_sum (x : unit + (unit + (bool + (Z + string)))) : value :=
  match x with
  | inl _ => VUndef
  | inr (inl _) => VNull
  | inr (inr (inl b)) => VBool b
  | inr (inr (inr (inl n))) => VNum n
  | inr (inr (inr (inr s))) => VStr s
  end.

#[global] Instance value_countable : Countable value.
Proof.
  apply (inj_countable' value_to_sum value_of_sum).
  intros []; reflexivity.
Defined.

(** [!!v] *)
Definition js_truthy (v : value) : bool :=
  match v with
  | VUndef | VNull => false
  | VBool b => b
  | VNum n => negb (n =? 0)
  | VStr s => negb (String.eqb s "")
  end.

(** [a ?? b] *)
Definition coalesce (a b : value) : value :=
  match a with
  | VUndef | VNull => b
  | _ => a
  end.

Infix "??" := coalesce (at level 45, left associativity).

(** [v === undefined || v === null] *)
Definition nullish_value (v : value) : bool :=
  match v with
  | VUndef | VNull => true
  | _ => false
  end.

(** [a === b] on scalars. *)
Definition strict_eq (a b : value) : bool := bool_decide (a = b).

(** [String(v)]; integers print in decimal (below 1e21 in magnitude). *)
Definition js_String (v : value) : string :=
  match v with
  | VUndef => "undefined"
  | VNull => "null"
  | VBool true => "true"
  | VBool false => "false"
  | VNum n => pretty n
  | VStr s => s
  end.

(** [s.toLowerCase()] on the ASCII range. *)
Definition lower_ascii (c : ascii) : ascii :=
  let n := Ascii.N_of_ascii c in
  if ((65 <=? n) && (n <=? 90))%N then Ascii.ascii_of_N (n + 32) else c.

Fixpoint toLowerCase (s : string) : string :=
  match s with
  | EmptyString => EmptyString
  | String c r => String (lower_ascii c) (toLowerCase r)
  end.

Definition ostr_value (o : option string) : value :=
  match o with
  | Some s => VStr s
  | None => VUndef
  end.

(** A timestamp as it arrives in JSON: falsy (absent, null, empty string),
    truthy but not a date ([new Date(v).getTime()] is NaN; [raw] is the text
    of [v]), or a date. *)
Inductive datelike : Type :=
  | DFalsy
  | DInvalid (raw : string)
  | DValid (ms : Z).

#[global] Instance datelike_eq_dec : EqDecision datelike.
Proof. solve_decision. Defined.

(** A JSON object used as free-form metadata. *)
Definition metadata : Type := list (string * value).

(** ** errors.js *)

Inductive error : Type :=
  | JsError (message : string)
  | JsTypeError (message : string)
  | JsSyntaxError
  | TributeSignatureError
  | TributeConfigurationError (message : string)
  | TributePlanNotFoundError (planId : string)
  | TributeIntentNotFoundError (telegramUserId : value) (planId : string)
  | TributeSubscriptionNotFoundError (subscriptionId : value)
  | TributeDonationNotFoundError (donationRequestId : value).

Inductive res (A : Type) : Type :=
  | Ok (a : A)
  | Err (e : error).

Arguments Ok {A} a.
Arguments Err {A} e.

(** ** types.js *)

Module Plan.
Record t : Type := mk {
  id : string;
  title : string;
  amount : value;
  currency : option string;
  period : value;
  subscriptionLink : string;
  tributeSubscriptionId : value;
  tributePeriodId : value;
  price : value;
  metadata : option metadata
}.
End Plan.

Module Intent.
Record t : Type := mk {
  id : string;
  planId : string;
  telegramUserId : value;
  createdAt : Z;
  expiresAt : Z;
  metadata : option metadata
}.
End Intent.

Inductive subscription_status : Type := SPending | SActive | SCancelled.
Inductive donation_status : Type := DCompleted | DActive | DCancelled.
Inductive payment_kind : Type := KSubscription | KDonation.

Module Sub.
Record t : Type := mk {
  planId : string;
  tributeSubscriptionId : value;
  tributePeriodId : value;
  telegramUserId : value;
  userId : value;
  amount : value;
  currency : value;
  period : value;
  status : subscription_status;
  createdAt : Z;
  lastEventAt : Z;
  expiresAt : option Z;
  cancelledAt : option Z;
  cancelReason : value;
  metadata : option metadata
}.

(** [s.lastEventAt = t] *)
Definition set_lastEventAt (t0 : Z) (s : t) : t :=
  mk (planId s) (tributeSubscriptionId s) (tributePeriodId s)
     (telegramUserId s) (userId s) (amount s) (currency s) (period s)
     (status s) (createdAt s) t0 (expiresAt s) (cancelledAt s)
     (cancelReason s) (metadata s).
End Sub.

Module Donation.
Record t : Type := mk {
  donationRequestId : value;
  donationName : value;
  telegramUserId : value;
  userId : value;
  period : value;
  amount : value;
  currency : value;
  anonymously : bool;
  message : value;
  webAppLink : value;
  status : donation_status;
  createdAt : Z;
  lastEventAt : Z;
  cancelledAt : option Z;
  metadata : option metadata
}.

(** [d.lastEventAt = t] *)
Definition set_lastEventAt (t0 : Z) (d : t) : t :=
  mk (donationRequestId d) (donationName d) (telegramUserId d) (userId d)
     (period d) (amount d) (currency d) (anonymously d) (message d)
     (webAppLink d) (status d) (createdAt d) t0 (cancelledAt d)
     (metadata d).
End Donation.

(** The [payload] object of an envelope; [metadata_intent_id] is
    [payload.metadata?.intent_id]. *)
Module Payload.
Record t : Type := mk {
  subscription_id : value;
  period_id : value;
  price : value;
  amount : value;
  currency : value;
  period : value;
  telegram_user_id : value;
  user_id : value;
  intent_id : value;
  metadata_intent_id : value;
  expires_at : datelike;
  cancel_reason : value;
  donation_request_id : value;
  donation_name : value;
  anonymously : value;
  message : value;
  web_app_link : value
}.

(** [{}] *)
Definition empty : t :=
  mk VUndef VUndef VUndef VUndef VUndef VUndef VUndef VUndef VUndef VUndef
     DFalsy VUndef VUndef VUndef VUndef VUndef VUndef.
End Payload.

Module Envelope.
Record t : Type := mk {
  name : value;
  created_at : datelike;
  sent_at : datelike;
  payload : option Payload.t
}.
End Envelope.

Module Payment.
Record t : Type := mk {
  kind : payment_kind;
  tributeSubscriptionId : value;
  planId : option string;
  donationRequestId : value;
  telegramUserId : value;
  userId : value;
  amount : value;
  currency : value;
  paidAt : Z;
  payload : Payload.t
}.
End Payment.

(** [{ ...payload, sent_at }]: the object handed to the store on a
    cancellation, and the free-form [payload] of a manual cancellation. *)
Record cancellation_payload : Type := {
  cp_fields : Payload.t;
  cp_sent_at : datelike
}.

(** CancellationRecord and DonationCancellationRecord. *)
Record cancellation : Type := {
  c_cancelledAt : Z;
  c_cancelReason : value;
  c_payload : option cancellation_payload
}.

Inductive intent_status : Type := Matched | Expired.
Inductive subscription_event_type : Type := Created | Renewed | Cancelled.
Inductive donation_event_type : Type := DonCreated | DonRecurrent | DonCancelled.

Record event_context : Type := {
  ctx_event : option Envelope.t;
  ctx_intent : option Intent.t;
  ctx_intentStatus : option intent_status;
  ctx_previousSubscription : option Sub.t;
  ctx_cancellation : option cancellation;
  ctx_source : option string
}.

Inductive event_result : Type :=
  | SubscriptionEvent (type : subscription_event_type) (subscription : Sub.t)
      (context : event_context)
  | DonationEvent (type : donation_event_type) (donation : Donation.t)
      (context : event_context).

Definition result_context (r : event_result) : event_context :=
  match r with
  | SubscriptionEvent _ _ c => c
  | DonationEvent _ _ c => c
  end.

(** PaymentListFilters: [kind] is absent, one kind or an array of kinds; a
    date bound is absent (undefined or null) or the time of the [Date] it
    is or converts to ([None] when that time is NaN). *)
#[global] Instance payment_kind_eq_dec : EqDecision payment_kind.
Proof. solve_decision. Defined.

Inductive kind_filter : Type :=
  | KindUnset
  | KindOne (k : payment_kind)
  | KindArray (ks : list payment_kind).

Inductive date_filter : Type :=
  | DateUnset
  | DateGiven (time : option Z).

(** [filters.limit]: a finite number is the ratio [num / den] (every
    finite double is one), so that a fractional limit can be told from an
    integer one; the other numbers are the two infinities and [NaN]; any
    other value (absent, a string, ...) is not of type [number]. *)
Inductive limit_filter : Type :=
  | LimitNotNumber
  | LimitNaN
  | LimitInfinity (negative : bool)
  | LimitRatio (num : Z) (den : positive).

(** [limit > 0] for a value of type [number]. *)
Definition limit_positive (limit : limit_filter) : bool :=
  match limit with
  | LimitNotNumber | LimitNaN => false
  | LimitInfinity negative => negb negative
  | LimitRatio num _ => num >? 0
  end.

(** The end index that [slice(0, limit)] makes of a positive [limit]: the
    number truncated to an integer; [None] when it is [+Infinity] and the
    slice runs to the end. *)
Definition slice_end (limit : limit_filter) : option nat :=
  match limit with
  | LimitRatio num den => Some (Z.to_nat (Z.quot num (Z.pos den)))
  | _ => None
  end.

Module PaymentListFilters.
Record t : Type := mk {
  telegramUserId : value;
  kind : kind_filter;
  since : date_filter;
  until : date_filter;
  limit : limit_filter
}.

(** [{}] *)
Definition empty : t := mk VUndef KindUnset DateUnset DateUnset LimitNotNumber.
End PaymentListFilters.

(** [payments.sort((a, b) => b.paidAt.getTime() - a.paidAt.getTime())]: the
    stable sort by decreasing [paidAt] (entries of equal time keep their
    order). *)
Fixpoint sort_insert (p : Payment.t) (sorted : list Payment.t)
  : list Payment.t :=
  match sorted with
  | [] => [p]
  | q :: rest =>
      if Payment.paidAt q >? Payment.paidAt p
      then q :: sort_insert p rest
      else p :: q :: rest
  end.

Fixpoint sort_by_paidAt_desc (payments : list Payment.t) : list Payment.t :=
  match payments with
  | [] => []
  | p :: rest => sort_insert p (sort_by_paidAt_desc rest)
  end.

(** ** store/InMemorySubscriptionStore.js *)

(** A JS [Map] with string keys, in insertion order: [set] on a present key
    keeps its place, [delete] removes it. *)
Fixpoint Map_get {A : Type} (k : string) (m : list (string * A)) : option A :=
  match m with
  | [] => None
  | (k', v) :: r => if decide (k = k') then Some v else Map_get k r
  end.

Fixpoint Map_set {A : Type} (k : string) (v : A) (m : list (string * A))
  : list (string * A) :=
  match m with
  | [] => [(k, v)]
  | (k', v') :: r =>
      if decide (k = k') then (k, v) :: r else (k', v') :: Map_set k v r
  end.

Fixpoint Map_delete {A : Type} (k : string) (m : list (string * A))
  : list (string * A) :=
  match m with
  | [] => []
  | (k', v') :: r =>
      if decide (k = k') then r else (k', v') :: Map_delete k r
  end.

Module InMemorySubscriptionStore.

Record t : Type := mk {
  intents : list (string * Intent.t);
  subscriptions : gmap value Sub.t;
  payments : list Payment.t;
  donations : gmap value Donation.t
}.

(** [new InMemorySubscriptionStore()] *)
Definition new : t := mk [] ∅ [] ∅.

Definition set_intents (s : t) (i : list (string * Intent.t)) : t :=
  mk i (subscriptions s) (payments s) (donations s).
Definition set_subscriptions (s : t) (m : gmap value Sub.t) : t :=
  mk (intents s) m (payments s) (donations s).
Definition set_payments (s : t) (p : list Payment.t) : t :=
  mk (intents s) (subscriptions s) p (donations s).
Definition set_donations (s : t) (m : gmap value Donation.t) : t :=
  mk (intents s) (subscriptions s) (payments s) m.

Definition saveIntent (intent : Intent.t) (s : t) : unit * t :=
  (tt, set_intents s (Map_set (Intent.id intent) intent (intents s))).

Definition getIntentById (intentId : string) (s : t) : option Intent.t * t :=
  (Map_get intentId (intents s), s).

Definition consumeIntent (intentId : string) (s : t) : option Intent.t * t :=
  let intent := Map_get intentId (intents s) in
  (intent, set_intents s (Map_delete intentId (intents s))).

(** The loop of [consumeIntentByTelegramAndPlan] over [intents.entries()]:
    a matching entry is deleted, and returned unless it has expired. *)
Fixpoint scanIntents (now : Z) (telegramUserId : value) (planId : string)
    (entries : list (string * Intent.t))
  : option Intent.t * list (string * Intent.t) :=
  match entries with
  | [] => (None, [])
  | (intentId, intent) :: rest =>
      if String.eqb (Intent.planId intent) planId
         && String.eqb (js_String (Intent.telegramUserId intent))
                       (js_String telegramUserId)
      then
        if Intent.expiresAt intent <? now
        then scanIntents now telegramUserId planId rest
        else (Some intent, rest)
      else
        let '(found, rest') := scanIntents now telegramUserId planId rest in
        (found, (intentId, intent) :: rest')
  end.

Definition consumeIntentByTelegramAndPlan (now : Z) (telegramUserId : value)
    (planId : string) (s : t) : option Intent.t * t :=
  let '(found, remaining) :=
    scanIntents now telegramUserId planId (intents s) in
  (found, set_intents s remaining).

(** Returns [previous]. *)
Definition upsertSubscription (subscription : Sub.t) (s : t)
  : option Sub.t * t :=
  let previous := subscriptions s !! Sub.tributeSubscriptionId subscription in
  (previous,
   set_subscriptions s
     (<[Sub.tributeSubscriptionId subscription := subscription]>
        (subscriptions s))).

Definition getSubscriptionByTributeId (tributeSubscriptionId : value) (s : t)
  : option Sub.t * t :=
  (subscriptions s !! tributeSubscriptionId, s).

Definition markSubscriptionCancelled (tributeSubscriptionId : value)
    (c : cancellation) (s : t) : option Sub.t * t :=
  match subscriptions s !! tributeSubscriptionId with
  | None => (None, s)
  | Some subscription =>
      let lastEventAt :=
        match c_payload c with
        | Some p =>
            match cp_sent_at p with
            | DFalsy => c_cancelledAt c
            | DInvalid _ => c_cancelledAt c
            | DValid parsed => parsed
            end
        | None => c_cancelledAt c
        end in
      let updated :=
        Sub.mk (Sub.planId subscription)
          (Sub.tributeSubscriptionId subscription)
          (Sub.tributePeriodId subscription)
          (Sub.telegramUserId subscription)
          (Sub.userId subscription)
          (Sub.amount subscription)
          (Sub.currency subscription)
          (Sub.period subscription)
          SCancelled
          (Sub.createdAt subscription)
          lastEventAt
          (Sub.expiresAt subscription)
          (Some (c_cancelledAt c))
          (c_cancelReason c ?? VNull)
          (Sub.metadata subscription) in
      (Some updated,
       set_subscriptions s
         (<[tributeSubscriptionId := updated]> (subscriptions s)))
  end.

Definition recordPayment (payment : Payment.t) (s : t) : unit * t :=
  (tt, set_payments s (payments s ++ [payment])).

Definition upsertDonation (donation : Donation.t) (s : t)
  : option Donation.t * t :=
  let key := Donation.donationRequestId donation in
  let previous := donations s !! key in
  (previous, set_donations s (<[key := donation]> (donations s))).

Definition getDonationByRequestId (donationRequestId : value) (s : t)
  : option Donation.t * t :=
  (donations s !! donationRequestId, s).

Definition markDonationCancelled (donationRequestId : value)
    (c : cancellation) (s : t) : option Donation.t * t :=
  match donations s !! donationRequestId with
  | None => (None, s)
  | Some existing =>
      let lastEventAt :=
        match c_payload c with
        | Some p =>
            match cp_sent_at p with
            | DFalsy => c_cancelledAt c
            | DInvalid _ => c_cancelledAt c
            | DValid parsed => parsed
            end
        | None => c_cancelledAt c
        end in
      let updated :=
        Donation.mk (Donation.donationRequestId existing)
          (Donation.donationName existing)
          (Donation.telegramUserId existing)
          (Donation.userId existing)
          (Donation.period existing)
          (Donation.amount existing)
          (Donation.currency existing)
          (Donation.anonymously existing)
          (Donation.message existing)
          (Donation.webAppLink existing)
          DCancelled
          (Donation.createdAt existing)
          lastEventAt
          (Some (c_cancelledAt c))
          (Donation.metadata existing) in
      (Some updated,
       set_donations s (<[donationRequestId := updated]> (donations s)))
  end.

(** The object returned by [markSubscriptionCancelled] is the object held
    by the map, so [updated.lastEventAt = t] in the caller is seen through
    the map entry as well. *)
Definition assignSubscriptionLastEventAt (key : value) (lastEventAt : Z)
    (s : t) : unit * t :=
  (tt, set_subscriptions s
         (alter (Sub.set_lastEventAt lastEventAt) key (subscriptions s))).

(** The same for the object returned by [markDonationCancelled]. *)
Definition assignDonationLastEventAt (key : value) (lastEventAt : Z)
    (s : t) : unit * t :=
  (tt, set_donations s
         (alter (Donation.set_lastEventAt lastEventAt) key (donations s))).

(** The predicate of [this.payments.filter(...)] in [listPayments]. *)
Definition payment_passes (filters : PaymentListFilters.t)
    (payment : Payment.t) : bool :=
  let kinds :=
    match PaymentListFilters.kind filters with
    | KindArray ks => Some ks
    | KindOne k => Some [k]
    | KindUnset => None
    end in
  let toDate (v : date_filter) : option Z :=
    match v with
    | DateUnset => None
    | DateGiven time => time
    end in
  let since := toDate (PaymentListFilters.since filters) in
  let until := toDate (PaymentListFilters.until filters) in
  if negb (nullish_value (PaymentListFilters.telegramUserId filters))
     && negb (String.eqb
                (js_String (Payment.telegramUserId payment))
                (js_String (PaymentListFilters.telegramUserId filters)))
  then false
  else if match kinds with
          | Some ks => negb (bool_decide (Payment.kind payment ∈ ks))
          | None => false
          end
  then false
  else if match since with
          | Some since => Payment.paidAt payment <? since
          | None => false
          end
  then false
  else if match until with
          | Some until => Payment.paidAt payment >? until
          | None => false
          end
  then false
  else true.

Definition listPayments (filters : PaymentListFilters.t) (s : t)
  : list Payment.t * t :=
  let filtered := List.filter (payment_passes filters) (payments s) in
  let sorted := sort_by_paidAt_desc filtered in
  let limited :=
    if limit_positive (PaymentListFilters.limit filters)
    then match slice_end (PaymentListFilters.limit filters) with
         | Some n => take n sorted
         | None => sorted
         end
    else sorted in
  (limited, s).

End InMemorySubscriptionStore.

Module Store := InMemorySubscriptionStore.

(** ** The processor's state and its monad *)

(** What a call can change: the store, the notifications delivered to local
    listeners ([this.emit], in order) and the results handed to the external
    publisher. *)
Record world : Type := {
  w_store : Store.t;
  w_emitted : list (string * event_result);
  w_published : list event_result
}.

Definition M (A : Type) : Type := world -> res A * world.

Definition ret {A : Type} (a : A) : M A := fun w => (Ok a, w).

Definition bind {A B : Type} (m : M A) (k : A -> M B) : M B :=
  fun w =>
    match m w with
    | (Ok a, w') => k a w'
    | (Err e, w') => (Err e, w')
    end.

Notation "x <- c1 ;; c2" := (bind c1 (fun x => c2))
  (at level 63, c1 at next level, right associativity).
Notation "c1 ;;; c2" := (bind c1 (fun _ => c2))
  (at level 63, right associativity).

(** [throw e] *)
Definition throw {A : Type} (e : error) : M A := fun w => (Err e, w).

Definition lift_res {A : Type} (r : res A) : M A :=
  match r with
  | Ok a => ret a
  | Err e => throw e
  end.

(** [await this.store.method(...)] *)
Definition store_call {A : Type} (f : Store.t -> A * Store.t) : M A :=
  fun w =>
    let '(a, s) := f (w_store w) in
    (Ok a, {| w_store := s;
              w_emitted := w_emitted w;
              w_published := w_published w |}).

(** [this.emit(name, result)]. The listeners are the caller's and are taken
    not to raise: a listener that raises makes [emit] raise after the store
    has been written and before the publisher is called, which no
    definition here expresses. *)
Definition emit (name : string) (result : event_result) : M unit :=
  fun w =>
    (Ok tt, {| w_store := w_store w;
               w_emitted := w_emitted w ++ [(name, result)];
               w_published := w_published w |}).

(** ** SignatureVerifier.js *)

Inductive encoding : Type := Hex | Base64.

(** What [rawBody] may be at run time. *)
Inductive raw_body : Type :=
  | BodyBuffer (bytes : list Byte.byte)
  | BodyUint8Array (bytes : list Byte.byte)
  | BodyString (s : string)
  | BodyArrayBuffer (bytes : list Byte.byte)
  | BodyView (bytes : list Byte.byte)
  | BodyOther.

#[global] Instance byte_eq_dec : EqDecision Byte.byte := Byte.byte_eq_dec.

Definition dq : string := String (Ascii.ascii_of_nat 34) EmptyString.

Section SignatureVerifier.

(** [createHmac('sha256', apiKey).update(body).digest(encoding)] (or Bun's
    hasher): the encoded digest. *)
Variable hmac_digest : string -> list Byte.byte -> encoding -> string.

(** [Buffer.from(text, encoding)] *)
Variable Buffer_from : string -> encoding -> list Byte.byte.

Definition normalizeBody (rawBody : raw_body) : res (list Byte.byte) :=
  match rawBody with
  | BodyBuffer b => Ok b
  | BodyUint8Array b => Ok b
  | BodyString s => Ok (list_byte_of_string s)
  | BodyArrayBuffer b => Ok b
  | BodyView b => Ok b
  | BodyOther =>
      Err (JsTypeError
             "Expected rawBody to be a Buffer, Uint8Array, ArrayBuffer or string")
  end.

Definition computeDigest (body : list Byte.byte) (apiKey : string)
    (enc : encoding) : string :=
  hmac_digest apiKey body enc.

(** [!s] for a string that may be [undefined] or [null]. *)
Definition missing (s : option string) : bool :=
  match s with
  | None => true
  | Some s => String.eqb s ""
  end.

Definition verifyTributeSignature (rawBody : raw_body)
    (signatureHeader : option string) (apiKey : option string)
    (enc : encoding) : res bool :=
  if missing apiKey then
    Err (JsError "Tribute API key is required for signature verification")
  else if missing signatureHeader then Ok false
  else
    match normalizeBody rawBody with
    | Err e => Err e
    | Ok normalized =>
        let digest := computeDigest normalized (default "" apiKey) enc in
        let expected := Buffer_from digest enc in
        let provided := Buffer_from (default "" signatureHeader) enc in
        if negb (List.length expected =? List.length provided)%nat then Ok false
        else Ok (bool_decide (expected = provided))
    end.

(** The earlier verifier kept in the same file: only a [Buffer] body, and
    [timingSafeEqual] raising on unequal lengths inside the [try]. *)
Definition verifyTributeSignature_buffer_only (rawBody : raw_body)
    (signatureHeader : option string) (apiKey : option string)
    (enc : encoding) : res bool :=
  if missing apiKey then
    Err (JsError "Tribute API key is required for signature verification")
  else if missing signatureHeader then Ok false
  else
    match rawBody with
    | BodyBuffer b =>
        let digest := hmac_digest (default "" apiKey) b enc in
        let expected := Buffer_from digest enc in
        let provided := Buffer_from (default "" signatureHeader) enc in
        if negb (List.length expected =? List.length provided)%nat
        then (* RangeError, caught *) Ok false
        else Ok (bool_decide (expected = provided))
    | _ =>
        Err (JsTypeError
               "Expected rawBody to be a Buffer produced by express.raw or equivalent")
    end.

End SignatureVerifier.

(** ** TributeSubscriptionManager.js *)

Inductive failure_mode : Type := FailThrow | FailLog.

(** What a publisher throws (or rejects with): an [Error] or another value. *)
Inductive thrown : Type :=
  | ThrownError (e : error)
  | ThrownValue (v : value).

(** The fields of the manager set by its constructor; [eventPublisher]
    answers [None] when it completes and [Some t] when it raises [t]. *)
Record config : Type := {
  plans : list Plan.t;
  apiKey : string;
  intentTtlMs : Z;
  signatureEncoding : encoding;
  allowedWebhookEvents : list string;
  eventPublisher : option (event_result -> option thrown);
  eventPublisherFailureMode : failure_mode
}.

Definition DEFAULT_INTENT_TTL_MS : Z := 15 * 60 * 1000.

Definition SUPPORTED_WEBHOOK_EVENTS : list string :=
  [ "new_subscription"; "cancelled_subscription"; "new_donation";
    "recurrent_donation"; "cancelled_donation" ].

(** The constructor's defaults for its optional arguments. *)
Definition default_options (plans : list Plan.t) (apiKey : string) : config :=
  {| plans := plans;
     apiKey := apiKey;
     intentTtlMs := DEFAULT_INTENT_TTL_MS;
     signatureEncoding := Hex;
     allowedWebhookEvents := SUPPORTED_WEBHOOK_EVENTS;
     eventPublisher := None;
     eventPublisherFailureMode := FailThrow |}.

(** The checks of the constructor on options that are already typed: a
    [config] has a store that is a [SubscriptionStore], a publisher that
    is a function or absent, and a failure mode that is one of the two.
    [new_TributeSubscriptionManager] makes every check of the constructor
    on the object as the caller passes it. *)
Definition constructor (options : config) : res config :=
  if bool_decide (plans options = []) then
    Err (TributeConfigurationError
           "At least one subscription plan must be provided")
  else if String.eqb (apiKey options) "" then
    Err (TributeConfigurationError "Tribute API key is required")
  else if bool_decide (allowedWebhookEvents options = []) then
    Err (TributeConfigurationError
           "allowedWebhookEvents must be a non-empty array")
  else
    match List.find (fun event => negb (bool_decide (event ∈ SUPPORTED_WEBHOOK_EVENTS)))
                    (allowedWebhookEvents options) with
    | Some event =>
        Err (TributeConfigurationError
               ("Unsupported Tribute webhook event: " +:+ event))
    | None => Ok options
    end.

(** [this.allowedWebhookEvents.has(name)] *)
Definition allowed_has (this : config) (name : value) : bool :=
  match name with
  | VStr s => bool_decide (s ∈ allowedWebhookEvents this)
  | _ => false
  end.

Definition parseDate (v : datelike) (fieldName : string) : res Z :=
  match v with
  | DFalsy =>
      Err (TributeConfigurationError
             ("Tribute webhook is missing required " +:+ dq +:+ fieldName
              +:+ dq +:+ " timestamp"))
  | DInvalid raw =>
      Err (TributeConfigurationError
             ("Invalid " +:+ dq +:+ fieldName +:+ dq +:+ " timestamp: " +:+ raw))
  | DValid date => Ok date
  end.

(** A date-like argument of a direct call. *)
Inductive dateinput : Type :=
  | InDate (time : option Z)      (* a Date; [None] when its time is NaN *)
  | InUndefined                   (* undefined or null *)
  | InNumber (time : option Z)    (* [new Date(n)] *)
  | InString (s : datelike)
  | InOther.

Definition ensureDate (now : Z) (v : dateinput) (fieldName : string) : res Z :=
  match v with
  | InDate (Some t) => Ok t
  | InDate None =>
      Err (TributeConfigurationError
             ("Invalid Date provided for " +:+ dq +:+ fieldName +:+ dq))
  | InUndefined => Ok now
  | InNumber (Some t) => Ok t
  | InNumber None =>
      Err (TributeConfigurationError
             ("Invalid Date provided for " +:+ dq +:+ fieldName +:+ dq))
  | InString s => parseDate s fieldName
  | InOther =>
      Err (TributeConfigurationError
             ("Unsupported value for " +:+ dq +:+ fieldName +:+ dq))
  end.

Definition getEventTimestamp (event : Envelope.t) : res Z :=
  match Envelope.sent_at event with
  | DFalsy => parseDate (Envelope.created_at event) "created_at"
  | sent_at => parseDate sent_at "sent_at"
  end.

Definition getEventCreatedAt (event : Envelope.t) : res Z :=
  parseDate (Envelope.created_at event) "created_at".

(** [previous] is [None] when it is not a [Date]. *)
Definition isOutdatedEvent (previous : option Z) (incoming : Z) : bool :=
  match previous with
  | None => false
  | Some previous => previous >=? incoming
  end.

Definition findPlanForPayload (plans : list Plan.t) (payload : Payload.t)
  : option Plan.t :=
  List.find (fun plan =>
    if negb (strict_eq (Plan.tributeSubscriptionId plan) VUndef)
       && negb (strict_eq (Plan.tributeSubscriptionId plan)
                          (Payload.subscription_id payload))
    then false
    else if negb (strict_eq (Plan.tributePeriodId plan) VUndef)
            && negb (strict_eq (Plan.tributePeriodId plan)
                               (Payload.period_id payload))
    then false
    else if negb (strict_eq (Plan.price plan) VUndef)
            && negb (strict_eq (Plan.price plan) (Payload.price payload))
    then false
    else if match Plan.currency plan with
            | Some currency =>
                negb (String.eqb
                        (toLowerCase currency)
                        (toLowerCase
                           (js_String (Payload.currency payload ?? VStr ""))))
            | None => false
            end
    then false
    else if js_truthy (Plan.period plan)
            && js_truthy (Payload.period payload)
            && negb (String.eqb (js_String (Plan.period plan))
                                (js_String (Payload.period payload)))
    then false
    else if negb (strict_eq (Plan.amount plan) VUndef)
            && negb (strict_eq (Plan.amount plan) (Payload.amount payload))
            && negb (strict_eq (Plan.amount plan) (Payload.price payload))
    then false
    else true) plans.

Definition publishEvent (this : config) (result : event_result) : M unit :=
  match eventPublisher this with
  | None => ret tt
  | Some publisher =>
      fun w =>
        let w' := {| w_store := w_store w;
                     w_emitted := w_emitted w;
                     w_published := w_published w ++ [result] |} in
        match publisher result with
        | None => (Ok tt, w')
        | Some t =>
            match eventPublisherFailureMode this with
            | FailThrow =>
                (Err match t with
                     | ThrownError e => e
                     | ThrownValue v => JsError (js_String v)
                     end, w')
            | FailLog => (Ok tt, w')
            end
        end
  end.

Definition evaluateIntent (intent : Intent.t) (plan : Plan.t)
    (eventTimestamp : Z) (telegramUserId : value)
  : Intent.t * intent_status :=
  let status :=
    if Intent.expiresAt intent <? eventTimestamp then Expired else Matched in
  (intent, status).

(** [o?.field] *)
Definition opt_field {A : Type} (o : option A) (f : A -> value) : value :=
  match o with
  | Some a => f a
  | None => VUndef
  end.

(** [a ?? b] on optional objects. *)
Definition ocoalesce {A : Type} (a b : option A) : option A :=
  match a with
  | Some _ => a
  | None => b
  end.

(** [this.#consumeIntentByTelegramAndPlan]: the store always has the method
    (the base class declares it), so the scan of [store.intents] written as a
    fallback in the manager is not reached. *)
Definition consumeIntentByTelegramAndPlan (now : Z) (telegramUserId : value)
    (planId : string) : M (option Intent.t) :=
  store_call (Store.consumeIntentByTelegramAndPlan now telegramUserId planId).

Definition subscription_type_name (t : subscription_event_type) : string :=
  match t with
  | Created => "created"
  | Renewed => "renewed"
  | Cancelled => "cancelled"
  end.

Definition nullish (v : value) : bool :=
  match v with
  | VUndef | VNull => true
  | _ => false
  end.

Definition handleNewSubscription (this : config) (now : Z)
    (event : Envelope.t) : M (option event_result) :=
  let payload := default Payload.empty (Envelope.payload event) in
  match findPlanForPayload (plans this) payload with
  | None =>
      throw (TributePlanNotFoundError
               (js_String (Payload.subscription_id payload
                           ?? Payload.period_id payload
                           ?? Payload.price payload)))
  | Some plan =>
      eventTimestamp <- lift_res (getEventTimestamp event) ;;
      createdAt <- lift_res (getEventCreatedAt event) ;;
      existingSubscription <-
        (if js_truthy (Payload.subscription_id payload)
         then store_call (Store.getSubscriptionByTributeId
                            (Payload.subscription_id payload))
         else ret None) ;;
      if match existingSubscription with
         | Some existing =>
             isOutdatedEvent (Some (Sub.lastEventAt existing)) eventTimestamp
         | None => false
         end
      then ret None
      else
        evaluated <-
          match existingSubscription with
          | Some _ => ret None
          | None =>
              let intentId :=
                Payload.intent_id payload ?? Payload.metadata_intent_id payload in
              intent <-
                (if js_truthy intentId
                 then store_call (Store.consumeIntent (js_String intentId))
                 else ret None) ;;
              intent <-
                match intent with
                | Some _ => ret intent
                | None =>
                    if negb (strict_eq (Payload.telegram_user_id payload) VUndef)
                    then consumeIntentByTelegramAndPlan now
                           (Payload.telegram_user_id payload) (Plan.id plan)
                    else ret None
                end ;;
              match intent with
              | None =>
                  throw (TributeIntentNotFoundError
                           (Payload.telegram_user_id payload) (Plan.id plan))
              | Some intent =>
                  ret (Some (evaluateIntent intent plan eventTimestamp
                               (Payload.telegram_user_id payload)))
              end
          end ;;
        expiresAt <-
          match Payload.expires_at payload with
          | DFalsy =>
              ret match existingSubscription with
                  | Some existing => Sub.expiresAt existing
                  | None => None
                  end
          | expires_at =>
              parsed <- lift_res (parseDate expires_at "payload.expires_at") ;;
              ret (Some parsed)
          end ;;
        let subscriptionRecord :=
          Sub.mk
            (Plan.id plan)
            (Payload.subscription_id payload)
            (Payload.period_id payload)
            (Payload.telegram_user_id payload
             ?? opt_field existingSubscription Sub.telegramUserId)
            (Payload.user_id payload
             ?? opt_field existingSubscription Sub.userId ?? VNull)
            (Payload.price payload ?? Payload.amount payload ?? Plan.amount plan)
            (Payload.currency payload ?? ostr_value (Plan.currency plan))
            (Payload.period payload ?? Plan.period plan)
            SActive
            match existingSubscription with
            | Some existing => Sub.createdAt existing
            | None => createdAt
            end
            eventTimestamp
            expiresAt
            None
            VNull
            (Some (default []
               (ocoalesce
                  (ocoalesce
                     (existing ← existingSubscription; Sub.metadata existing)
                     (i ← evaluated; Intent.metadata i.1))
                  (Plan.metadata plan)))) in
        previous <- store_call (Store.upsertSubscription subscriptionRecord) ;;
        store_call (Store.recordPayment
          (Payment.mk KSubscription
             (Sub.tributeSubscriptionId subscriptionRecord)
             (Some (Sub.planId subscriptionRecord))
             VUndef
             (Sub.telegramUserId subscriptionRecord)
             (Payload.user_id payload
              ?? opt_field existingSubscription Sub.userId)
             (Sub.amount subscriptionRecord)
             (Sub.currency subscriptionRecord)
             createdAt
             payload)) ;;;
        let context :=
          {| ctx_event := Some event;
             ctx_intent := fst <$> evaluated;
             ctx_intentStatus := snd <$> evaluated;
             ctx_previousSubscription := previous;
             ctx_cancellation := None;
             ctx_source := None |} in
        let result :=
          SubscriptionEvent
            match previous with Some _ => Renewed | None => Created end
            subscriptionRecord context in
        emit ("subscription." +:+
              subscription_type_name
                match previous with Some _ => Renewed | None => Created end)
             result ;;;
        emit "subscription.any" result ;;;
        emit "event" result ;;;
        publishEvent this result ;;;
        ret (Some result)
  end.

Definition handleCancelledSubscription (this : config) (event : Envelope.t)
  : M (option event_result) :=
  let payload := default Payload.empty (Envelope.payload event) in
  match findPlanForPayload (plans this) payload with
  | None =>
      throw (TributePlanNotFoundError
               (js_String (Payload.subscription_id payload
                           ?? Payload.period_id payload
                           ?? Payload.price payload)))
  | Some plan =>
      eventTimestamp <- lift_res (getEventTimestamp event) ;;
      cancellationAt <- lift_res (getEventCreatedAt event) ;;
      existingSubscription <-
        (if js_truthy (Payload.subscription_id payload)
         then store_call (Store.getSubscriptionByTributeId
                            (Payload.subscription_id payload))
         else ret None) ;;
      if match existingSubscription with
         | Some existing =>
             isOutdatedEvent (Sub.cancelledAt existing) cancellationAt
         | None => false
         end
      then ret None
      else if match existingSubscription with
              | Some existing =>
                  isOutdatedEvent (Some (Sub.lastEventAt existing))
                                  eventTimestamp
              | None => false
              end
      then ret None
      else
        let cancellation :=
          {| c_cancelledAt := cancellationAt;
             c_cancelReason := Payload.cancel_reason payload ?? VNull;
             c_payload := Some {| cp_fields := payload;
                                  cp_sent_at := Envelope.sent_at event |} |} in
        updatedSubscription <-
          store_call (Store.markSubscriptionCancelled
                        (Payload.subscription_id payload) cancellation) ;;
        match updatedSubscription with
        | None =>
            throw (TributeSubscriptionNotFoundError
                     (Payload.subscription_id payload))
        | Some updatedSubscription =>
            updatedSubscription <-
              (* lastEventAt is a Date: only the comparison decides *)
              (if Sub.lastEventAt updatedSubscription <? eventTimestamp
               then
                 store_call (Store.assignSubscriptionLastEventAt
                               (Payload.subscription_id payload)
                               eventTimestamp) ;;;
                 ret (Sub.set_lastEventAt eventTimestamp updatedSubscription)
               else ret updatedSubscription) ;;
            let result :=
              SubscriptionEvent Cancelled updatedSubscription
                {| ctx_event := Some event;
                   ctx_intent := None;
                   ctx_intentStatus := None;
                   ctx_previousSubscription := None;
                   ctx_cancellation := Some cancellation;
                   ctx_source := None |} in
            emit "subscription.cancelled" result ;;;
            emit "subscription.any" result ;;;
            emit "event" result ;;;
            publishEvent this result ;;;
            ret (Some result)
        end
  end.

Definition handleNewDonation (this : config) (event : Envelope.t)
  : M (option event_result) :=
  let payload := default Payload.empty (Envelope.payload event) in
  let donationRequestId := Payload.donation_request_id payload in
  if nullish donationRequestId then
    throw (TributeConfigurationError
             "donation_request_id is required for donation events")
  else if nullish (Payload.telegram_user_id payload) then
    throw (TributeConfigurationError
             "telegram_user_id is required for donation events")
  else
    existing <- store_call (Store.getDonationByRequestId donationRequestId) ;;
    let period :=
      Payload.period payload ?? opt_field existing Donation.period
      ?? VStr "once" in
    eventTimestamp <- lift_res (getEventTimestamp event) ;;
    createdAt <-
      match existing with
      | Some existing => ret (Donation.createdAt existing)
      | None => lift_res (getEventCreatedAt event)
      end ;;
    if match existing with
       | Some existing =>
           isOutdatedEvent (Some (Donation.lastEventAt existing)) eventTimestamp
       | None => false
       end
    then ret None
    else
      let donationRecord :=
        Donation.mk
          donationRequestId
          (Payload.donation_name payload
           ?? opt_field existing Donation.donationName ?? VStr "")
          (Payload.telegram_user_id payload
           ?? opt_field existing Donation.telegramUserId)
          (Payload.user_id payload ?? opt_field existing Donation.userId
           ?? VNull)
          period
          (Payload.amount payload ?? opt_field existing Donation.amount
           ?? VNum 0)
          (Payload.currency payload ?? opt_field existing Donation.currency
           ?? VStr "")
          match Payload.anonymously payload with
          | VBool b => b
          | _ => match existing with
                 | Some existing => Donation.anonymously existing
                 | None => false
                 end
          end
          (Payload.message payload ?? opt_field existing Donation.message
           ?? VNull)
          (Payload.web_app_link payload
           ?? opt_field existing Donation.webAppLink ?? VNull)
          (if strict_eq period (VStr "once") then DCompleted else DActive)
          createdAt
          eventTimestamp
          None
          (Some (default [] (existing ← existing; Donation.metadata existing)))
      in
      store_call (Store.upsertDonation donationRecord) ;;;
      store_call (Store.recordPayment
        (Payment.mk KDonation
           VUndef
           None
           donationRequestId
           (Donation.telegramUserId donationRecord)
           (Donation.userId donationRecord ?? VUndef)
           (Donation.amount donationRecord)
           (Donation.currency donationRecord)
           createdAt
           payload)) ;;;
      let result :=
        DonationEvent DonCreated donationRecord
          {| ctx_event := Some event;
             ctx_intent := None;
             ctx_intentStatus := None;
             ctx_previousSubscription := None;
             ctx_cancellation := None;
             ctx_source := None |} in
      emit "donation.created" result ;;;
      emit "donation.any" result ;;;
      emit "event" result ;;;
      publishEvent this result ;;;
      ret (Some result).

Definition handleRecurrentDonation (this : config) (event : Envelope.t)
  : M (option event_result) :=
  let payload := default Payload.empty (Envelope.payload event) in
  let donationRequestId := Payload.donation_request_id payload in
  if nullish donationRequestId then
    throw (TributeConfigurationError
             "donation_request_id is required for donation events")
  else if nullish (Payload.telegram_user_id payload) then
    throw (TributeConfigurationError
             "telegram_user_id is required for donation events")
  else
    existing <- store_call (Store.getDonationByRequestId donationRequestId) ;;
    eventTimestamp <- lift_res (getEventTimestamp event) ;;
    createdAt <-
      match existing with
      | Some existing => ret (Donation.createdAt existing)
      | None => lift_res (getEventCreatedAt event)
      end ;;
    if match existing with
       | Some existing =>
           isOutdatedEvent (Some (Donation.lastEventAt existing)) eventTimestamp
       | None => false
       end
    then ret None
    else
      let donationRecord :=
        Donation.mk
          donationRequestId
          (Payload.donation_name payload
           ?? opt_field existing Donation.donationName ?? VStr "")
          (Payload.telegram_user_id payload
           ?? opt_field existing Donation.telegramUserId)
          (Payload.user_id payload ?? opt_field existing Donation.userId
           ?? VNull)
          (Payload.period payload ?? opt_field existing Donation.period
           ?? VStr "monthly")
          (Payload.amount payload ?? opt_field existing Donation.amount
           ?? VNum 0)
          (Payload.currency payload ?? opt_field existing Donation.currency
           ?? VStr "")
          match Payload.anonymously payload with
          | VBool b => b
          | _ => match existing with
                 | Some existing => Donation.anonymously existing
                 | None => false
                 end
          end
          (opt_field existing Donation.message
           ?? (Payload.message payload ?? VNull))
          (Payload.web_app_link payload
           ?? opt_field existing Donation.webAppLink ?? VNull)
          match existing with
          | Some existing =>
              match Donation.status existing with
              | DCancelled => DCancelled
              | _ => DActive
              end
          | None => DActive
          end
          createdAt
          eventTimestamp
          (existing ← existing; Donation.cancelledAt existing)
          (Some (default [] (existing ← existing; Donation.metadata existing)))
      in
      store_call (Store.upsertDonation donationRecord) ;;;
      store_call (Store.recordPayment
        (Payment.mk KDonation
           VUndef
           None
           donationRequestId
           (Donation.telegramUserId donationRecord)
           (Donation.userId donationRecord ?? VUndef)
           (Donation.amount donationRecord)
           (Donation.currency donationRecord)
           createdAt
           payload)) ;;;
      let result :=
        DonationEvent DonRecurrent donationRecord
          {| ctx_event := Some event;
             ctx_intent := None;
             ctx_intentStatus := None;
             ctx_previousSubscription := None;
             ctx_cancellation := None;
             ctx_source := None |} in
      emit "donation.recurrent" result ;;;
      emit "donation.any" result ;;;
      emit "event" result ;;;
      publishEvent this result ;;;
      ret (Some result).

Definition handleCancelledDonation (this : config) (event : Envelope.t)
  : M (option event_result) :=
  let payload := default Payload.empty (Envelope.payload event) in
  let donationRequestId := Payload.donation_request_id payload in
  if nullish donationRequestId then
    throw (TributeConfigurationError
             "donation_request_id is required for donation events")
  else
    eventTimestamp <- lift_res (getEventTimestamp event) ;;
    cancelledAt <- lift_res (getEventCreatedAt event) ;;
    existing <- store_call (Store.getDonationByRequestId donationRequestId) ;;
    if match existing with
       | Some existing => isOutdatedEvent (Donation.cancelledAt existing) cancelledAt
       | None => false
       end
    then ret None
    else if match existing with
            | Some existing =>
                isOutdatedEvent (Some (Donation.lastEventAt existing))
                                eventTimestamp
            | None => false
            end
    then ret None
    else
      let cancellation :=
        {| c_cancelledAt := cancelledAt;
           c_cancelReason := VUndef;
           c_payload := Some {| cp_fields := payload;
                                cp_sent_at := Envelope.sent_at event |} |} in
      donation <-
        store_call (Store.markDonationCancelled donationRequestId cancellation) ;;
      match donation with
      | None => throw (TributeDonationNotFoundError donationRequestId)
      | Some donation =>
          donation <-
            (* lastEventAt is a Date: only the comparison decides *)
            (if Donation.lastEventAt donation <? eventTimestamp
             then
               store_call (Store.assignDonationLastEventAt donationRequestId
                             eventTimestamp) ;;;
               ret (Donation.set_lastEventAt eventTimestamp donation)
             else ret donation) ;;
          let result :=
            DonationEvent DonCancelled donation
              {| ctx_event := Some event;
                 ctx_intent := None;
                 ctx_intentStatus := None;
                 ctx_previousSubscription := None;
                 ctx_cancellation := Some cancellation;
                 ctx_source := None |} in
          emit "donation.cancelled" result ;;;
          emit "donation.any" result ;;;
          emit "event" result ;;;
          publishEvent this result ;;;
          ret (Some result)
      end.

Module ManualCancellationOptions.
Record t : Type := mk {
  tributeSubscriptionId : value;
  cancelReason : value;
  cancelledAt : dateinput;
  payload : option cancellation_payload
}.
End ManualCancellationOptions.

Definition cancelSubscriptionLocally (this : config) (now : Z)
    (options : ManualCancellationOptions.t) : M event_result :=
  let tributeSubscriptionId :=
    ManualCancellationOptions.tributeSubscriptionId options in
  let cancelReason :=
    match ManualCancellationOptions.cancelReason options with
    | VUndef => VStr "manual"
    | reason => reason
    end in
  if strict_eq tributeSubscriptionId VUndef
     || strict_eq tributeSubscriptionId VNull
     || strict_eq tributeSubscriptionId (VStr "")
  then
    throw (TributeConfigurationError
             "tributeSubscriptionId is required to cancel subscription")
  else
    cancellationTimestamp <-
      lift_res (ensureDate now (ManualCancellationOptions.cancelledAt options)
                  "cancelledAt") ;;
    let cancellation :=
      {| c_cancelledAt := cancellationTimestamp;
         c_cancelReason := cancelReason ?? VNull;
         c_payload := ManualCancellationOptions.payload options |} in
    updatedSubscription <-
      store_call (Store.markSubscriptionCancelled tributeSubscriptionId
                    cancellation) ;;
    match updatedSubscription with
    | None => throw (TributeSubscriptionNotFoundError tributeSubscriptionId)
    | Some updatedSubscription =>
        updatedSubscription <-
          (* lastEventAt is a Date: only the comparison decides *)
          (if Sub.lastEventAt updatedSubscription <? cancellationTimestamp
           then
             store_call (Store.assignSubscriptionLastEventAt
                           tributeSubscriptionId cancellationTimestamp) ;;;
             ret (Sub.set_lastEventAt cancellationTimestamp updatedSubscription)
           else ret updatedSubscription) ;;
        let result :=
          SubscriptionEvent Cancelled updatedSubscription
            {| ctx_event := None;
               ctx_intent := None;
               ctx_intentStatus := None;
               ctx_previousSubscription := None;
               ctx_cancellation := Some cancellation;
               ctx_source := Some "manual" |} in
        emit "subscription.cancelled" result ;;;
        emit "subscription.any" result ;;;
        emit "event" result ;;;
        publishEvent this result ;;;
        ret result
    end.

(** [randomUUID()] is the argument [uuid], [new Date()] is [now]. *)
Definition createSubscriptionIntent (this : config) (now : Z) (uuid : string)
    (planId : string) (telegramUserId : value) (metadata : option metadata)
  : M (string * string * Plan.t) :=
  match List.find (fun p => String.eqb (Plan.id p) planId) (plans this) with
  | None => throw (TributePlanNotFoundError planId)
  | Some plan =>
      if strict_eq telegramUserId VUndef
         || strict_eq telegramUserId VNull
         || strict_eq telegramUserId (VStr "")
      then
        throw (TributeConfigurationError
                 "telegramUserId is required to create subscription intent")
      else
        let intent :=
          Intent.mk uuid (Plan.id plan) telegramUserId now
            (now + intentTtlMs this) (Some (default [] metadata)) in
        store_call (Store.saveIntent intent) ;;;
        ret (Intent.id intent, Plan.subscriptionLink plan, plan)
  end.

(** What [JSON.parse(rawBody.toString('utf8'))] gives: a syntax error,
    [null], or a value read as an envelope (a field that is absent, and every
    field of a scalar or an array, is [undefined]). *)
Inductive json_parsed : Type :=
  | JsonSyntaxError
  | JsonNull
  | JsonObject (event : Envelope.t).

Section Manager.

Variable hmac_digest : string -> list Byte.byte -> encoding -> string.
Variable Buffer_from : string -> encoding -> list Byte.byte.
Variable JSON_parse : list Byte.byte -> json_parsed.

Definition handleWebhook (this : config) (now : Z)
    (rawBody : list Byte.byte) (signatureHeader : option string)
  : M (option event_result) :=
  isValid <-
    lift_res (verifyTributeSignature hmac_digest Buffer_from
                (BodyBuffer rawBody) signatureHeader (Some (apiKey this))
                (signatureEncoding this)) ;;
  if negb isValid then throw TributeSignatureError
  else
    match JSON_parse rawBody with
    | JsonSyntaxError => throw JsSyntaxError
    | JsonNull => throw (JsTypeError "Cannot read properties of null")
    | JsonObject event =>
        if negb (allowed_has this (Envelope.name event)) then ret None
        else
          match Envelope.name event with
          | VStr name =>
              if String.eqb name "new_subscription"
              then handleNewSubscription this now event
              else if String.eqb name "cancelled_subscription"
              then handleCancelledSubscription this event
              else if String.eqb name "new_donation"
              then handleNewDonation this event
              else if String.eqb name "recurrent_donation"
              then handleRecurrentDonation this event
              else if String.eqb name "cancelled_donation"
              then handleCancelledDonation this event
              else ret None
          | _ => ret None
          end
    end.

End Manager.

(** ** TributeSubscriptionManager.js: queries *)

(** The public description of a plan returned by [listPlans]. *)
Module PublicPlan.
Record t : Type := mk {
  id : string;
  title : string;
  amount : value;
  currency : option string;
  period : value;
  subscriptionLink : string;
  metadata : option metadata
}.
End PublicPlan.

Definition listPlans (this : config) : list PublicPlan.t :=
  List.map (fun plan =>
    PublicPlan.mk (Plan.id plan) (Plan.title plan) (Plan.amount plan)
      (Plan.currency plan) (Plan.period plan) (Plan.subscriptionLink plan)
      (Plan.metadata plan)) (plans this).

(** The keys of the intent map are strings: a truthy [intentId] of another
    type is looked up and not found. *)
Definition getIntentById (this : config) (intentId : value)
  : M (option Intent.t) :=
  if negb (js_truthy intentId) then
    throw (TributeConfigurationError "intentId is required")
  else
    match intentId with
    | VStr intentId => store_call (Store.getIntentById intentId)
    | _ => ret None
    end.

Definition getSubscriptionByTributeId (this : config)
    (tributeSubscriptionId : value) : M (option Sub.t) :=
  if strict_eq tributeSubscriptionId VUndef
     || strict_eq tributeSubscriptionId VNull
     || strict_eq tributeSubscriptionId (VStr "")
  then throw (TributeConfigurationError "tributeSubscriptionId is required")
  else store_call (Store.getSubscriptionByTributeId tributeSubscriptionId).

(** The store always has the method. *)
Definition listPayments (this : config) (filters : PaymentListFilters.t)
  : M (list Payment.t) :=
  store_call (Store.listPayments filters).

(** ** TributeSubscriptionManager.js: the constructor on the caller's options *)

(** [options.allowedWebhookEvents]: absent, not an array, or an array. *)
Inductive events_option : Type :=
  | EventsUndefined
  | EventsNotArray
  | EventsArray (names : list value).

(** [options.eventPublisher]: absent, a function, or anything else
    ([null] included). *)
Inductive publisher_option : Type :=
  | PublisherUndefined
  | PublisherFunction (f : event_result -> option thrown)
  | PublisherOther.

(** The object passed to [new TributeSubscriptionManager(...)]: [plans] is
    [None] when it is not an array; [store] tells whether the store is an
    instance of [SubscriptionStore]; an optional field that is [undefined]
    takes the default of the destructuring. *)
Module ManagerOptions.
Record t : Type := mk {
  plans : option (list Plan.t);
  apiKey : value;
  store : bool;
  intentTtlMs : option Z;
  signatureEncoding : option encoding;
  allowedWebhookEvents : events_option;
  eventPublisher : publisher_option;
  eventPublisherFailureMode : value
}.
End ManagerOptions.

(** The fields that the constructor assigns. *)
Module Manager.
Record t : Type := mk {
  plans : list Plan.t;
  apiKey : value;
  intentTtlMs : Z;
  signatureEncoding : encoding;
  allowedWebhookEvents : list string;
  eventPublisher : option (event_result -> option thrown);
  eventPublisherFailureMode : failure_mode
}.
End Manager.

(** The loop over [allowedWebhookEvents]: the first name that
    [SUPPORTED_WEBHOOK_EVENTS] does not include is refused. *)
Fixpoint supported_names (names : list value) : res (list string) :=
  match names with
  | [] => Ok []
  | event :: rest =>
      match event with
      | VStr name =>
          if bool_decide (name ∈ SUPPORTED_WEBHOOK_EVENTS)
          then match supported_names rest with
               | Ok names => Ok (name :: names)
               | Err e => Err e
               end
          else Err (TributeConfigurationError
                      ("Unsupported Tribute webhook event: " +:+ name))
      | other =>
          Err (TributeConfigurationError
                 ("Unsupported Tribute webhook event: " +:+ js_String other))
      end
  end.

(** The checks of [allowedWebhookEvents] (its default is
    [SUPPORTED_WEBHOOK_EVENTS]). *)
Definition allowed_events_of (events : events_option) : res (list string) :=
  match events with
  | EventsUndefined => Ok SUPPORTED_WEBHOOK_EVENTS
  | EventsNotArray | EventsArray [] =>
      Err (TributeConfigurationError
             "allowedWebhookEvents must be a non-empty array")
  | EventsArray names => supported_names names
  end.

(** [['throw', 'log'].includes(eventPublisherFailureMode)] (its default is
    ['throw']). *)
Definition failure_mode_of (mode : value) : option failure_mode :=
  match mode with
  | VUndef => Some FailThrow
  | VStr mode =>
      if String.eqb mode "throw" then Some FailThrow
      else if String.eqb mode "log" then Some FailLog
      else None
  | _ => None
  end.

Definition new_TributeSubscriptionManager (options : ManagerOptions.t)
  : res Manager.t :=
  match ManagerOptions.plans options with
  | None | Some [] =>
      Err (TributeConfigurationError
             "At least one subscription plan must be provided")
  | Some plans =>
      if negb (js_truthy (ManagerOptions.apiKey options)) then
        Err (TributeConfigurationError "Tribute API key is required")
      else if negb (ManagerOptions.store options) then
        Err (TributeConfigurationError "store must extend SubscriptionStore")
      else
        match
          allowed_events_of (ManagerOptions.allowedWebhookEvents options)
        with
        | Err e => Err e
        | Ok allowed =>
            match ManagerOptions.eventPublisher options with
            | PublisherOther =>
                Err (TributeConfigurationError
                       "eventPublisher must be a function when provided")
            | publisher =>
                match
                  failure_mode_of
                    (ManagerOptions.eventPublisherFailureMode options)
                with
                | None =>
                    Err (TributeConfigurationError
                           ("eventPublisherFailureMode must be either "
                            +:+ dq +:+ "throw" +:+ dq +:+ " or "
                            +:+ dq +:+ "log" +:+ dq))
                | Some mode =>
                    Ok (Manager.mk plans
                          (ManagerOptions.apiKey options)
                          (default DEFAULT_INTENT_TTL_MS
                             (ManagerOptions.intentTtlMs options))
                          (default Hex
                             (ManagerOptions.signatureEncoding options))
                          allowed
                          match publisher with
                          | PublisherFunction f => Some f
                          | _ => None
                          end
                          mode)
                end
            end
        end
  end.

(** The manager as the rest of the development reads it: its key is a
    string. *)
Definition config_of (m : Manager.t) : option config :=
  match Manager.apiKey m with
  | VStr key =>
      Some {| plans := Manager.plans m;
              apiKey := key;
              intentTtlMs := Manager.intentTtlMs m;
              signatureEncoding := Manager.signatureEncoding m;
              allowedWebhookEvents := Manager.allowedWebhookEvents m;
              eventPublisher := Manager.eventPublisher m;
              eventPublisherFailureMode :=
                Manager.eventPublisherFailureMode m |}
  | _ => None
  end.

(** ** Definitions used to state the properties *)

(** The matching rule of plan resolution as one boolean: every matching
    field is a wildcard on the plan or agrees with the payload; the period
    is compared only when both sides carry one. *)
Definition field_matches (planField payloadField : value) : bool :=
  strict_eq planField VUndef || strict_eq planField payloadField.

Definition currency_matches (plan : Plan.t) (payload : Payload.t) : bool :=
  match Plan.currency plan with
  | None => true
  | Some c =>
      String.eqb (toLowerCase c)
                 (toLowerCase (js_String (Payload.currency payload ?? VStr "")))
  end.

Definition amount_matches (plan : Plan.t) (payload : Payload.t) : bool :=
  strict_eq (Plan.amount plan) VUndef
  || strict_eq (Plan.amount plan) (Payload.amount payload)
  || strict_eq (Plan.amount plan) (Payload.price payload).

Definition period_matches (plan : Plan.t) (payload : Payload.t) : bool :=
  negb (js_truthy (Plan.period plan))
  || negb (js_truthy (Payload.period payload))
  || String.eqb (js_String (Plan.period plan))
                (js_String (Payload.period payload)).

Definition plan_matches (plan : Plan.t) (payload : Payload.t) : bool :=
  field_matches (Plan.tributeSubscriptionId plan)
                (Payload.subscription_id payload)
  && field_matches (Plan.tributePeriodId plan) (Payload.period_id payload)
  && field_matches (Plan.price plan) (Payload.price payload)
  && currency_matches plan payload
  && period_matches plan payload
  && amount_matches plan payload.

(** The rule with the period treated like the other fields: unset on the
    plan, or equal to the payload's. *)
Definition plan_matches_period_strict (plan : Plan.t) (payload : Payload.t)
  : bool :=
  field_matches (Plan.tributeSubscriptionId plan)
                (Payload.subscription_id payload)
  && field_matches (Plan.tributePeriodId plan) (Payload.period_id payload)
  && field_matches (Plan.price plan) (Payload.price payload)
  && currency_matches plan payload
  && field_matches (Plan.period plan) (Payload.period payload)
  && amount_matches plan payload.

Definition payload_of (event : Envelope.t) : Payload.t :=
  default Payload.empty (Envelope.payload event).

(** The identifying field carried by [TributePlanNotFoundError]. *)
Definition plan_error_of (payload : Payload.t) : error :=
  TributePlanNotFoundError
    (js_String (Payload.subscription_id payload
                ?? Payload.period_id payload
                ?? Payload.price payload)).

Definition is_configuration_error (r : res bool) : bool :=
  match r with
  | Err (TributeConfigurationError _) => true
  | _ => false
  end.

(** *** The publisher *)

(** No raise of the publisher reaches the caller: there is no publisher, it
    completes, or the failure mode is [log]. *)
Definition publisher_quiet (this : config) : Prop :=
  forall publisher r t,
    eventPublisher this = Some publisher -> publisher r = Some t ->
    eventPublisherFailureMode this = FailLog.

(** The same manager with no [eventPublisher]. *)
Definition without_publisher (this : config) : config :=
  {| plans := plans this;
     apiKey := apiKey this;
     intentTtlMs := intentTtlMs this;
     signatureEncoding := signatureEncoding this;
     allowedWebhookEvents := allowedWebhookEvents this;
     eventPublisher := None;
     eventPublisherFailureMode := eventPublisherFailureMode this |}.

(** The publisher step put after a run that did everything else. *)
Definition after_publisher (this : config)
    (run : res (option event_result) * world)
  : res (option event_result) * world :=
  match run with
  | (Ok (Some r), w1) =>
      match publishEvent this r w1 with
      | (Ok _, w2) => (Ok (Some r), w2)
      | (Err e, w2) => (Err e, w2)
      end
  | other => other
  end.

(** The error that reaches the caller when the publisher raises [t]. *)
Definition thrown_error (t : thrown) : error :=
  match t with
  | ThrownError e => e
  | ThrownValue v => JsError (js_String v)
  end.

Definition record_published (r : event_result) (w : world) : world :=
  {| w_store := w_store w;
     w_emitted := w_emitted w;
     w_published := w_published w ++ [r] |}.

(** *** Watermarks and notifications *)

Definition subs_monotone (m m' : gmap value Sub.t) : Prop :=
  forall k s, m !! k = Some s ->
    exists s', m' !! k = Some s'
               /\ (s' = s \/ Sub.lastEventAt s < Sub.lastEventAt s').

Definition dons_monotone (m m' : gmap value Donation.t) : Prop :=
  forall k d, m !! k = Some d ->
    exists d', m' !! k = Some d'
               /\ (d' = d \/ Donation.lastEventAt d < Donation.lastEventAt d').

Definition donation_type_name (t : donation_event_type) : string :=
  match t with
  | DonCreated => "created"
  | DonRecurrent => "recurrent"
  | DonCancelled => "cancelled"
  end.

(** The names under which a result is emitted, in order: the transition,
    the category, and "event". *)
Definition specific_name (r : event_result) : string :=
  match r with
  | SubscriptionEvent t _ _ => "subscription." +:+ subscription_type_name t
  | DonationEvent t _ _ => "donation." +:+ donation_type_name t
  end.

Definition category_name (r : event_result) : string :=
  match r with
  | SubscriptionEvent _ _ _ => "subscription.any"
  | DonationEvent _ _ _ => "donation.any"
  end.

Definition notifications (r : event_result) : list (string * event_result) :=
  [(specific_name r, r); (category_name r, r); ("event", r)].

(** The entity of an accepted result is the stored one, and its watermark
    is above the one stored before under the same key. *)
Definition raised_by (st st' : Store.t) (r : event_result) : Prop :=
  match r with
  | SubscriptionEvent _ s _ =>
      exists k, Store.subscriptions st' !! k = Some s
                /\ forall old, Store.subscriptions st !! k = Some old ->
                     Sub.lastEventAt old < Sub.lastEventAt s
  | DonationEvent _ d _ =>
      exists k, Store.donations st' !! k = Some d
                /\ forall old, Store.donations st !! k = Some old ->
                     Donation.lastEventAt old < Donation.lastEventAt d
  end.

(** What one run may do to the stored entities: every stored entity stays,
    unchanged or with a higher watermark; an accepted result is stored,
    raised and notified; an ignored event changes nothing. *)
Definition step_ok (w : world) (run : res (option event_result) * world)
  : Prop :=
  dons_monotone (Store.donations (w_store w)) (Store.donations (w_store run.2))
  /\ subs_monotone (Store.subscriptions (w_store w))
                   (Store.subscriptions (w_store run.2))
  /\ (forall r, run.1 = Ok (Some r) ->
        raised_by (w_store w) (w_store run.2) r
        /\ w_emitted run.2 = (w_emitted w ++ notifications r)%list)
  /\ (run.1 = Ok None -> run.2 = w).

(** *** What an accepted event leaves behind *)

Definition stored_in (st : Store.t) (r : event_result) : Prop :=
  match r with
  | SubscriptionEvent _ s _ => exists k, Store.subscriptions st !! k = Some s
  | DonationEvent _ d _ => exists k, Store.donations st !! k = Some d
  end.

(** Cancellations are not payments; every other accepted event appends one
    ledger entry. *)
Definition ledger_after (st st' : Store.t) (r : event_result) : Prop :=
  match r with
  | SubscriptionEvent Cancelled _ _ | DonationEvent DonCancelled _ _ =>
      Store.payments st' = Store.payments st
  | _ => exists p, Store.payments st' = (Store.payments st ++ [p])%list
  end.

Definition accepted_effects (w w' : world) (r : event_result) : Prop :=
  stored_in (w_store w') r
  /\ w_emitted w' = (w_emitted w ++ notifications r)%list
  /\ ledger_after (w_store w) (w_store w') r.

Definition accepted_ok (w : world) (run : res (option event_result) * world)
  : Prop :=
  forall r, run.1 = Ok (Some r) -> accepted_effects w run.2 r.

(** *** Sample data *)

Definition sample_hmac_digest (key : string) (body : list Byte.byte)
    (enc : encoding) : string :=
  key +:+ ":" +:+ string_of_list_byte body.

Definition sample_Buffer_from (text : string) (enc : encoding)
  : list Byte.byte :=
  list_byte_of_string text.

Definition plan_m10 : Plan.t :=
  Plan.mk "m10" "Monthly 10 EUR" (VNum 1000) (Some "eur") (VStr "monthly")
    "https://t.me/tribute/app?startapp=plan10" (VNum 1644) (VNum 1547)
    VUndef None.

(** A plan that names a period and nothing else. *)
Definition plan_monthly : Plan.t :=
  Plan.mk "monthly" "Monthly" VUndef None (VStr "monthly")
    "https://t.me/tribute/app?startapp=monthly" VUndef VUndef VUndef None.

Definition sample_config : config :=
  {| plans := [plan_m10];
     apiKey := "test-secret";
     intentTtlMs := DEFAULT_INTENT_TTL_MS;
     signatureEncoding := Hex;
     allowedWebhookEvents := SUPPORTED_WEBHOOK_EVENTS;
     eventPublisher := None;
     eventPublisherFailureMode := FailThrow |}.

Definition subscriptions_only_config : config :=
  {| plans := [plan_m10];
     apiKey := "test-secret";
     intentTtlMs := DEFAULT_INTENT_TTL_MS;
     signatureEncoding := Hex;
     allowedWebhookEvents := ["new_subscription"; "cancelled_subscription"];
     eventPublisher := None;
     eventPublisherFailureMode := FailThrow |}.

Definition empty_world : world :=
  {| w_store := Store.new; w_emitted := []; w_published := [] |}.

(** [{ donation_request_id: 700, period: 'monthly', amount: 1000,
       currency: 'usd', telegram_user_id: 1 }] *)
Definition donation_payload_700 : Payload.t :=
  Payload.mk VUndef VUndef VUndef (VNum 1000) (VStr "usd") (VStr "monthly")
    (VNum 1) VUndef VUndef VUndef DFalsy VUndef (VNum 700) VUndef VUndef
    VUndef VUndef.

Definition donation_event_700 : Envelope.t :=
  Envelope.mk (VStr "new_donation") (DValid 1000) (DValid 1000)
    (Some donation_payload_700).

Definition sample_body : list Byte.byte := list_byte_of_string "{}".

Definition sample_signature : string := "test-secret:{}".

(** The scenario of the test suite: plan m10, an intent of user 123456
    created at time 1000, and the provider's [new_subscription] for
    subscription 1644, created and sent at time 2000000 (after the intent
    has expired at 901000). *)
Definition world_with_intent : world :=
  (createSubscriptionIntent sample_config 1000 "intent-1" "m10" (VNum 123456)
     None empty_world).2.

Definition intent_1 : Intent.t :=
  Intent.mk "intent-1" "m10" (VNum 123456) 1000 901000 (Some []).

Definition subscription_payload_1644 : Payload.t :=
  Payload.mk (VNum 1644) (VNum 1547) (VNum 1000) (VNum 1000) (VStr "eur")
    (VStr "monthly") (VNum 123456) VUndef (VStr "intent-1") VUndef
    (DValid 2592000000) VUndef VUndef VUndef VUndef VUndef VUndef.

Definition subscription_event_1644 : Envelope.t :=
  Envelope.mk (VStr "new_subscription") (DValid 2000000) (DValid 2000000)
    (Some subscription_payload_1644).

Definition subscription_1644 : Sub.t :=
  Sub.mk "m10" (VNum 1644) (VNum 1547) (VNum 123456) VNull (VNum 1000)
    (VStr "eur") (VStr "monthly") SActive 2000000 2000000 (Some 2592000000)
    None VNull (Some []).

Definition created_result_1644 : event_result :=
  SubscriptionEvent Created subscription_1644
    {| ctx_event := Some subscription_event_1644;
       ctx_intent := Some intent_1;
       ctx_intentStatus := Some Expired;
       ctx_previousSubscription := None;
       ctx_cancellation := None;
       ctx_source := None |}.

Definition subscription_body : list Byte.byte :=
  list_byte_of_string "new_subscription 1644".

Definition subscription_signature : string :=
  "test-secret:new_subscription 1644".

(** A parser for the sample bodies. *)
Definition sample_JSON_parse (body : list Byte.byte) : json_parsed :=
  if bool_decide (body = sample_body) then JsonObject donation_event_700
  else if bool_decide (body = subscription_body)
  then JsonObject subscription_event_1644
  else JsonSyntaxError.

(** A publisher whose queue is offline. *)
Definition offline_publisher (r : event_result) : option thrown :=
  Some (ThrownError (JsError "queue offline")).

Definition offline_config : config :=
  {| plans := [plan_m10];
     apiKey := "test-secret";
     intentTtlMs := DEFAULT_INTENT_TTL_MS;
     signatureEncoding := Hex;
     allowedWebhookEvents := SUPPORTED_WEBHOOK_EVENTS;
     eventPublisher := Some offline_publisher;
     eventPublisherFailureMode := FailThrow |}.

(** The donation scenario: a donation 501 created at time 1000, cancelled
    at time 2000, and a recurrence created and sent at time 3000. *)
Definition donation_payload_501 : Payload.t :=
  Payload.mk VUndef VUndef VUndef (VNum 1000) (VStr "usd") (VStr "monthly")
    (VNum 987654) (VNum 555) VUndef VUndef DFalsy VUndef (VNum 501)
    (VStr "Support project") (VBool false) VUndef VUndef.

Definition donation_event_501 (name : string) (time : Z) : Envelope.t :=
  Envelope.mk (VStr name) (DValid time) (DValid time)
    (Some donation_payload_501).

Definition world_with_donation : world :=
  (handleNewDonation sample_config (donation_event_501 "new_donation" 1000)
     empty_world).2.

Definition world_with_cancelled_donation : world :=
  (handleCancelledDonation sample_config
     (donation_event_501 "cancelled_donation" 2000) world_with_donation).2.

Definition cancelled_donation_501 : Donation.t :=
  Donation.mk (VNum 501) (VStr "Support project") (VNum 987654) (VNum 555)
    (VStr "monthly") (VNum 1000) (VStr "usd") false VNull VNull DCancelled
    1000 2000 (Some 2000) (Some []).

(** Subscription events without a subscription id, for a manager whose only
    plan names a period: two intents of user 42, and the event. *)
Definition monthly_config : config :=
  {| plans := [plan_monthly];
     apiKey := "test-secret";
     intentTtlMs := DEFAULT_INTENT_TTL_MS;
     signatureEncoding := Hex;
     allowedWebhookEvents := SUPPORTED_WEBHOOK_EVENTS;
     eventPublisher := None;
     eventPublisherFailureMode := FailThrow |}.

Definition world_with_two_intents : world :=
  (createSubscriptionIntent monthly_config 1100 "intent-b" "monthly" (VNum 42)
     None
     (createSubscriptionIntent monthly_config 1000 "intent-a" "monthly"
        (VNum 42) None empty_world).2).2.

Definition payload_without_id : Payload.t :=
  Payload.mk VUndef VUndef VUndef (VNum 500) (VStr "usd") (VStr "monthly")
    (VNum 42) VUndef VUndef VUndef DFalsy VUndef VUndef VUndef VUndef VUndef
    VUndef.

Definition event_without_id : Envelope.t :=
  Envelope.mk (VStr "new_subscription") (DValid 5000) (DValid 5000)
    (Some payload_without_id).

Definition intent_a : Intent.t :=
  Intent.mk "intent-a" "monthly" (VNum 42) 1000 901000 (Some []).

(** The type of the result of a run, as the name it is emitted under. *)
Definition outcome_name (out : res (option event_result)) : option string :=
  match out with
  | Ok (Some r) => Some (specific_name r)
  | _ => None
  end.

(** A manual cancellation of subscription 1644 dated 1500000, before the
    stored watermark 2000000. *)
Definition world_with_subscription : world :=
  (handleNewSubscription sample_config 2000000 subscription_event_1644
     world_with_intent).2.

Definition early_manual_cancellation : ManualCancellationOptions.t :=
  ManualCancellationOptions.mk (VNum 1644) (VStr "user_request")
    (InNumber (Some 1500000)) None.

Definition stored_lastEventAt (key : value) (w : world) : option Z :=
  Sub.lastEventAt <$> Store.subscriptions (w_store w) !! key.

(** The intent that a first-time [new_subscription] consumes, with the
    store after the lookups: by the intent id of the payload (else of its
    metadata), else by user and plan. *)
Definition consume_first_time_intent (now : Z) (payload : Payload.t)
    (plan : Plan.t) (st : Store.t) : option Intent.t * Store.t :=
  let intentId :=
    Payload.intent_id payload ?? Payload.metadata_intent_id payload in
  let byId :=
    if js_truthy intentId then Store.consumeIntent (js_String intentId) st
    else (None, st) in
  match byId.1 with
  | Some _ => byId
  | None =>
      if negb (strict_eq (Payload.telegram_user_id payload) VUndef)
      then Store.consumeIntentByTelegramAndPlan now
             (Payload.telegram_user_id payload) (Plan.id plan) byId.2
      else (None, byId.2)
  end.



(** The runs of the sample scenarios. *)
Definition first_delivery : res (option event_result) * world :=
  handleWebhook sample_hmac_digest sample_Buffer_from sample_JSON_parse
    sample_config 2000000 subscription_body (Some subscription_signature)
    world_with_intent.

Definition recurrence_after_cancellation
  : res (option event_result) * world :=
  handleRecurrentDonation sample_config
    (donation_event_501 "recurrent_donation" 3000)
    world_with_cancelled_donation.

Definition recurrence_of_active_donation : res (option event_result) * world :=
  handleRecurrentDonation sample_config
    (donation_event_501 "recurrent_donation" 3000) world_with_donation.

Definition first_without_id : res (option event_result) * world :=
  handleNewSubscription monthly_config 6000 event_without_id
    world_with_two_intents.

Definition second_without_id : res (option event_result) * world :=
  handleNewSubscription monthly_config 6000 event_without_id
    first_without_id.2.

Definition after_manual_cancellation : res event_result * world :=
  cancelSubscriptionLocally sample_config 2400000 early_manual_cancellation
    world_with_subscription.

(** The event without a subscription id, dated 4000, delivered after the
    one dated 5000. *)
Definition older_without_id : res (option event_result) * world :=
  handleNewSubscription monthly_config 6000
    (Envelope.mk (VStr "new_subscription") (DValid 4000) (DValid 4000)
       (Some payload_without_id))
    first_without_id.2.

(** The renewal of the sample subscription: the provider's
    [new_subscription] for subscription 1644 sent at 3000000, delivered
    after the one of 2000000 has been stored. *)
Definition renewal_event_1644 : Envelope.t :=
  Envelope.mk (VStr "new_subscription") (DValid 3000000) (DValid 3000000)
    (Some subscription_payload_1644).

Definition renewal_body : list Byte.byte :=
  list_byte_of_string "renewal 1644".

Definition renewal_signature : string := "test-secret:renewal 1644".

(** A subscription event that carries the subscription id 0. *)
Definition payload_with_zero_id : Payload.t :=
  Payload.mk (VNum 0) VUndef VUndef (VNum 500) (VStr "usd") (VStr "monthly")
    (VNum 42) VUndef VUndef VUndef DFalsy VUndef VUndef VUndef VUndef VUndef
    VUndef.

Definition event_with_zero_id : Envelope.t :=
  Envelope.mk (VStr "new_subscription") (DValid 5000) (DValid 5000)
    (Some payload_with_zero_id).

Definition zero_id_body : list Byte.byte :=
  list_byte_of_string "new_subscription 0".


(** A parser for these bodies and the sample ones. *)
Definition scenario_JSON_parse (body : list Byte.byte) : json_parsed :=
  if bool_decide (body = renewal_body) then JsonObject renewal_event_1644
  else if bool_decide (body = zero_id_body)
  then JsonObject event_with_zero_id
  else sample_JSON_parse body.

Definition renewal_delivery : res (option event_result) * world :=
  handleWebhook sample_hmac_digest sample_Buffer_from scenario_JSON_parse
    sample_config 3100000 renewal_body (Some renewal_signature)
    world_with_subscription.




(** [Buffer.from(text, 'hex')] of the platform: two hexadecimal digits give
    a byte, and decoding stops at the first pair that is not two
    hexadecimal digits. *)
Definition hex_digit (c : ascii) : option nat :=
  let n := nat_of_ascii c in
  if ((48 <=? n) && (n <=? 57))%nat then Some (n - 48)%nat
  else if ((97 <=? n) && (n <=? 102))%nat then Some (n - 87)%nat
  else if ((65 <=? n) && (n <=? 70))%nat then Some (n - 55)%nat
  else None.

Fixpoint hex_decode (text : string) : list Byte.byte :=
  match text with
  | String a (String b rest) =>
      match hex_digit a, hex_digit b with
      | Some high, Some low =>
          byte_of_ascii (ascii_of_nat (16 * high + low)) :: hex_decode rest
      | _, _ => []
      end
  | _ => []
  end.

(** Used with the encoding [hex] only. *)
Definition hex_Buffer_from (text : string) (enc : encoding)
  : list Byte.byte :=
  hex_decode text.

(** The bytes written as hexadecimal digits, as [digest('hex')] gives
    them. *)
Definition hex_char (n : nat) : ascii :=
  ascii_of_nat (if (n <? 10)%nat then 48 + n else 87 + n).

Definition hex_encode (bytes : list Byte.byte) : string :=
  fold_right
    (fun b text =>
       let n := nat_of_ascii (ascii_of_byte b) in
       String (hex_char (n / 16)) (String (hex_char (n mod 16)) text))
    "" bytes.

(** A stand-in for the HMAC whose digest is hexadecimal. *)
Definition hex_hmac_digest (key : string) (body : list Byte.byte)
    (enc : encoding) : string :=
  hex_encode (list_byte_of_string (sample_hmac_digest key body enc)).

Definition hex_digest : string :=
  hex_hmac_digest "test-secret" sample_body Hex.

(** ** Definitions used to state further properties *)

(** *** The intent map *)

(** The list stands for a [Map]: no key occurs twice. *)
Definition keys_unique {A : Type} (m : list (string * A)) : Prop :=
  NoDup (m.*1).

(** An intent is one of user [telegramUserId] for plan [planId], as
    [consumeIntentByTelegramAndPlan] tests it. *)
Definition intent_matches (telegramUserId : value) (planId : string)
    (entry : string * Intent.t) : bool :=
  String.eqb (Intent.planId entry.2) planId
  && String.eqb (js_String (Intent.telegramUserId entry.2))
                (js_String telegramUserId).

Definition intent_expired (now : Z) (entry : string * Intent.t) : bool :=
  Intent.expiresAt entry.2 <? now.

Definition other_intent (telegramUserId : value) (planId : string)
    (entry : string * Intent.t) : bool :=
  negb (intent_matches telegramUserId planId entry).

(** *** Sample data *)

Definition intent_of (id : string) (user : Z) (expiresAt : Z) : Intent.t :=
  Intent.mk id "m10" (VNum user) 0 expiresAt None.

(** Four intents: an expired one of user 7, one of user 8, a live one of
    user 7 and a later one of user 7. *)
Definition four_intents : list (string * Intent.t) :=
  [ ("a", intent_of "a" 7 100); ("b", intent_of "b" 8 900);
    ("c", intent_of "c" 7 900); ("d", intent_of "d" 7 950) ].

Definition store_with_four_intents : Store.t :=
  Store.mk four_intents ∅ [] ∅.

(** *** The ledger queries *)

(** Newest first. *)
Fixpoint newest_first (l : list Payment.t) : Prop :=
  match l with
  | [] => True
  | p :: rest =>
      Forall (fun q => Payment.paidAt q <= Payment.paidAt p) rest
      /\ newest_first rest
  end.

(** The filters in words: the user agrees as a string, the kind is one of
    the kinds asked for, and the payment time lies within the bounds that
    are valid dates, both bounds included. *)
Definition passes (filters : PaymentListFilters.t) (p : Payment.t) : Prop :=
  (nullish_value (PaymentListFilters.telegramUserId filters) = false ->
   js_String (Payment.telegramUserId p)
   = js_String (PaymentListFilters.telegramUserId filters))
  /\ match PaymentListFilters.kind filters with
     | KindUnset => True
     | KindOne k => Payment.kind p = k
     | KindArray ks => Payment.kind p ∈ ks
     end
  /\ (forall t, PaymentListFilters.since filters = DateGiven (Some t) ->
        t <= Payment.paidAt p)
  /\ (forall t, PaymentListFilters.until filters = DateGiven (Some t) ->
        Payment.paidAt p <= t).

Definition without_limit (filters : PaymentListFilters.t)
  : PaymentListFilters.t :=
  PaymentListFilters.mk (PaymentListFilters.telegramUserId filters)
    (PaymentListFilters.kind filters) (PaymentListFilters.since filters)
    (PaymentListFilters.until filters) LimitNotNumber.

Definition paid_at (t : Z) (p : Payment.t) : bool := Payment.paidAt p =? t.

(** The filters with the limit replaced. *)
Definition with_limit (limit : limit_filter) (filters : PaymentListFilters.t)
  : PaymentListFilters.t :=
  PaymentListFilters.mk (PaymentListFilters.telegramUserId filters)
    (PaymentListFilters.kind filters) (PaymentListFilters.since filters)
    (PaymentListFilters.until filters) limit.

(** A ledger of three donations paid at 10, 30 and 20. *)
Definition donation_paid_at (paidAt : Z) : Payment.t :=
  Payment.mk KDonation VUndef None (VNum 501) (VNum 987654) VUndef
    (VNum 1000) (VStr "usd") paidAt Payload.empty.

Definition store_with_three_payments : Store.t :=
  Store.mk [] ∅
    [donation_paid_at 10; donation_paid_at 30; donation_paid_at 20] ∅.

(** *** Signatures *)

(** The sample digest of the sample body under the sample key. *)
Definition sample_digest : string :=
  computeDigest sample_hmac_digest sample_body "test-secret" Hex.

(** *** Intents *)

(** [telegramUserId] is absent for [createSubscriptionIntent]. *)
Definition user_absent (telegramUserId : value) : bool :=
  strict_eq telegramUserId VUndef || strict_eq telegramUserId VNull
  || strict_eq telegramUserId (VStr "").

(** Everything of a world but the intents of its store. *)
Definition same_but_intents (w w' : world) : Prop :=
  Store.subscriptions (w_store w') = Store.subscriptions (w_store w)
  /\ Store.donations (w_store w') = Store.donations (w_store w)
  /\ Store.payments (w_store w') = Store.payments (w_store w)
  /\ w_emitted w' = w_emitted w
  /\ w_published w' = w_published w.

(** *** Dispatch *)

(** The handler that [handleWebhook] runs for an event name. *)
Definition handler_of (this : config) (now : Z) (name : string)
  : option (Envelope.t -> M (option event_result)) :=
  if String.eqb name "new_subscription"
  then Some (handleNewSubscription this now)
  else if String.eqb name "cancelled_subscription"
  then Some (handleCancelledSubscription this)
  else if String.eqb name "new_donation"
  then Some (handleNewDonation this)
  else if String.eqb name "recurrent_donation"
  then Some (handleRecurrentDonation this)
  else if String.eqb name "cancelled_donation"
  then Some (handleCancelledDonation this)
  else None.

(** The intent id an event names: [payload.intent_id], else
    [payload.metadata.intent_id]. *)
Definition payload_intent_id (payload : Payload.t) : value :=
  Payload.intent_id payload ?? Payload.metadata_intent_id payload.

(** The provider's [new_subscription] for subscription 1644 sent at time
    500000, while the intent created at 1000 is live. *)
Definition subscription_event_in_time : Envelope.t :=
  Envelope.mk (VStr "new_subscription") (DValid 500000) (DValid 500000)
    (Some subscription_payload_1644).

(** *** Cancellations *)

(** [tributeSubscriptionId] is absent for a query or a manual
    cancellation. *)
Definition id_absent (tributeSubscriptionId : value) : bool :=
  strict_eq tributeSubscriptionId VUndef
  || strict_eq tributeSubscriptionId VNull
  || strict_eq tributeSubscriptionId (VStr "").

(** A stored subscription after a cancellation: every field but the
    status, the cancellation fields and the watermark is kept. *)
Definition cancelled_subscription (existing : Sub.t) (cancelledAt : Z)
    (cancelReason : value) (lastEventAt : Z) : Sub.t :=
  Sub.mk (Sub.planId existing) (Sub.tributeSubscriptionId existing)
    (Sub.tributePeriodId existing) (Sub.telegramUserId existing)
    (Sub.userId existing) (Sub.amount existing) (Sub.currency existing)
    (Sub.period existing) SCancelled (Sub.createdAt existing) lastEventAt
    (Sub.expiresAt existing) (Some cancelledAt) cancelReason
    (Sub.metadata existing).

Definition cancelled_donation (existing : Donation.t) (cancelledAt : Z)
    (lastEventAt : Z) : Donation.t :=
  Donation.mk (Donation.donationRequestId existing)
    (Donation.donationName existing) (Donation.telegramUserId existing)
    (Donation.userId existing) (Donation.period existing)
    (Donation.amount existing) (Donation.currency existing)
    (Donation.anonymously existing) (Donation.message existing)
    (Donation.webAppLink existing) DCancelled (Donation.createdAt existing)
    lastEventAt (Some cancelledAt) (Donation.metadata existing).

(** [previous] is not a date at or after [incoming]. *)
Definition before (previous : option Z) (incoming : Z) : Prop :=
  forall p, previous = Some p -> p < incoming.

(** The provider's cancellation of subscription 1644, sent at 3000000. *)
Definition cancellation_event_1644 : Envelope.t :=
  Envelope.mk (VStr "cancelled_subscription") (DValid 3000000)
    (DValid 3000000) (Some subscription_payload_1644).

(** Donation 501 as stored by its [new_donation] of time 1000. *)
Definition donation_501 : Donation.t :=
  Donation.mk (VNum 501) (VStr "Support project") (VNum 987654) (VNum 555)
    (VStr "monthly") (VNum 1000) (VStr "usd") false VNull VNull DActive
    1000 1000 None (Some []).

(** The reason recorded by a manual cancellation: ['manual'] when the
    option is absent, [null] when it is [null], else the option. *)
Definition manual_reason (cancelReason : value) : value :=
  match cancelReason with
  | VUndef => VStr "manual"
  | reason => reason
  end.

(** The watermark after a manual cancellation at [stamp]: [stamp], or a
    later valid [sent_at] of the free-form payload. *)
Definition manual_lastEventAt (payload : option cancellation_payload)
    (stamp : Z) : Z :=
  match payload with
  | Some p =>
      match cp_sent_at p with
      | DValid sent => Z.max sent stamp
      | _ => stamp
      end
  | None => stamp
  end.

(** *** Donations *)

(** [completed] for a one-time donation, [active] otherwise. *)
Definition status_of_period (period : value) : donation_status :=
  if strict_eq period (VStr "once") then DCompleted else DActive.

(** *** What one delivery may change *)

(** At most one entity is written: the subscription under [sid] or the
    donation under [did]. *)
Definition entities_after (sid did : value) (st st' : Store.t) : Prop :=
  (Store.subscriptions st' = Store.subscriptions st
   /\ Store.donations st' = Store.donations st)
  \/ (exists s,
        Store.subscriptions st' = <[sid := s]> (Store.subscriptions st)
        /\ Store.donations st' = Store.donations st)
  \/ (exists d,
        Store.donations st' = <[did := d]> (Store.donations st)
        /\ Store.subscriptions st' = Store.subscriptions st).

(** The ledger only grows, by at most one entry. *)
Definition ledger_grows (st st' : Store.t) : Prop :=
  exists l,
    Store.payments st' = (Store.payments st ++ l)%list
    /\ (List.length l <= 1)%nat.

(** The calls of the publisher for a result: one if there is a publisher. *)
Definition publisher_calls (this : config) (r : event_result)
  : list event_result :=
  match eventPublisher this with
  | Some _ => [r]
  | None => []
  end.

(** Emissions and publisher calls of a run: for an accepted result its
    three notifications and then the call of the publisher; nothing
    otherwise, except when the call raises an error: then the publisher
    was called, once, after the three notifications, and the manager
    re-raises. *)
Definition announced (this : config) (w : world)
    (run : res (option event_result) * world) : Prop :=
  match run.1 with
  | Ok (Some r) =>
      w_emitted run.2 = (w_emitted w ++ notifications r)%list
      /\ w_published run.2 = (w_published w ++ publisher_calls this r)%list
  | Ok None =>
      w_emitted run.2 = w_emitted w /\ w_published run.2 = w_published w
  | Err e =>
      (w_emitted run.2 = w_emitted w /\ w_published run.2 = w_published w)
      \/ exists r,
           w_emitted run.2 = (w_emitted w ++ notifications r)%list
           /\ w_published run.2 = (w_published w ++ [r])%list
           /\ eventPublisherFailureMode this = FailThrow
  end.

(** The record of a returned result is the one stored under the id of the
    payload. *)
Definition returned_is_stored (sid did : value)
    (run : res (option event_result) * world) : Prop :=
  match run.1 with
  | Ok (Some (SubscriptionEvent _ s _)) =>
      Store.subscriptions (w_store run.2) !! sid = Some s
  | Ok (Some (DonationEvent _ d _)) =>
      Store.donations (w_store run.2) !! did = Some d
  | _ => True
  end.

Definition delivery_ok (this : config) (sid did : value) (w : world)
    (run : res (option event_result) * world) : Prop :=
  entities_after sid did (w_store w) (w_store run.2)
  /\ ledger_grows (w_store w) (w_store run.2)
  /\ sublist (Store.intents (w_store run.2)) (Store.intents (w_store w))
  /\ announced this w run
  /\ returned_is_stored sid did run.

(** The payload of a parsed body (empty when the body is no envelope). *)
Definition parsed_payload (parsed : json_parsed) : Payload.t :=
  match parsed with
  | JsonObject event => payload_of event
  | _ => Payload.empty
  end.

(** *** Refused events *)

Definition is_TributeConfigurationError (e : error) : Prop :=
  exists message, e = TributeConfigurationError message.

(** *** The options of the constructor *)

(** Every entry of the list is the name of a supported event. *)
Definition names_supported (names : list value) : Prop :=
  forall v, v ∈ names ->
    exists name, v = VStr name /\ name ∈ SUPPORTED_WEBHOOK_EVENTS.

(** The options that pass every check of the constructor: a non-empty
    array of plans, a truthy key, a store that is a [SubscriptionStore],
    an allow-list that is absent or a non-empty array of supported names,
    a publisher that is absent or a function, and a failure mode that is
    absent, ['throw'] or ['log']. *)
Definition valid_options (options : ManagerOptions.t) : Prop :=
  (exists plans,
     ManagerOptions.plans options = Some plans /\ plans <> [])
  /\ js_truthy (ManagerOptions.apiKey options) = true
  /\ ManagerOptions.store options = true
  /\ match ManagerOptions.allowedWebhookEvents options with
     | EventsUndefined => True
     | EventsNotArray => False
     | EventsArray names => names <> [] /\ names_supported names
     end
  /\ ManagerOptions.eventPublisher options <> PublisherOther
  /\ (ManagerOptions.eventPublisherFailureMode options = VUndef
      \/ ManagerOptions.eventPublisherFailureMode options = VStr "throw"
      \/ ManagerOptions.eventPublisherFailureMode options = VStr "log").

(** [{ plans: [plan_m10], apiKey: 'test-secret', store }] and the same
    object without a store. *)
Definition sample_options : ManagerOptions.t :=
  ManagerOptions.mk (Some [plan_m10]) (VStr "test-secret") true None None
    EventsUndefined PublisherUndefined VUndef.

Definition options_without_store : ManagerOptions.t :=
  ManagerOptions.mk (Some [plan_m10]) (VStr "test-secret") false None None
    EventsUndefined PublisherUndefined VUndef.

(** * Properties *)

(** ** Signature verification *)

Section SignatureFacts.

Variable hmac_digest : string -> list Byte.byte -> encoding -> string.
Variable Buffer_from : string -> encoding -> list Byte.byte.

Lemma verify_missing_key rawBody signatureHeader apiKey enc :
  missing apiKey = true ->
  verifyTributeSignature hmac_digest Buffer_from rawBody signatureHeader
    apiKey enc
  = Err (JsError "Tribute API key is required for signature verification").
Proof. unfold verifyTributeSignature. intros ->. reflexivity. Qed.

Lemma verify_missing_header rawBody signatureHeader apiKey enc :
  missing apiKey = false ->
  missing signatureHeader = true ->
  verifyTributeSignature hmac_digest Buffer_from rawBody signatureHeader
    apiKey enc = Ok false.
Proof. unfold verifyTributeSignature. intros -> ->. reflexivity. Qed.

Lemma verify_length_mismatch rawBody signatureHeader apiKey enc normalized :
  missing apiKey = false ->
  missing signatureHeader = false ->
  normalizeBody rawBody = Ok normalized ->
  List.length (Buffer_from (computeDigest hmac_digest normalized
                              (default "" apiKey) enc) enc)
  <> List.length (Buffer_from (default "" signatureHeader) enc) ->
  verifyTributeSignature hmac_digest Buffer_from rawBody signatureHeader
    apiKey enc = Ok false.
Proof.
  unfold verifyTributeSignature. intros -> -> -> Hlen.
  apply Nat.eqb_neq in Hlen. rewrite Hlen. reflexivity.
Qed.

(** C9 (as amended). A missing key raises the generic [Error] of the
    verifier; with a key, an absent or empty header gives [false]; with a
    key, a header and a body of a supported kind, buffers of different
    lengths decoded from the digest and from the header give [false]. *)
Theorem verify_outcomes rawBody signatureHeader apiKey enc :
  (missing apiKey = true ->
   verifyTributeSignature hmac_digest Buffer_from rawBody signatureHeader
     apiKey enc
   = Err (JsError "Tribute API key is required for signature verification")
   /\ verifyTributeSignature_buffer_only hmac_digest Buffer_from rawBody
        signatureHeader apiKey enc
      = Err (JsError "Tribute API key is required for signature verification"))
  /\ (missing apiKey = false -> missing signatureHeader = true ->
      verifyTributeSignature hmac_digest Buffer_from rawBody signatureHeader
        apiKey enc = Ok false
      /\ verifyTributeSignature_buffer_only hmac_digest Buffer_from rawBody
           signatureHeader apiKey enc = Ok false)
  /\ (forall normalized,
        missing apiKey = false -> missing signatureHeader = false ->
        normalizeBody rawBody = Ok normalized ->
        List.length (Buffer_from (computeDigest hmac_digest normalized
                                    (default "" apiKey) enc) enc)
        <> List.length (Buffer_from (default "" signatureHeader) enc) ->
        verifyTributeSignature hmac_digest Buffer_from rawBody
          signatureHeader apiKey enc = Ok false
        /\ (rawBody = BodyBuffer normalized ->
            verifyTributeSignature_buffer_only hmac_digest Buffer_from
              rawBody signatureHeader apiKey enc = Ok false)).
Proof.
  split; [|split].
  - intros Hk. split; [by apply verify_missing_key|].
    unfold verifyTributeSignature_buffer_only. by rewrite Hk.
  - intros Hk Hs. split; [by apply verify_missing_header|].
    unfold verifyTributeSignature_buffer_only. by rewrite Hk, Hs.
  - intros normalized Hk Hs Hn Hlen.
    split; [by eapply verify_length_mismatch|].
    intros ->. unfold verifyTributeSignature_buffer_only.
    rewrite Hk, Hs. apply Nat.eqb_neq in Hlen.
    unfold computeDigest in Hlen. by rewrite Hlen.
Qed.

End SignatureFacts.

(** The three cases on a sample verifier: no key, a key without header, a
    key with a header of another length. *)
Lemma verify_outcomes_witness :
  verifyTributeSignature sample_hmac_digest sample_Buffer_from
    (BodyBuffer sample_body) (Some sample_signature) None Hex
  = Err (JsError "Tribute API key is required for signature verification")
  /\ verifyTributeSignature sample_hmac_digest sample_Buffer_from
       (BodyBuffer sample_body) None (Some "test-secret") Hex = Ok false
  /\ verifyTributeSignature sample_hmac_digest sample_Buffer_from
       (BodyBuffer sample_body) (Some "abcd") (Some "test-secret") Hex
     = Ok false.
Proof.
  split; [|split].
  - apply (verify_outcomes sample_hmac_digest sample_Buffer_from
             (BodyBuffer sample_body) (Some sample_signature) None Hex).
    reflexivity.
  - apply (verify_outcomes sample_hmac_digest sample_Buffer_from
             (BodyBuffer sample_body) None (Some "test-secret") Hex);
      reflexivity.
  - assert (Hlen : List.length
                     (sample_Buffer_from
                        (computeDigest sample_hmac_digest sample_body
                           "test-secret" Hex) Hex)
                   <> List.length (sample_Buffer_from "abcd" Hex))
      by (vm_compute; lia).
    exact (proj1 (proj2 (proj2 (verify_outcomes sample_hmac_digest
                                  sample_Buffer_from (BodyBuffer sample_body)
                                  (Some "abcd") (Some "test-secret") Hex))
                    sample_body eq_refl eq_refl eq_refl Hlen)).
Defined.

(** Where the verifier departs from the specification of its outcomes.
    Without a key it raises, also when the header is absent, and what it
    raises is the generic [Error], not a [TributeConfigurationError]. With
    the hex decoder of the platform, the digest followed by two characters
    that are not hexadecimal digits differs in length from the digest and
    verifies all the same: what is compared is the decoded bytes. And a
    body of an unsupported kind raises a [TypeError], it does not give
    [false], though header and digest differ in length. *)
Lemma verification_departs_from_the_specification :
  verifyTributeSignature sample_hmac_digest sample_Buffer_from
    (BodyBuffer sample_body) None None Hex
  = Err (JsError "Tribute API key is required for signature verification")
  /\ is_configuration_error
       (verifyTributeSignature sample_hmac_digest sample_Buffer_from
          (BodyBuffer sample_body) (Some sample_signature) None Hex) = false
  /\ String.length (hex_digest +:+ "zz") <> String.length hex_digest
  /\ verifyTributeSignature hex_hmac_digest hex_Buffer_from
       (BodyBuffer sample_body) (Some (hex_digest +:+ "zz"))
       (Some "test-secret") Hex = Ok true
  /\ verifyTributeSignature_buffer_only hex_hmac_digest hex_Buffer_from
       (BodyBuffer sample_body) (Some (hex_digest +:+ "zz"))
       (Some "test-secret") Hex = Ok true
  /\ String.length "abcd"
     <> String.length
          (computeDigest sample_hmac_digest sample_body "test-secret" Hex)
  /\ verifyTributeSignature sample_hmac_digest sample_Buffer_from BodyOther
       (Some "abcd") (Some "test-secret") Hex
     = Err (JsTypeError
              "Expected rawBody to be a Buffer, Uint8Array, ArrayBuffer or string").
Proof.
  split; [reflexivity|]. split; [reflexivity|]. split; [vm_compute; lia|].
  split; [vm_compute; reflexivity|]. split; [vm_compute; reflexivity|].
  split; [vm_compute; lia|reflexivity].
Qed.

(** ** Plan resolution *)

Lemma find_ext {A : Type} (f g : A -> bool) (l : list A) :
  (forall x, f x = g x) -> List.find f l = List.find g l.
Proof.
  intros Hfg. induction l as [|x l IH]; simpl; [reflexivity|].
  rewrite Hfg, IH. reflexivity.
Qed.

Lemma find_first {A : Type} (f : A -> bool) (l : list A) (x : A) :
  List.find f l = Some x ->
  exists before after,
    l = (before ++ x :: after)%list /\ f x = true
    /\ Forall (fun y => f y = false) before.
Proof.
  induction l as [|y l IH]; simpl; [discriminate|].
  destruct (f y) eqn:Hy.
  - intros [= ->]. exists [], l. auto.
  - intros Hfind. destruct (IH Hfind) as (before & after & -> & Hx & Hb).
    exists (y :: before), after. repeat split; auto.
Qed.

Lemma find_none_all {A : Type} (f : A -> bool) (l : list A) :
  List.find f l = None -> Forall (fun y => f y = false) l.
Proof.
  induction l as [|y l IH]; simpl; [constructor|].
  destruct (f y) eqn:Hy; [discriminate|]. auto.
Qed.

(** The callback of [findPlanForPayload], with its early returns, is the
    boolean [plan_matches]. *)
Lemma findPlanForPayload_find plans payload :
  findPlanForPayload plans payload
  = List.find (fun plan => plan_matches plan payload) plans.
Proof.
  unfold findPlanForPayload. apply find_ext. intros plan.
  unfold plan_matches, field_matches, currency_matches, period_matches,
    amount_matches.
  destruct (strict_eq (Plan.tributeSubscriptionId plan) VUndef),
    (strict_eq (Plan.tributeSubscriptionId plan)
       (Payload.subscription_id payload)); simpl; try reflexivity;
  destruct (strict_eq (Plan.tributePeriodId plan) VUndef),
    (strict_eq (Plan.tributePeriodId plan) (Payload.period_id payload));
    simpl; try reflexivity;
  destruct (strict_eq (Plan.price plan) VUndef),
    (strict_eq (Plan.price plan) (Payload.price payload));
    simpl; try reflexivity;
  (destruct (Plan.currency plan) as [c|];
   [destruct (String.eqb (toLowerCase c) _)|]; simpl; try reflexivity);
  destruct (js_truthy (Plan.period plan)),
    (js_truthy (Payload.period payload)),
    (String.eqb (js_String (Plan.period plan))
       (js_String (Payload.period payload))); simpl; try reflexivity;
  destruct (strict_eq (Plan.amount plan) VUndef),
    (strict_eq (Plan.amount plan) (Payload.amount payload)),
    (strict_eq (Plan.amount plan) (Payload.price payload)); reflexivity.
Qed.

Lemma handleNewSubscription_no_plan this now event w :
  findPlanForPayload (plans this) (payload_of event) = None ->
  handleNewSubscription this now event w
  = (Err (plan_error_of (payload_of event)), w).
Proof.
  unfold handleNewSubscription, payload_of. intros ->. reflexivity.
Qed.

Lemma handleCancelledSubscription_no_plan this event w :
  findPlanForPayload (plans this) (payload_of event) = None ->
  handleCancelledSubscription this event w
  = (Err (plan_error_of (payload_of event)), w).
Proof.
  unfold handleCancelledSubscription, payload_of. intros ->. reflexivity.
Qed.

(** C7 (as amended). The resolved plan is the first configured plan that
    [plan_matches] the payload: identifiers, price and amount (against the
    payload's amount or its price) are wildcards when unset, the currency is
    compared in lower case, and the period is compared only when both the
    plan and the payload carry one. When no plan matches, both subscription
    handlers raise [TributePlanNotFoundError] with the first present of
    subscription id, period id and price, and change nothing. *)
Theorem plan_resolution this event :
  match findPlanForPayload (plans this) (payload_of event) with
  | Some plan =>
      exists before after,
        plans this = (before ++ plan :: after)%list
        /\ plan_matches plan (payload_of event) = true
        /\ Forall (fun q => plan_matches q (payload_of event) = false) before
  | None =>
      Forall (fun q => plan_matches q (payload_of event) = false) (plans this)
      /\ forall now w,
           handleNewSubscription this now event w
           = (Err (plan_error_of (payload_of event)), w)
           /\ handleCancelledSubscription this event w
              = (Err (plan_error_of (payload_of event)), w)
  end.
Proof.
  destruct (findPlanForPayload (plans this) (payload_of event)) as [plan|] eqn:E.
  - rewrite findPlanForPayload_find in E.
    apply (find_first (fun plan => plan_matches plan (payload_of event))) in E.
    exact E.
  - split.
    + rewrite findPlanForPayload_find in E.
      apply (find_none_all (fun plan => plan_matches plan (payload_of event))).
      exact E.
    + intros now w. split.
      * by apply handleNewSubscription_no_plan.
      * by apply handleCancelledSubscription_no_plan.
Qed.

(** A plan that names the period "monthly" is resolved for a payload without
    a period, although its period is neither unset nor equal to the
    payload's. *)
Lemma plan_with_period_matches_payload_without :
  findPlanForPayload [plan_monthly] Payload.empty = Some plan_monthly
  /\ plan_matches_period_strict plan_monthly Payload.empty = false.
Proof. split; reflexivity. Qed.

(** ** Configuration gate *)

Section GateFacts.

Variable hmac_digest : string -> list Byte.byte -> encoding -> string.
Variable Buffer_from : string -> encoding -> list Byte.byte.
Variable JSON_parse : list Byte.byte -> json_parsed.

(** C5. With a valid signature and a body that parses to an envelope, an
    event whose name is outside the allow-list, or is none of the five
    names the processor knows, gives [undefined] without an error and
    leaves the store, the emissions and the publisher untouched. *)
Theorem disabled_event_is_dropped this now rawBody signatureHeader event w :
  verifyTributeSignature hmac_digest Buffer_from (BodyBuffer rawBody)
    signatureHeader (Some (apiKey this)) (signatureEncoding this) = Ok true ->
  JSON_parse rawBody = JsonObject event ->
  allowed_has this (Envelope.name event) = false
  \/ (forall s, s ∈ SUPPORTED_WEBHOOK_EVENTS -> Envelope.name event <> VStr s) ->
  handleWebhook hmac_digest Buffer_from JSON_parse this now rawBody
    signatureHeader w = (Ok None, w).
Proof.
  intros Hsig Hparse Hname.
  unfold handleWebhook, bind, lift_res. rewrite Hsig. simpl.
  rewrite Hparse.
  destruct Hname as [-> | Hunknown]; [reflexivity|].
  destruct (allowed_has this (Envelope.name event)); [|reflexivity].
  simpl. destruct (Envelope.name event) as [| |b|n|name]; try reflexivity.
  assert (Hne : forall s, s ∈ SUPPORTED_WEBHOOK_EVENTS -> name <> s)
    by (intros s Hs ->; by apply (Hunknown s)).
  repeat match goal with
         | |- context [String.eqb name ?s] =>
             destruct (String.eqb_spec name s) as [Heq|_];
             [exfalso; apply (Hne s); [set_solver | exact Heq]|]
         end.
  reflexivity.
Qed.

End GateFacts.

(** An unsupported name never enters the allow-list of a constructed
    manager. *)
Lemma constructor_allows_supported_only options this name :
  constructor options = Ok this ->
  allowed_has this (VStr name) = true ->
  name ∈ SUPPORTED_WEBHOOK_EVENTS.
Proof.
  unfold constructor. intros Hc Hallowed.
  destruct (bool_decide (plans options = [])); [discriminate|].
  destruct (String.eqb (apiKey options) ""); [discriminate|].
  destruct (bool_decide (allowedWebhookEvents options = [])); [discriminate|].
  destruct (List.find _ (allowedWebhookEvents options)) eqn:Hfind;
    [discriminate|].
  injection Hc as <-.
  simpl in Hallowed. apply bool_decide_eq_true in Hallowed.
  apply find_none_all in Hfind. rewrite Forall_forall in Hfind.
  specialize (Hfind name Hallowed). simpl in Hfind.
  by apply negb_false_iff, bool_decide_eq_true in Hfind.
Qed.

(** A manager that allows subscription events only drops a [new_donation]. *)
Lemma disabled_event_is_dropped_witness :
  handleWebhook sample_hmac_digest sample_Buffer_from sample_JSON_parse
    subscriptions_only_config 2000 sample_body (Some sample_signature)
    empty_world = (Ok None, empty_world).
Proof.
  apply (disabled_event_is_dropped sample_hmac_digest sample_Buffer_from
           sample_JSON_parse subscriptions_only_config 2000 sample_body
           (Some sample_signature) donation_event_700 empty_world).
  - vm_compute. reflexivity.
  - reflexivity.
  - left. vm_compute. reflexivity.
Defined.

(** ** Running the handlers *)

Ltac unfold_monad :=
  unfold consumeIntentByTelegramAndPlan in *;
  unfold bind, ret, throw, lift_res, store_call, emit in *;
  unfold Store.consumeIntentByTelegramAndPlan in *.

(** Case analysis on the publisher, for a manager that is [publisher_quiet]. *)
Ltac split_publisher Hquiet :=
  unfold publishEvent;
  let publisher := fresh "publisher" in
  let Hp := fresh "Hp" in
  let Ht := fresh "Ht" in
  match goal with
  | |- context [eventPublisher ?this] =>
      destruct (eventPublisher this) as [publisher|] eqn:Hp; simpl;
      [ match goal with
        | |- context [publisher ?r] =>
            destruct (publisher r) as [?|] eqn:Ht; simpl;
            [rewrite (Hquiet _ _ _ Hp Ht)|]
        end | ]
  end.

(** Case analysis on the innermost scrutinee of the goal. *)
Ltac case_step :=
  match goal with
  | |- context [match ?x with _ => _ end] =>
      lazymatch x with
      | context [match _ with _ => _ end] => fail
      | _ => destruct x eqn:?; simpl
      end
  end.

(** *** Expired intents *)

(** C4. A first-time [new_subscription] whose intent is found by its id but
    expired before the event's ordering timestamp is processed all the same:
    the subscription is stored with status [active] and the result carries
    [intentStatus = expired]. The event is otherwise well formed (a plan
    resolves, the timestamps parse) and no publisher failure is re-raised. *)
Theorem expired_intent_completes this now event w plan ts created intent :
  let payload := payload_of event in
  let intentId :=
    Payload.intent_id payload ?? Payload.metadata_intent_id payload in
  findPlanForPayload (plans this) payload = Some plan ->
  getEventTimestamp event = Ok ts ->
  getEventCreatedAt event = Ok created ->
  Store.subscriptions (w_store w) !! Payload.subscription_id payload = None ->
  js_truthy intentId = true ->
  Map_get (js_String intentId) (Store.intents (w_store w)) = Some intent ->
  Intent.expiresAt intent < ts ->
  (forall raw, Payload.expires_at payload <> DInvalid raw) ->
  publisher_quiet this ->
  exists sub ctx w',
    handleNewSubscription this now event w
    = (Ok (Some (SubscriptionEvent Created sub ctx)), w')
    /\ ctx_intent ctx = Some intent
    /\ ctx_intentStatus ctx = Some Expired
    /\ Sub.status sub = SActive
    /\ Store.subscriptions (w_store w') !! Payload.subscription_id payload
       = Some sub.
Proof.
  intros payload intentId Hplan Hts Hcreated Hnone Hid Hintent Hexp Hexpires
    Hquiet.
  subst payload intentId. destruct w as [st em pub]. simpl in *.
  unfold handleNewSubscription. fold (payload_of event).
  rewrite Hplan. unfold_monad. rewrite Hts, Hcreated. simpl.
  assert (Hlt : (Intent.expiresAt intent <? ts) = true) by (by apply Z.ltb_lt).
  destruct (js_truthy (Payload.subscription_id (payload_of event))); simpl;
    rewrite ?Hnone; simpl; rewrite Hid; simpl; rewrite Hintent; simpl.
  all: destruct (Payload.expires_at (payload_of event)) as [|raw|ms] eqn:He;
    [|exfalso; by apply (Hexpires raw)|]; simpl; rewrite Hnone, Hlt.
  all: split_publisher Hquiet.
  all: do 3 eexists; (split; [reflexivity|]); simpl;
    repeat split; apply lookup_insert_eq.
Qed.

(** *** Cancelled donations *)

(** C8. A [recurrent_donation] that passes the duplicate check against a
    stored donation with status [cancelled] is not discarded, and the record
    it writes keeps status [cancelled] and the stored [cancelledAt]. *)
Theorem cancelled_donation_stays_cancelled this event w existing ts out w' :
  let payload := payload_of event in
  nullish (Payload.donation_request_id payload) = false ->
  nullish (Payload.telegram_user_id payload) = false ->
  Store.donations (w_store w) !! Payload.donation_request_id payload
  = Some existing ->
  Donation.status existing = DCancelled ->
  getEventTimestamp event = Ok ts ->
  Donation.lastEventAt existing < ts ->
  handleRecurrentDonation this event w = (out, w') ->
  out <> Ok None
  /\ exists d,
       Store.donations (w_store w') !! Payload.donation_request_id payload
       = Some d
       /\ Donation.status d = DCancelled
       /\ Donation.cancelledAt d = Donation.cancelledAt existing
       /\ Donation.lastEventAt d = ts
       /\ forall r, out = Ok (Some r) ->
            exists ctx, r = DonationEvent DonRecurrent d ctx.
Proof.
  intros payload Hid Htg Hex Hst Hts Hlt. subst payload.
  destruct w as [st em pub]. simpl in *.
  unfold handleRecurrentDonation. fold (payload_of event).
  rewrite Hid, Htg. unfold_monad. simpl. rewrite Hex, Hts. simpl.
  assert (Hge : (Donation.lastEventAt existing >=? ts) = false) by lia.
  rewrite Hge, Hst.
  unfold publishEvent.
  destruct (eventPublisher this) as [publisher|]; simpl.
  - match goal with
    | |- context [publisher ?r] => destruct (publisher r) as [t|]
    end; [destruct (eventPublisherFailureMode this)|]; simpl;
    intros [= <- <-]; simpl; (split; [discriminate|]);
    eexists; (split; [apply lookup_insert_eq|]); simpl;
    repeat split; try discriminate; intros r [= <-]; eauto.
  - intros [= <- <-]; simpl; (split; [discriminate|]).
    eexists; (split; [apply lookup_insert_eq|]); simpl.
    repeat split. intros r [= <-]; eauto.
Qed.

(** *** One step of a handler on the stored entities *)

Lemma subs_monotone_refl m : subs_monotone m m.
Proof. intros k s Hk. eauto. Qed.

Lemma dons_monotone_refl m : dons_monotone m m.
Proof. intros k s Hk. eauto. Qed.

Lemma subs_monotone_write (m m' : gmap value Sub.t) k rec :
  m' !! k = Some rec ->
  (forall k', k' <> k -> m' !! k' = m !! k') ->
  (forall old, m !! k = Some old -> Sub.lastEventAt old < Sub.lastEventAt rec) ->
  subs_monotone m m'.
Proof.
  intros Hk Hother Hraise k' s Hk'. destruct (decide (k' = k)) as [->|Hne].
  - eauto.
  - rewrite (Hother _ Hne). eauto.
Qed.

Lemma dons_monotone_write (m m' : gmap value Donation.t) k rec :
  m' !! k = Some rec ->
  (forall k', k' <> k -> m' !! k' = m !! k') ->
  (forall old, m !! k = Some old ->
     Donation.lastEventAt old < Donation.lastEventAt rec) ->
  dons_monotone m m'.
Proof.
  intros Hk Hother Hraise k' s Hk'. destruct (decide (k' = k)) as [->|Hne].
  - eauto.
  - rewrite (Hother _ Hne). eauto.
Qed.

(** The event was ignored or refused before anything was written. *)
Lemma step_ok_unchanged w out :
  (forall r, out <> Ok (Some r)) -> step_ok w (out, w).
Proof.
  intros Hout. split; [|split; [|split]]; simpl.
  - apply dons_monotone_refl.
  - apply subs_monotone_refl.
  - intros r Hr. by destruct (Hout r).
  - reflexivity.
Qed.

(** The call raised after touching no more than the intents. *)
Lemma step_ok_refused w e w' :
  Store.donations (w_store w') = Store.donations (w_store w) ->
  Store.subscriptions (w_store w') = Store.subscriptions (w_store w) ->
  step_ok w (Err e, w').
Proof.
  intros Hd Hs. split; [|split; [|split]]; simpl; try discriminate.
  - rewrite Hd. apply dons_monotone_refl.
  - rewrite Hs. apply subs_monotone_refl.
Qed.

(** A subscription was written under [k] and notified; the publisher may
    still have raised. *)
Lemma step_ok_subscription w out w' ty rec ctx k :
  let r := SubscriptionEvent ty rec ctx in
  w_emitted w' = (w_emitted w ++ notifications r)%list ->
  Store.donations (w_store w') = Store.donations (w_store w) ->
  Store.subscriptions (w_store w') !! k = Some rec ->
  (forall k', k' <> k ->
     Store.subscriptions (w_store w') !! k'
     = Store.subscriptions (w_store w) !! k') ->
  (forall old, Store.subscriptions (w_store w) !! k = Some old ->
     Sub.lastEventAt old < Sub.lastEventAt rec) ->
  out = Ok (Some r) \/ (exists e, out = Err e) ->
  step_ok w (out, w').
Proof.
  intros r Hem Hd Hk Hother Hraise Hout. split; [|split; [|split]]; simpl.
  - rewrite Hd. apply dons_monotone_refl.
  - by eapply subs_monotone_write.
  - destruct Hout as [->|[e ->]]; [|discriminate].
    intros r' [= <-]. split; [|exact Hem]. simpl. eauto.
  - destruct Hout as [->|[e ->]]; discriminate.
Qed.

Lemma step_ok_donation w out w' ty rec ctx k :
  let r := DonationEvent ty rec ctx in
  w_emitted w' = (w_emitted w ++ notifications r)%list ->
  Store.subscriptions (w_store w') = Store.subscriptions (w_store w) ->
  Store.donations (w_store w') !! k = Some rec ->
  (forall k', k' <> k ->
     Store.donations (w_store w') !! k' = Store.donations (w_store w) !! k') ->
  (forall old, Store.donations (w_store w) !! k = Some old ->
     Donation.lastEventAt old < Donation.lastEventAt rec) ->
  out = Ok (Some r) \/ (exists e, out = Err e) ->
  step_ok w (out, w').
Proof.
  intros r Hem Hs Hk Hother Hraise Hout. split; [|split; [|split]]; simpl.
  - by eapply dons_monotone_write.
  - rewrite Hs. apply subs_monotone_refl.
  - destruct Hout as [->|[e ->]]; [|discriminate].
    intros r' [= <-]. split; [|exact Hem]. simpl. eauto.
  - destruct Hout as [->|[e ->]]; discriminate.
Qed.

Lemma app_three {A : Type} (l : list A) (a b c : A) :
  (((l ++ [a]) ++ [b]) ++ [c])%list = (l ++ [a; b; c])%list.
Proof. by rewrite <- !app_assoc. Qed.

(** Case analysis on what the publisher does. *)
Ltac step_publisher :=
  unfold publishEvent;
  match goal with
  | |- context [eventPublisher ?this] =>
      let publisher := fresh "publisher" in
      destruct (eventPublisher this) as [publisher|]; simpl;
      [ match goal with
        | |- context [publisher ?r] =>
            destruct (publisher r) as [?|];
            [destruct (eventPublisherFailureMode this)|]; simpl
        end | ]
  end.

(** The stored watermark was below the event's: from the lookup and the
    outcome of [isOutdatedEvent]. *)
Ltac solve_raise :=
  let old := fresh "old" in
  let Hold := fresh "Hold" in
  intros old Hold; simpl in *;
  repeat match goal with
         | H : ?m !! ?k = _, H' : ?m !! ?k = _ |- _ =>
             rewrite H in H'; first [discriminate H' | injection H' as ->]
         end;
  simpl; lia.

Ltac finish_subscription :=
  rewrite ?app_three;
  match goal with
  | |- step_ok _ (_, {| w_store := _;
                        w_emitted := _ ++ [(_, SubscriptionEvent ?ty ?rec ?ctx); _; _];
                        w_published := _ |}) =>
      eapply (step_ok_subscription _ _ _ ty rec ctx); simpl;
      [ reflexivity
      | reflexivity
      | first [apply lookup_insert_eq
              | rewrite lookup_alter_eq, lookup_insert_eq; reflexivity]
      | intros; rewrite ?lookup_alter_ne by congruence;
        apply lookup_insert_ne; congruence
      | solve_raise
      | eauto ]
  end.

Ltac finish_donation :=
  rewrite ?app_three;
  match goal with
  | |- step_ok _ (_, {| w_store := _;
                        w_emitted := _ ++ [(_, DonationEvent ?ty ?rec ?ctx); _; _];
                        w_published := _ |}) =>
      eapply (step_ok_donation _ _ _ ty rec ctx); simpl;
      [ reflexivity
      | reflexivity
      | first [apply lookup_insert_eq
              | rewrite lookup_alter_eq, lookup_insert_eq; reflexivity]
      | intros; rewrite ?lookup_alter_ne by congruence;
        apply lookup_insert_ne; congruence
      | solve_raise
      | eauto ]
  end.

Lemma handleNewSubscription_step this now event w :
  js_truthy (Payload.subscription_id (payload_of event)) = true ->
  step_ok w (handleNewSubscription this now event w).
Proof.
  intros Hsid. destruct w as [st em pub].
  unfold handleNewSubscription. fold (payload_of event).
  destruct (findPlanForPayload _ _) as [plan|];
    [|by apply step_ok_unchanged].
  unfold_monad.
  destruct (getEventTimestamp event) as [ts|]; [|by apply step_ok_unchanged].
  destruct (getEventCreatedAt event) as [created|];
    [|by apply step_ok_unchanged].
  simpl. rewrite Hsid. simpl.
  destruct (Store.subscriptions st !! _) as [existing|] eqn:Hex.
  - destruct (Sub.lastEventAt existing >=? ts) eqn:Hout; simpl;
      [by apply step_ok_unchanged|].
    destruct (Payload.expires_at (payload_of event)); simpl;
      [|by apply step_ok_unchanged|]; rewrite Hex.
    all: step_publisher; finish_subscription.
  - simpl. unfold publishEvent.
    repeat (rewrite ?Hex; simpl; case_step; rewrite ?Hex; simpl;
            try (by apply step_ok_refused)).
    all: finish_subscription.
Qed.

Lemma handleCancelledSubscription_step this event w :
  js_truthy (Payload.subscription_id (payload_of event)) = true ->
  step_ok w (handleCancelledSubscription this event w).
Proof.
  intros Hsid. destruct w as [st em pub].
  unfold handleCancelledSubscription. fold (payload_of event).
  destruct (findPlanForPayload _ _) as [plan|];
    [|by apply step_ok_unchanged].
  unfold_monad. unfold getEventTimestamp, getEventCreatedAt, parseDate.
  unfold Store.markSubscriptionCancelled, publishEvent.
  destruct (Envelope.sent_at event), (Envelope.created_at event); simpl;
    try (by apply step_ok_unchanged).
  all: rewrite Hsid; simpl.
  all: destruct (Store.subscriptions st !! _) as [existing|] eqn:Hex; simpl;
    rewrite ?Hex; simpl; try (by apply step_ok_unchanged).
  all: repeat (rewrite ?Hex; simpl; case_step; rewrite ?Hex; simpl;
               try (by apply step_ok_unchanged)).
  all: finish_subscription.
Qed.


Lemma handleNewDonation_step this event w :
  step_ok w (handleNewDonation this event w).
Proof.
  destruct w as [st em pub].
  unfold handleNewDonation. fold (payload_of event).
  destruct (nullish (Payload.donation_request_id _));
    [by apply step_ok_unchanged|].
  destruct (nullish (Payload.telegram_user_id _));
    [by apply step_ok_unchanged|].
  unfold_monad. unfold publishEvent. simpl.
  destruct (Store.donations st !! _) as [existing|] eqn:Hex; simpl.
  all: repeat (rewrite ?Hex; simpl; case_step; rewrite ?Hex; simpl;
               try (by apply step_ok_unchanged)).
  all: finish_donation.
Qed.

Lemma handleRecurrentDonation_step this event w :
  step_ok w (handleRecurrentDonation this event w).
Proof.
  destruct w as [st em pub].
  unfold handleRecurrentDonation. fold (payload_of event).
  destruct (nullish (Payload.donation_request_id _));
    [by apply step_ok_unchanged|].
  destruct (nullish (Payload.telegram_user_id _));
    [by apply step_ok_unchanged|].
  unfold_monad. unfold publishEvent. simpl.
  destruct (Store.donations st !! _) as [existing|] eqn:Hex; simpl.
  all: repeat (rewrite ?Hex; simpl; case_step; rewrite ?Hex; simpl;
               try (by apply step_ok_unchanged)).
  all: finish_donation.
Qed.

Lemma handleCancelledDonation_step this event w :
  step_ok w (handleCancelledDonation this event w).
Proof.
  destruct w as [st em pub].
  unfold handleCancelledDonation. fold (payload_of event).
  destruct (nullish (Payload.donation_request_id _));
    [by apply step_ok_unchanged|].
  unfold_monad. unfold getEventTimestamp, getEventCreatedAt, parseDate.
  unfold Store.markDonationCancelled, publishEvent.
  destruct (Envelope.sent_at event), (Envelope.created_at event); simpl;
    try (by apply step_ok_unchanged).
  all: destruct (Store.donations st !! _) as [existing|] eqn:Hex; simpl;
    rewrite ?Hex; simpl; try (by apply step_ok_unchanged).
  all: repeat (rewrite ?Hex; simpl; case_step; rewrite ?Hex; simpl;
               try (by apply step_ok_unchanged)).
  all: finish_donation.
Qed.

(** *** The publisher step *)

Lemma handleNewSubscription_publisher this now event w :
  handleNewSubscription this now event w
  = after_publisher this
      (handleNewSubscription (without_publisher this) now event w).
Proof.
  destruct w as [st em pub].
  unfold handleNewSubscription, after_publisher. simpl.
  destruct (findPlanForPayload _ _) as [plan|]; [|reflexivity].
  unfold_monad.
  destruct (getEventTimestamp event) as [ts|]; [|reflexivity].
  destruct (getEventCreatedAt event) as [created|]; [|reflexivity].
  simpl. repeat (case_step; try reflexivity).
Qed.

Lemma handleCancelledSubscription_publisher this event w :
  handleCancelledSubscription this event w
  = after_publisher this
      (handleCancelledSubscription (without_publisher this) event w).
Proof.
  destruct w as [st em pub].
  unfold handleCancelledSubscription, after_publisher. simpl.
  destruct (findPlanForPayload _ _) as [plan|]; [|reflexivity].
  unfold_monad.
  destruct (getEventTimestamp event) as [ts|]; [|reflexivity].
  destruct (getEventCreatedAt event) as [created|]; [|reflexivity].
  simpl. repeat (case_step; try reflexivity).
Qed.

Lemma handleNewDonation_publisher this event w :
  handleNewDonation this event w
  = after_publisher this (handleNewDonation (without_publisher this) event w).
Proof.
  destruct w as [st em pub].
  unfold handleNewDonation, after_publisher. simpl.
  unfold_monad. simpl. repeat (case_step; try reflexivity).
Qed.

Lemma handleRecurrentDonation_publisher this event w :
  handleRecurrentDonation this event w
  = after_publisher this
      (handleRecurrentDonation (without_publisher this) event w).
Proof.
  destruct w as [st em pub].
  unfold handleRecurrentDonation, after_publisher. simpl.
  unfold_monad. simpl. repeat (case_step; try reflexivity).
Qed.

Lemma handleCancelledDonation_publisher this event w :
  handleCancelledDonation this event w
  = after_publisher this
      (handleCancelledDonation (without_publisher this) event w).
Proof.
  destruct w as [st em pub].
  unfold handleCancelledDonation, after_publisher. simpl.
  unfold_monad. simpl. repeat (case_step; try reflexivity).
Qed.

Section ManagerFacts.

Variable hmac_digest : string -> list Byte.byte -> encoding -> string.
Variable Buffer_from : string -> encoding -> list Byte.byte.
Variable JSON_parse : list Byte.byte -> json_parsed.

Lemma handleWebhook_publisher this now rawBody signatureHeader w :
  handleWebhook hmac_digest Buffer_from JSON_parse this now rawBody
    signatureHeader w
  = after_publisher this
      (handleWebhook hmac_digest Buffer_from JSON_parse
         (without_publisher this) now rawBody signatureHeader w).
Proof.
  unfold handleWebhook. unfold bind, lift_res. simpl.
  destruct (verifyTributeSignature _ _ _ _ _ _) as [[|]|]; simpl;
    try reflexivity.
  destruct (JSON_parse rawBody) as [| |event]; try reflexivity.
  unfold allowed_has. simpl.
  destruct (Envelope.name event) as [| | | |name]; try reflexivity; simpl.
  destruct (bool_decide _); simpl; [|reflexivity].
  repeat (case_step; try reflexivity).
  - apply handleNewSubscription_publisher.
  - apply handleCancelledSubscription_publisher.
  - apply handleNewDonation_publisher.
  - apply handleRecurrentDonation_publisher.
  - apply handleCancelledDonation_publisher.
Qed.

End ManagerFacts.

(** *** Effects of an accepted event *)

Ltac finish_accepted :=
  let r := fresh "r" in
  let Hr := fresh "Hr" in
  intros r Hr; simpl in Hr;
  first
    [ discriminate Hr
    | injection Hr as <-; rewrite ?app_three;
      split; [|split]; simpl;
      [ eexists;
        first [apply lookup_insert_eq
              | rewrite lookup_alter_eq, lookup_insert_eq; reflexivity]
      | reflexivity
      | first [reflexivity | eexists; reflexivity] ] ].

Lemma handleNewSubscription_accepted this now event w :
  accepted_ok w (handleNewSubscription this now event w).
Proof.
  destruct w as [st em pub].
  unfold handleNewSubscription. fold (payload_of event).
  unfold_monad. unfold publishEvent. simpl.
  repeat (case_step; try (by intros r Hr)).
  all: finish_accepted.
Qed.

Lemma handleCancelledSubscription_accepted this event w :
  accepted_ok w (handleCancelledSubscription this event w).
Proof.
  destruct w as [st em pub].
  unfold handleCancelledSubscription. fold (payload_of event).
  unfold_monad. unfold Store.markSubscriptionCancelled, publishEvent. simpl.
  repeat (case_step; try (by intros r Hr)).
  all: finish_accepted.
Qed.

Lemma handleNewDonation_accepted this event w :
  accepted_ok w (handleNewDonation this event w).
Proof.
  destruct w as [st em pub].
  unfold handleNewDonation. fold (payload_of event).
  unfold_monad. unfold publishEvent. simpl.
  repeat (case_step; try (by intros r Hr)).
  all: finish_accepted.
Qed.

Lemma handleRecurrentDonation_accepted this event w :
  accepted_ok w (handleRecurrentDonation this event w).
Proof.
  destruct w as [st em pub].
  unfold handleRecurrentDonation. fold (payload_of event).
  unfold_monad. unfold publishEvent. simpl.
  repeat (case_step; try (by intros r Hr)).
  all: finish_accepted.
Qed.

Lemma handleCancelledDonation_accepted this event w :
  accepted_ok w (handleCancelledDonation this event w).
Proof.
  destruct w as [st em pub].
  unfold handleCancelledDonation. fold (payload_of event).
  unfold_monad. unfold Store.markDonationCancelled, publishEvent. simpl.
  repeat (case_step; try (by intros r Hr)).
  all: finish_accepted.
Qed.


(** *** Dispatch *)

Section DispatchFacts.

Variable hmac_digest : string -> list Byte.byte -> encoding -> string.
Variable Buffer_from : string -> encoding -> list Byte.byte.
Variable JSON_parse : list Byte.byte -> json_parsed.

(** A property of runs holds of [handleWebhook] when it holds of a run
    that stops before any handler and of the run of each handler on the
    parsed envelope. *)
Lemma handleWebhook_cases this now rawBody signatureHeader w
    (P : res (option event_result) * world -> Prop) :
  (forall out, (forall r, out <> Ok (Some r)) -> P (out, w)) ->
  (forall event,
     JSON_parse rawBody = JsonObject event ->
     (Envelope.name event = VStr "new_subscription" ->
      P (handleNewSubscription this now event w))
     /\ (Envelope.name event = VStr "cancelled_subscription" ->
         P (handleCancelledSubscription this event w))
     /\ (Envelope.name event = VStr "new_donation" ->
         P (handleNewDonation this event w))
     /\ (Envelope.name event = VStr "recurrent_donation" ->
         P (handleRecurrentDonation this event w))
     /\ (Envelope.name event = VStr "cancelled_donation" ->
         P (handleCancelledDonation this event w))) ->
  P (handleWebhook hmac_digest Buffer_from JSON_parse this now rawBody
       signatureHeader w).
Proof.
  intros Hstop Hrun.
  unfold handleWebhook, bind, lift_res, throw, ret.
  destruct (verifyTributeSignature _ _ _ _ _ _) as [[|]|]; simpl;
    try (by apply Hstop).
  destruct (JSON_parse rawBody) as [| |event] eqn:Hparse;
    try (by apply Hstop).
  destruct (Hrun event eq_refl) as (H1 & H2 & H3 & H4 & H5).
  destruct (allowed_has this (Envelope.name event)); simpl;
    [|by apply Hstop].
  destruct (Envelope.name event) as [| | | |name]; try (by apply Hstop).
  repeat match goal with
         | |- context [String.eqb name ?s] =>
             destruct (String.eqb_spec name s) as [->|_]; [by auto|]
         end.
  by apply Hstop.
Qed.


Lemma handleWebhook_accepted this now rawBody signatureHeader w :
  accepted_ok w (handleWebhook hmac_digest Buffer_from JSON_parse this now
                   rawBody signatureHeader w).
Proof.
  apply handleWebhook_cases.
  - intros out Hout r Hr. by destruct (Hout r).
  - intros event _. split; [|split; [|split; [|split]]]; intros _.
    + apply handleNewSubscription_accepted.
    + apply handleCancelledSubscription_accepted.
    + apply handleNewDonation_accepted.
    + apply handleRecurrentDonation_accepted.
    + apply handleCancelledDonation_accepted.
Qed.

Lemma handleWebhook_step this now rawBody signatureHeader w :
  (forall event,
     JSON_parse rawBody = JsonObject event ->
     Envelope.name event = VStr "new_subscription"
     \/ Envelope.name event = VStr "cancelled_subscription" ->
     js_truthy (Payload.subscription_id (payload_of event)) = true) ->
  step_ok w (handleWebhook hmac_digest Buffer_from JSON_parse this now
               rawBody signatureHeader w).
Proof.
  intros Hsid. apply handleWebhook_cases.
  - apply step_ok_unchanged.
  - intros event Hparse. split; [|split; [|split; [|split]]]; intros Hname.
    + apply handleNewSubscription_step. by apply (Hsid event); auto.
    + apply handleCancelledSubscription_step. by apply (Hsid event); auto.
    + apply handleNewDonation_step.
    + apply handleRecurrentDonation_step.
    + apply handleCancelledDonation_step.
Qed.

(** C2 (as amended). Across the five webhook handlers, for an event whose
    subscription id (when it is a subscription event) is truthy, so that
    the stored subscription is loaded: every stored donation and every
    stored subscription stays stored, unchanged or with a strictly higher
    [lastEventAt]; the entity of an accepted result is stored with a
    [lastEventAt] strictly above the one stored before under its key; an
    ignored event changes nothing. The manual cancellation path is not
    covered: it applies no ordering check. *)
Theorem lastEventAt_only_advances this now rawBody signatureHeader w out w' :
  (forall event,
     JSON_parse rawBody = JsonObject event ->
     Envelope.name event = VStr "new_subscription"
     \/ Envelope.name event = VStr "cancelled_subscription" ->
     js_truthy (Payload.subscription_id (payload_of event)) = true) ->
  handleWebhook hmac_digest Buffer_from JSON_parse this now rawBody
    signatureHeader w = (out, w') ->
  dons_monotone (Store.donations (w_store w)) (Store.donations (w_store w'))
  /\ subs_monotone (Store.subscriptions (w_store w))
                   (Store.subscriptions (w_store w'))
  /\ (forall r, out = Ok (Some r) -> raised_by (w_store w) (w_store w') r)
  /\ (out = Ok None -> w' = w).
Proof.
  intros Hsid Hrun.
  pose proof (handleWebhook_step this now rawBody signatureHeader w Hsid)
    as (Hd & Hs & Hr & Hi).
  rewrite Hrun in Hd, Hs, Hr, Hi. simpl in *.
  repeat split; auto. intros r Hout. by apply Hr.
Qed.

(** C6. Take an event that is accepted when no publisher is configured,
    giving [r] and the world [w1]. With a publisher that raises [t] on [r]:
    in mode [throw] the call raises that error, in mode [log] it returns
    [r]; in both, the world is [w1] plus the record of the publisher call,
    so the entity written, the ledger entry appended and the three local
    notifications of [w1] are all in place. [throw] is the mode of a manager
    built without the option. *)
Theorem publisher_failure_policy this now rawBody signatureHeader w r w1
    publisher t :
  handleWebhook hmac_digest Buffer_from JSON_parse (without_publisher this)
    now rawBody signatureHeader w = (Ok (Some r), w1) ->
  eventPublisher this = Some publisher ->
  publisher r = Some t ->
  handleWebhook hmac_digest Buffer_from JSON_parse this now rawBody
    signatureHeader w
  = (match eventPublisherFailureMode this with
     | FailThrow => Err (thrown_error t)
     | FailLog => Ok (Some r)
     end, record_published r w1)
  /\ stored_in (w_store w1) r
  /\ w_emitted w1 = (w_emitted w ++ notifications r)%list
  /\ ledger_after (w_store w) (w_store w1) r
  /\ (forall plans apiKey,
        eventPublisherFailureMode (default_options plans apiKey) = FailThrow).
Proof.
  intros Hrun Hpub Ht. split.
  - rewrite handleWebhook_publisher, Hrun. simpl.
    unfold publishEvent. rewrite Hpub, Ht.
    by destruct (eventPublisherFailureMode this), t.
  - pose proof (handleWebhook_accepted (without_publisher this) now rawBody
                  signatureHeader w) as Hacc.
    rewrite Hrun in Hacc. destruct (Hacc r eq_refl) as (H1 & H2 & H3).
    repeat split; auto.
Qed.

End DispatchFacts.

(** *** Redelivery *)


Section RedeliveryFacts.

Variable hmac_digest : string -> list Byte.byte -> encoding -> string.
Variable Buffer_from : string -> encoding -> list Byte.byte.
Variable JSON_parse : list Byte.byte -> json_parsed.


End RedeliveryFacts.

(** *** Events without a subscription id *)

(** C10 (as amended). A [new_subscription] whose subscription id is absent
    (or otherwise falsy) never loads a stored subscription: whatever the
    stored watermarks, a delivery that resolves a plan, parses its
    timestamps and finds an intent is processed, writes the record under the
    absent id and appends a ledger entry dated from the event. Its result is
    [created] when nothing is stored under that absent id and [renewed] when
    an earlier such delivery left a record there. *)
Theorem missing_subscription_id_is_never_suppressed this now event w plan ts
    created intent :
  let payload := payload_of event in
  js_truthy (Payload.subscription_id payload) = false ->
  findPlanForPayload (plans this) payload = Some plan ->
  getEventTimestamp event = Ok ts ->
  getEventCreatedAt event = Ok created ->
  (consume_first_time_intent now payload plan (w_store w)).1 = Some intent ->
  (forall raw, Payload.expires_at payload <> DInvalid raw) ->
  publisher_quiet this ->
  exists sub ctx w' p,
    handleNewSubscription this now event w
    = (Ok (Some (SubscriptionEvent
                   match Store.subscriptions (w_store w)
                           !! Payload.subscription_id payload with
                   | Some _ => Renewed
                   | None => Created
                   end sub ctx)), w')
    /\ ctx_intent ctx = Some intent
    /\ Sub.lastEventAt sub = ts
    /\ Store.subscriptions (w_store w') !! Payload.subscription_id payload
       = Some sub
    /\ Store.payments (w_store w') = (Store.payments (w_store w) ++ [p])%list
    /\ Payment.paidAt p = created.
Proof.
  intros payload Hsid Hplan Hts Hcreated Hintent Hexpires Hquiet.
  subst payload. destruct w as [st em pub]. simpl in *.
  unfold consume_first_time_intent in Hintent.
  unfold handleNewSubscription. fold (payload_of event).
  rewrite Hplan. unfold_monad. rewrite Hts, Hcreated. simpl.
  rewrite Hsid. simpl.
  destruct (js_truthy (Payload.intent_id (payload_of event) ?? _)); simpl in *.
  - destruct (Map_get _ (Store.intents st)) as [i|] eqn:Hget; simpl in *.
    + assert (i = intent) as -> by congruence.
      destruct (Payload.expires_at (payload_of event)) as [|raw|ms] eqn:He;
        [|exfalso; by apply (Hexpires raw)|]; simpl.
      all: split_publisher Hquiet.
      all: do 4 eexists; (split; [reflexivity|]); simpl;
        repeat split; apply lookup_insert_eq.
    + destruct (negb (strict_eq (Payload.telegram_user_id _) VUndef));
        simpl in *; [|discriminate].
      destruct (Store.scanIntents _ _ _ _) as [found remaining]; simpl in *.
      subst found.
      destruct (Payload.expires_at (payload_of event)) as [|raw|ms] eqn:He;
        [|exfalso; by apply (Hexpires raw)|]; simpl.
      all: split_publisher Hquiet.
      all: do 4 eexists; (split; [reflexivity|]); simpl;
        repeat split; apply lookup_insert_eq.
  - destruct (negb (strict_eq (Payload.telegram_user_id _) VUndef));
      simpl in *; [|discriminate].
    destruct (Store.scanIntents _ _ _ _) as [found remaining]; simpl in *.
    subst found.
    destruct (Payload.expires_at (payload_of event)) as [|raw|ms] eqn:He;
      [|exfalso; by apply (Hexpires raw)|]; simpl.
    all: split_publisher Hquiet.
    all: do 4 eexists; (split; [reflexivity|]); simpl;
      repeat split; apply lookup_insert_eq.
Qed.

(** *** The manual path *)

(** What [cancelSubscriptionLocally] guarantees about the watermark: after
    a successful call the stored subscription is the one of the result, it
    is cancelled, and its [lastEventAt] is at least the cancellation time. No
    comparison with the watermark stored before is made. *)
Lemma cancelSubscriptionLocally_watermark this now options w r w' stamp :
  ensureDate now (ManualCancellationOptions.cancelledAt options) "cancelledAt"
  = Ok stamp ->
  cancelSubscriptionLocally this now options w = (Ok r, w') ->
  exists s ctx,
    r = SubscriptionEvent Cancelled s ctx
    /\ ctx_source ctx = Some "manual"
    /\ Store.subscriptions (w_store w')
         !! ManualCancellationOptions.tributeSubscriptionId options = Some s
    /\ Sub.status s = SCancelled
    /\ stamp <= Sub.lastEventAt s.
Proof.
  intros Hstamp. destruct w as [st em pub].
  unfold cancelSubscriptionLocally.
  unfold_monad. unfold Store.markSubscriptionCancelled, publishEvent.
  rewrite Hstamp. simpl.
  repeat (case_step; try discriminate).
  all: intros [= <- <-]; do 2 eexists; (split; [reflexivity|]); simpl.
  all: repeat split;
    first [ apply lookup_insert_eq
          | rewrite lookup_alter_eq, lookup_insert_eq; reflexivity
          | simpl; lia ].
Qed.

(** *** Ledger dates *)

(** The ledger entry of an accepted [new_subscription] is dated from the
    event's [created_at]. *)
Lemma new_subscription_ledger_date this now event w r w' created :
  getEventCreatedAt event = Ok created ->
  handleNewSubscription this now event w = (Ok (Some r), w') ->
  exists p,
    Store.payments (w_store w') = (Store.payments (w_store w) ++ [p])%list
    /\ Payment.paidAt p = created.
Proof.
  intros Hcreated. destruct w as [st em pub].
  unfold handleNewSubscription.
  unfold_monad. unfold publishEvent. rewrite Hcreated. simpl.
  repeat (case_step; try discriminate).
  all: intros [= <- <-]; eexists; split; reflexivity.
Qed.

(** The ledger entry of an accepted donation event on a stored donation is
    dated from the stored [createdAt], whatever the event's [created_at]. *)
Lemma donation_ledger_date this event w existing :
  Store.donations (w_store w)
    !! Payload.donation_request_id (payload_of event) = Some existing ->
  (forall r w',
     handleNewDonation this event w = (Ok (Some r), w') ->
     exists p,
       Store.payments (w_store w') = (Store.payments (w_store w) ++ [p])%list
       /\ Payment.paidAt p = Donation.createdAt existing)
  /\ (forall r w',
        handleRecurrentDonation this event w = (Ok (Some r), w') ->
        exists p,
          Store.payments (w_store w') = (Store.payments (w_store w) ++ [p])%list
          /\ Payment.paidAt p = Donation.createdAt existing).
Proof.
  intros Hex. destruct w as [st em pub]. simpl in Hex. split; intros r w'.
  - unfold handleNewDonation. fold (payload_of event).
    unfold_monad. unfold publishEvent. simpl.
    repeat (rewrite ?Hex; simpl; case_step; rewrite ?Hex; simpl;
            try discriminate).
    all: intros [= <- <-]; eexists; split; reflexivity.
  - unfold handleRecurrentDonation. fold (payload_of event).
    unfold_monad. unfold publishEvent. simpl.
    repeat (rewrite ?Hex; simpl; case_step; rewrite ?Hex; simpl;
            try discriminate).
    all: intros [= <- <-]; eexists; split; reflexivity.
Qed.

(** ** The properties on the sample scenarios *)

Lemma sample_config_quiet : publisher_quiet sample_config.
Proof. intros publisher r t Hp. discriminate Hp. Qed.

Lemma monthly_config_quiet : publisher_quiet monthly_config.
Proof. intros publisher r t Hp. discriminate Hp. Qed.

(** The intent of the sample scenario has expired when the subscription
    event arrives; the subscription is created all the same. *)
Lemma expired_intent_completes_witness :
  exists sub ctx w',
    handleNewSubscription sample_config 2000000 subscription_event_1644
      world_with_intent
    = (Ok (Some (SubscriptionEvent Created sub ctx)), w')
    /\ ctx_intent ctx = Some intent_1
    /\ ctx_intentStatus ctx = Some Expired
    /\ Sub.status sub = SActive
    /\ Store.subscriptions (w_store w') !! VNum 1644 = Some sub.
Proof.
  apply (expired_intent_completes sample_config 2000000
           subscription_event_1644 world_with_intent plan_m10 2000000 2000000
           intent_1).
  - reflexivity.
  - reflexivity.
  - reflexivity.
  - reflexivity.
  - reflexivity.
  - reflexivity.
  - simpl. lia.
  - intros raw. discriminate.
  - exact sample_config_quiet.
Defined.

(** The first delivery of the sample subscription event creates the
    subscription; the second one is ignored. *)
Lemma first_delivery_creates :
  first_delivery = (Ok (Some created_result_1644), first_delivery.2).
Proof. vm_compute. reflexivity. Qed.


(** The renewal of the sample subscription, delivered to the world that
    stores it with watermark 2000000: the subscription stays stored and its
    watermark goes up to 3000000, the timestamp of the accepted renewal. *)
Lemma lastEventAt_only_advances_witness :
  Store.subscriptions (w_store world_with_subscription) !! VNum 1644
  = Some subscription_1644
  /\ stored_lastEventAt (VNum 1644) world_with_subscription = Some 2000000
  /\ stored_lastEventAt (VNum 1644) renewal_delivery.2 = Some 3000000
  /\ subs_monotone (Store.subscriptions (w_store world_with_subscription))
                   (Store.subscriptions (w_store renewal_delivery.2))
  /\ exists r,
       renewal_delivery.1 = Ok (Some r)
       /\ raised_by (w_store world_with_subscription)
                    (w_store renewal_delivery.2) r.
Proof.
  destruct (lastEventAt_only_advances sample_hmac_digest sample_Buffer_from
              scenario_JSON_parse sample_config 3100000 renewal_body
              (Some renewal_signature) world_with_subscription
              renewal_delivery.1 renewal_delivery.2)
    as (_ & Hsubs & Hraised & _).
  - intros event Hparse _.
    vm_compute in Hparse. injection Hparse as <-. reflexivity.
  - apply surjective_pairing.
  - split; [vm_compute; reflexivity|]. split; [vm_compute; reflexivity|].
    split; [vm_compute; reflexivity|]. split; [exact Hsubs|].
    destruct renewal_delivery.1 as [[r|]|e] eqn:Hout;
      [|vm_compute in Hout; discriminate Hout
       |vm_compute in Hout; discriminate Hout].
    exists r. split; [reflexivity|]. by apply Hraised.
Defined.

(** With the offline publisher in mode [throw] the sample delivery raises,
    and the subscription, its ledger entry and its notifications stay. *)
Lemma publisher_failure_policy_witness :
  handleWebhook sample_hmac_digest sample_Buffer_from sample_JSON_parse
    offline_config 2000000 subscription_body (Some subscription_signature)
    world_with_intent
  = (Err (JsError "queue offline"),
     record_published created_result_1644 first_delivery.2)
  /\ stored_in (w_store first_delivery.2) created_result_1644
  /\ w_emitted first_delivery.2 = notifications created_result_1644
  /\ ledger_after (w_store world_with_intent) (w_store first_delivery.2)
       created_result_1644
  /\ (forall plans apiKey,
        eventPublisherFailureMode (default_options plans apiKey) = FailThrow).
Proof.
  apply (publisher_failure_policy sample_hmac_digest sample_Buffer_from
           sample_JSON_parse offline_config 2000000 subscription_body
           (Some subscription_signature) world_with_intent
           created_result_1644 first_delivery.2 offline_publisher
           (ThrownError (JsError "queue offline"))).
  - exact first_delivery_creates.
  - reflexivity.
  - reflexivity.
Defined.

(** A recurrence newer than the cancellation of donation 501 is accepted
    and leaves the donation cancelled. *)
Lemma cancelled_donation_stays_cancelled_witness :
  recurrence_after_cancellation.1 <> Ok None
  /\ exists d,
       Store.donations (w_store recurrence_after_cancellation.2) !! VNum 501
       = Some d
       /\ Donation.status d = DCancelled
       /\ Donation.cancelledAt d = Some 2000
       /\ Donation.lastEventAt d = 3000
       /\ forall r, recurrence_after_cancellation.1 = Ok (Some r) ->
            exists ctx, r = DonationEvent DonRecurrent d ctx.
Proof.
  apply (cancelled_donation_stays_cancelled sample_config
           (donation_event_501 "recurrent_donation" 3000)
           world_with_cancelled_donation cancelled_donation_501 3000
           recurrence_after_cancellation.1 recurrence_after_cancellation.2).
  - reflexivity.
  - reflexivity.
  - vm_compute. reflexivity.
  - reflexivity.
  - reflexivity.
  - simpl. lia.
  - apply surjective_pairing.
Defined.

(** The event without a subscription id consumes the first intent of user
    42 and is processed as a creation on the empty store. *)
Lemma missing_subscription_id_is_never_suppressed_witness :
  exists sub ctx w' p,
    handleNewSubscription monthly_config 6000 event_without_id
      world_with_two_intents
    = (Ok (Some (SubscriptionEvent Created sub ctx)), w')
    /\ ctx_intent ctx = Some intent_a
    /\ Sub.lastEventAt sub = 5000
    /\ Store.subscriptions (w_store w') !! VUndef = Some sub
    /\ Store.payments (w_store w') = [p]
    /\ Payment.paidAt p = 5000.
Proof.
  apply (missing_subscription_id_is_never_suppressed monthly_config 6000
           event_without_id world_with_two_intents plan_monthly 5000 5000
           intent_a).
  - reflexivity.
  - reflexivity.
  - reflexivity.
  - reflexivity.
  - vm_compute. reflexivity.
  - intros raw. discriminate.
  - exact monthly_config_quiet.
Defined.

(** ** Where the code departs from the specification *)


(** The same event without a subscription id, delivered twice while the
    user holds two intents: both deliveries are processed, the second one
    as [renewed], not as a fresh [created] subscription. *)
Lemma second_delivery_without_id_is_renewed :
  outcome_name first_without_id.1 = Some "subscription.created"
  /\ outcome_name second_without_id.1 = Some "subscription.renewed"
  /\ List.length (Store.payments (w_store second_without_id.2)) = 2%nat.
Proof. vm_compute. repeat split; reflexivity. Qed.

(** A manual cancellation dated before the stored watermark lowers it. *)
Lemma manual_cancellation_lowers_lastEventAt :
  stored_lastEventAt (VNum 1644) world_with_subscription = Some 2000000
  /\ (exists r, after_manual_cancellation.1 = Ok r)
  /\ stored_lastEventAt (VNum 1644) after_manual_cancellation.2
     = Some 1500000
  /\ ~ subs_monotone
        (Store.subscriptions (w_store world_with_subscription))
        (Store.subscriptions (w_store after_manual_cancellation.2)).
Proof.
  assert (H1 : stored_lastEventAt (VNum 1644) world_with_subscription
               = Some 2000000) by (vm_compute; reflexivity).
  assert (H2 : stored_lastEventAt (VNum 1644) after_manual_cancellation.2
               = Some 1500000) by (vm_compute; reflexivity).
  split; [exact H1|]. split; [vm_compute; eauto|]. split; [exact H2|].
  intros Hmono. unfold stored_lastEventAt in H1, H2.
  destruct (Store.subscriptions (w_store world_with_subscription)
              !! VNum 1644) as [s|] eqn:Hs; [|discriminate].
  destruct (Hmono _ _ Hs) as (s' & Hs' & Hcmp).
  rewrite Hs' in H2. simpl in H1, H2.
  injection H1 as H1. injection H2 as H2.
  destruct Hcmp as [->|Hlt]; lia.
Qed.

(** C3. The ledger entry of a recurrence carries the creation time of the
    stored donation: donation 501 was created at time 1000, its recurrence
    was created (and sent) at time 3000, and both ledger entries are dated
    1000. *)
Theorem recurrence_is_dated_from_the_stored_donation :
  getEventCreatedAt (donation_event_501 "recurrent_donation" 3000) = Ok 3000
  /\ outcome_name recurrence_of_active_donation.1 = Some "donation.recurrent"
  /\ Payment.paidAt <$> Store.payments (w_store recurrence_of_active_donation.2)
     = [1000; 1000].
Proof. vm_compute. repeat split; reflexivity. Qed.

(** An older event without a subscription id, delivered after a newer one,
    is processed too and lowers the watermark of the record kept under the
    absent id. *)
Lemma delivery_without_id_lowers_lastEventAt :
  stored_lastEventAt VUndef first_without_id.2 = Some 5000
  /\ outcome_name older_without_id.1 = Some "subscription.renewed"
  /\ stored_lastEventAt VUndef older_without_id.2 = Some 4000.
Proof. vm_compute. repeat split; reflexivity. Qed.

(** * Further properties *)

(** ** The intent map of the in-memory store *)

Lemma Map_get_set_eq {A : Type} (k : string) (v : A) m :
  Map_get k (Map_set k v m) = Some v.
Proof.
  induction m as [|[k' v'] m IH]; simpl.
  - by rewrite decide_True.
  - destruct (decide (k = k')) as [->|Hne]; simpl.
    + by rewrite decide_True.
    + by rewrite decide_False.
Qed.

Lemma Map_get_set_ne {A : Type} (k k' : string) (v : A) m :
  k' <> k -> Map_get k' (Map_set k v m) = Map_get k' m.
Proof.
  intros Hne. induction m as [|[k0 v0] m IH]; simpl.
  - by rewrite decide_False.
  - destruct (decide (k = k0)) as [->|Hne0]; simpl.
    + by rewrite !decide_False.
    + destruct (decide (k' = k0)); [reflexivity|exact IH].
Qed.

Lemma Map_get_None {A : Type} (k : string) (m : list (string * A)) :
  k ∉ m.*1 -> Map_get k m = None.
Proof.
  induction m as [|[k' v'] m IH]; simpl; [reflexivity|].
  intros Hnotin. rewrite not_elem_of_cons in Hnotin.
  destruct Hnotin as [Hne Hnotin]. rewrite decide_False by exact Hne. auto.
Qed.

Lemma Map_delete_keys {A : Type} (k k' : string) (m : list (string * A)) :
  k' ∈ (Map_delete k m).*1 -> k' ∈ m.*1.
Proof.
  induction m as [|[k0 v0] m IH]; simpl; [done|].
  destruct (decide (k = k0)) as [->|Hne]; simpl.
  - intros Hin. by apply elem_of_cons; right.
  - rewrite !elem_of_cons. intros [->|Hin]; auto.
Qed.

Lemma Map_set_keys {A : Type} (k k' : string) (v : A) m :
  k' ∈ (Map_set k v m).*1 -> k' = k \/ k' ∈ m.*1.
Proof.
  induction m as [|[k0 v0] m IH]; simpl.
  - rewrite elem_of_cons. intros [->|Hin]; [by left|by right].
  - destruct (decide (k = k0)) as [->|Hne]; simpl.
    + rewrite !elem_of_cons. intros [->|Hin]; auto.
    + rewrite !elem_of_cons. intros [->|Hin]; auto.
      destruct (IH Hin); auto.
Qed.

Lemma Map_set_unique {A : Type} (k : string) (v : A) m :
  keys_unique m -> keys_unique (Map_set k v m).
Proof.
  unfold keys_unique. induction m as [|[k0 v0] m IH]; simpl.
  - intros _. apply NoDup_singleton.
  - rewrite NoDup_cons. intros [Hnotin Hnd].
    destruct (decide (k = k0)) as [->|Hne]; simpl.
    + by apply NoDup_cons.
    + apply NoDup_cons. split; [|by apply IH].
      intros Hin. apply Map_set_keys in Hin.
      destruct Hin as [Heq|Hin]; [by apply Hne | by apply Hnotin].
Qed.

Lemma Map_delete_unique {A : Type} (k : string) (m : list (string * A)) :
  keys_unique m -> keys_unique (Map_delete k m).
Proof.
  unfold keys_unique. induction m as [|[k0 v0] m IH]; simpl; [done|].
  rewrite NoDup_cons. intros [Hnotin Hnd].
  destruct (decide (k = k0)) as [->|Hne]; simpl; [exact Hnd|].
  apply NoDup_cons. split; [|by apply IH].
  intros Hin. by apply Hnotin, (Map_delete_keys k).
Qed.

Lemma Map_get_delete_eq {A : Type} (k : string) (m : list (string * A)) :
  keys_unique m -> Map_get k (Map_delete k m) = None.
Proof.
  unfold keys_unique. induction m as [|[k0 v0] m IH]; simpl; [done|].
  rewrite NoDup_cons. intros [Hnotin Hnd].
  destruct (decide (k = k0)) as [->|Hne]; simpl.
  - by apply Map_get_None.
  - rewrite decide_False by exact Hne. by apply IH.
Qed.

Lemma Map_get_delete_ne {A : Type} (k k' : string) (m : list (string * A)) :
  k' <> k -> Map_get k' (Map_delete k m) = Map_get k' m.
Proof.
  intros Hne. induction m as [|[k0 v0] m IH]; simpl; [done|].
  destruct (decide (k = k0)) as [->|Hne0]; simpl.
  - by rewrite decide_False.
  - destruct (decide (k' = k0)); [reflexivity|exact IH].
Qed.

(** X1. On a store whose intent keys are distinct, an intent that was saved
    is consumed exactly once: [consumeIntent] right after [saveIntent]
    returns it, a second [consumeIntent] (and [getIntentById]) finds
    nothing, the keys stay distinct, and the intents under other ids are the
    ones held before the save. *)
Theorem saved_intent_is_consumed_once (intent : Intent.t) (s : Store.t) :
  keys_unique (Store.intents s) ->
  let saved := (Store.saveIntent intent s).2 in
  let consumed := Store.consumeIntent (Intent.id intent) saved in
  consumed.1 = Some intent
  /\ (Store.consumeIntent (Intent.id intent) consumed.2).1 = None
  /\ (Store.getIntentById (Intent.id intent) consumed.2).1 = None
  /\ keys_unique (Store.intents consumed.2)
  /\ (forall other, other <> Intent.id intent ->
        (Store.getIntentById other consumed.2).1
        = (Store.getIntentById other s).1).
Proof.
  intros Hu. simpl.
  assert (Hu' : keys_unique (Map_set (Intent.id intent) intent (Store.intents s)))
    by (by apply Map_set_unique).
  repeat split.
  - apply Map_get_set_eq.
  - by apply Map_get_delete_eq.
  - by apply Map_get_delete_eq.
  - by apply Map_delete_unique.
  - intros other Hne.
    rewrite Map_get_delete_ne by exact Hne. by apply Map_get_set_ne.
Qed.

Lemma saved_intent_is_consumed_once_witness :
  (Store.consumeIntent "e"
     (Store.saveIntent (intent_of "e" 9 500) store_with_four_intents).2).1
  = Some (intent_of "e" 9 500).
Proof.
  apply (saved_intent_is_consumed_once (intent_of "e" 9 500)
           store_with_four_intents).
  unfold keys_unique. apply (bool_decide_unpack _). vm_compute. reflexivity.
Defined.

Lemma scanIntents_found now tg pid entries intent rest :
  Store.scanIntents now tg pid entries = (Some intent, rest) ->
  exists pre post k,
    entries = (pre ++ (k, intent) :: post)%list
    /\ intent_matches tg pid (k, intent) = true
    /\ now <= Intent.expiresAt intent
    /\ Forall (fun e => intent_matches tg pid e = true ->
                        intent_expired now e = true) pre
    /\ rest = (List.filter (other_intent tg pid) pre ++ post)%list.
Proof.
  revert rest. induction entries as [|[k i] entries IH]; simpl; intros rest.
  - discriminate.
  - destruct (String.eqb (Intent.planId i) pid
              && String.eqb (js_String (Intent.telegramUserId i))
                            (js_String tg)) eqn:Hm.
    + destruct (Intent.expiresAt i <? now) eqn:Hexp.
      * intros Hscan. destruct (IH _ Hscan) as (pre & post & k' & -> & ? & ? & ? & ->).
        exists ((k, i) :: pre), post, k'.
        split; [reflexivity|]. split; [done|]. split; [done|]. split.
        -- constructor; auto.
        -- assert (Ho : other_intent tg pid (k, i) = false)
             by (unfold other_intent, intent_matches; simpl; by rewrite Hm).
           simpl. by rewrite Ho.
      * intros [= -> <-]. exists [], entries, k.
        split; [reflexivity|]. split; [exact Hm|].
        split; [by apply Z.ltb_ge in Hexp|]. split; [constructor|reflexivity].
    + destruct (Store.scanIntents now tg pid entries) as [found rest'] eqn:Hs.
      intros [= -> <-].
      destruct (IH _ eq_refl) as (pre & post & k' & -> & ? & ? & ? & ->).
      exists ((k, i) :: pre), post, k'.
      split; [reflexivity|]. split; [done|]. split; [done|]. split.
      * constructor; auto. unfold intent_matches. simpl. rewrite Hm.
        discriminate.
      * assert (Ho : other_intent tg pid (k, i) = true)
          by (unfold other_intent, intent_matches; simpl; by rewrite Hm).
        simpl. by rewrite Ho.
Qed.

Lemma scanIntents_none now tg pid entries rest :
  Store.scanIntents now tg pid entries = (None, rest) ->
  Forall (fun e => intent_matches tg pid e = true ->
                   intent_expired now e = true) entries
  /\ rest = List.filter (other_intent tg pid) entries.
Proof.
  revert rest. induction entries as [|[k i] entries IH]; simpl; intros rest.
  - intros [= <-]. split; constructor.
  - destruct (String.eqb (Intent.planId i) pid
              && String.eqb (js_String (Intent.telegramUserId i))
                            (js_String tg)) eqn:Hm.
    + destruct (Intent.expiresAt i <? now) eqn:Hexp; [|discriminate].
      intros Hscan. destruct (IH _ Hscan) as [Hall ->]. split.
      * constructor; auto.
      * assert (Ho : other_intent tg pid (k, i) = false)
          by (unfold other_intent, intent_matches; simpl; by rewrite Hm).
        simpl. by rewrite Ho.
    + destruct (Store.scanIntents now tg pid entries) as [found rest'] eqn:Hs.
      intros [= -> <-]. destruct (IH _ eq_refl) as [Hall ->]. split.
      * constructor; auto. unfold intent_matches. simpl. rewrite Hm.
        discriminate.
      * assert (Ho : other_intent tg pid (k, i) = true)
          by (unfold other_intent, intent_matches; simpl; by rewrite Hm).
        simpl. by rewrite Ho.
Qed.

(** X2. [consumeIntentByTelegramAndPlan] consumes the first intent, in
    insertion order, of the user and plan that has not expired at [now]
    (an intent expiring exactly at [now] is still live). The intents of the
    user and plan met before it had expired and are evicted with it; every
    other intent stays, in order. When it finds none, every intent of the
    user and plan had expired and all of them are evicted. Subscriptions,
    donations and payments are not touched. *)
Theorem first_live_intent_is_consumed now tg pid (s : Store.t) :
  match (Store.consumeIntentByTelegramAndPlan now tg pid s).1 with
  | Some intent =>
      exists pre post k,
        Store.intents s = (pre ++ (k, intent) :: post)%list
        /\ intent_matches tg pid (k, intent) = true
        /\ now <= Intent.expiresAt intent
        /\ Forall (fun e => intent_matches tg pid e = true ->
                            intent_expired now e = true) pre
        /\ Store.intents (Store.consumeIntentByTelegramAndPlan now tg pid s).2
           = (List.filter (other_intent tg pid) pre ++ post)%list
  | None =>
      Forall (fun e => intent_matches tg pid e = true ->
                       intent_expired now e = true) (Store.intents s)
      /\ Store.intents (Store.consumeIntentByTelegramAndPlan now tg pid s).2
         = List.filter (other_intent tg pid) (Store.intents s)
  end
  /\ Store.subscriptions (Store.consumeIntentByTelegramAndPlan now tg pid s).2
     = Store.subscriptions s
  /\ Store.donations (Store.consumeIntentByTelegramAndPlan now tg pid s).2
     = Store.donations s
  /\ Store.payments (Store.consumeIntentByTelegramAndPlan now tg pid s).2
     = Store.payments s.
Proof.
  unfold Store.consumeIntentByTelegramAndPlan.
  destruct (Store.scanIntents now tg pid (Store.intents s))
    as [[intent|] rest] eqn:Hscan; simpl; (split; [|done]).
  - by apply scanIntents_found.
  - by apply scanIntents_none.
Qed.

(** On the four sample intents at time 500, user 7 gets intent "c": the
    expired "a" is evicted, "b" of user 8 and the later "d" stay. *)
Lemma four_intents_scan :
  (Store.consumeIntentByTelegramAndPlan 500 (VNum 7) "m10"
     store_with_four_intents).1 = Some (intent_of "c" 7 900)
  /\ (Store.intents
        (Store.consumeIntentByTelegramAndPlan 500 (VNum 7) "m10"
           store_with_four_intents).2).*1 = ["b"; "d"].
Proof. vm_compute. split; reflexivity. Qed.

(** ** The ledger queries *)

Lemma sort_insert_perm p l : sort_insert p l ≡ₚ p :: l.
Proof.
  induction l as [|q l IH]; simpl; [reflexivity|].
  destruct (Payment.paidAt q >? Payment.paidAt p); [|reflexivity].
  rewrite IH. apply Permutation_swap.
Qed.

Lemma sort_by_paidAt_desc_perm l : sort_by_paidAt_desc l ≡ₚ l.
Proof.
  induction l as [|p l IH]; simpl; [reflexivity|].
  by rewrite sort_insert_perm, IH.
Qed.

Lemma sort_insert_sorted p l :
  newest_first l -> newest_first (sort_insert p l).
Proof.
  induction l as [|q l IH]; simpl; intros Hs.
  - by split.
  - destruct Hs as [Hq Hs].
    destruct (Payment.paidAt q >? Payment.paidAt p) eqn:Hcmp; simpl.
    + split; [|by apply IH].
      rewrite (sort_insert_perm p l). constructor; [lia|done].
    + split; [|by split].
      constructor; [lia|].
      eapply Forall_impl; [exact Hq|]. simpl. intros x Hx. lia.
Qed.

Lemma sort_by_paidAt_desc_sorted l : newest_first (sort_by_paidAt_desc l).
Proof.
  induction l as [|p l IH]; simpl; [done|].
  by apply sort_insert_sorted.
Qed.

Lemma sort_insert_stable t p l :
  List.filter (paid_at t) (sort_insert p l)
  = List.filter (paid_at t) (p :: l).
Proof.
  induction l as [|q l IH]; [reflexivity|]. simpl.
  destruct (Payment.paidAt q >? Payment.paidAt p) eqn:Hcmp; [|reflexivity].
  simpl. rewrite IH. simpl. unfold paid_at.
  destruct (Payment.paidAt p =? t) eqn:Hp, (Payment.paidAt q =? t) eqn:Hqt;
    try reflexivity.
  lia.
Qed.

Lemma sort_by_paidAt_desc_stable t l :
  List.filter (paid_at t) (sort_by_paidAt_desc l) = List.filter (paid_at t) l.
Proof.
  induction l as [|p l IH]; simpl; [reflexivity|].
  rewrite sort_insert_stable. simpl. by rewrite IH.
Qed.

Lemma payment_passes_spec filters p :
  Store.payment_passes filters p = true <-> passes filters p.
Proof.
  unfold Store.payment_passes, passes.
  destruct filters as [user kind since until limit]; simpl.
  destruct (nullish_value user) eqn:Hu; simpl.
  all: destruct (String.eqb_spec (js_String (Payment.telegramUserId p))
                   (js_String user)) as [Hs|Hs]; simpl.
  all: destruct kind as [|k|ks]; simpl.
  all: try (destruct (decide (Payment.kind p ∈ [k])) as [Hk|Hk];
            [rewrite (bool_decide_eq_true_2 _ Hk)
            |rewrite (bool_decide_eq_false_2 _ Hk)]; simpl).
  all: try (destruct (decide (Payment.kind p ∈ ks)) as [Hk|Hk];
            [rewrite (bool_decide_eq_true_2 _ Hk)
            |rewrite (bool_decide_eq_false_2 _ Hk)]; simpl).
  all: try rewrite list_elem_of_singleton in Hk.
  all: destruct since as [|[s|]], until as [|[u|]]; simpl.
  all: repeat match goal with
       | |- context [?a <? ?b] => destruct (Z.ltb_spec a b)
       | |- context [?a >? ?b] =>
           let H := fresh in destruct (a >? b) eqn:H
       end.
  all: split.
  all: try (intros (Hu' & Hk' & Hs' & Hu'');
      try specialize (Hs' _ eq_refl); try specialize (Hu'' _ eq_refl);
      try specialize (Hu' eq_refl); try done; lia).
  all: try discriminate.
  all: intros _.
  all: split; [try done|].
  all: split; [try done|].
  all: try (split; intros t [= <-]; lia).
Qed.

Lemma listPayments_unlimited filters s :
  (Store.listPayments (without_limit filters) s).1
  = sort_by_paidAt_desc
      (List.filter (Store.payment_passes filters) (Store.payments s)).
Proof. by destruct filters. Qed.

Lemma listPayments_sublist filters s :
  sublist (Store.listPayments filters s).1
          (Store.listPayments (without_limit filters) s).1.
Proof.
  rewrite listPayments_unlimited. unfold Store.listPayments. simpl.
  destruct (limit_positive _); [|done].
  destruct (slice_end _); [apply sublist_take|done].
Qed.

(** X3. [listPayments] of the in-memory store returns ledger entries only,
    and only those that pass the filters: the user agrees as a string, the
    kind is among the kinds asked for, and the payment time lies between
    the valid bounds, both included (an absent or invalid bound does not
    restrict).  Without a limit every such entry is returned, as often as
    the ledger holds it. *)
Theorem listed_payments_are_the_ledger_entries_that_pass filters s :
  (forall p, p ∈ (Store.listPayments filters s).1 ->
             p ∈ Store.payments s /\ passes filters p)
  /\ (Store.listPayments (without_limit filters) s).1
     ≡ₚ List.filter (Store.payment_passes filters) (Store.payments s)
  /\ (forall p, p ∈ Store.payments s -> passes filters p ->
                p ∈ (Store.listPayments (without_limit filters) s).1).
Proof.
  assert (Hall : forall p,
    p ∈ (Store.listPayments (without_limit filters) s).1
    <-> p ∈ Store.payments s /\ passes filters p).
  { intros p. rewrite listPayments_unlimited, sort_by_paidAt_desc_perm.
    rewrite <- payment_passes_spec, list_elem_of_In, filter_In.
    by rewrite <- list_elem_of_In. }
  split; [|split].
  - intros p Hp. apply Hall.
    eapply elem_of_sublist; [exact Hp|]. apply listPayments_sublist.
  - rewrite listPayments_unlimited. apply sort_by_paidAt_desc_perm.
  - intros p Hp Hpass. by apply Hall.
Qed.

Lemma newest_first_take n l : newest_first l -> newest_first (take n l).
Proof.
  revert n. induction l as [|p l IH]; intros [|n]; simpl; try done.
  intros [Hp Hl]. split; [|by apply IH].
  apply Forall_take; exact Hp.
Qed.

(** X4. [listPayments] of the in-memory store returns the payments newest
    first, payments of the same time in the order of the ledger. A limit
    that is a positive finite number keeps as many payments from the front
    as its integer part says: a limit of 2.5 keeps two, a positive limit
    below 1 keeps none. A limit that is no number, [NaN], infinite, zero
    or negative keeps all. The ledger itself is left as it was. *)
Theorem listed_payments_are_newest_first filters s :
  newest_first (Store.listPayments filters s).1
  /\ (forall t,
        List.filter (paid_at t)
          (Store.listPayments (without_limit filters) s).1
        = List.filter (paid_at t)
            (List.filter (Store.payment_passes filters) (Store.payments s)))
  /\ (forall num den,
        PaymentListFilters.limit filters = LimitRatio num den -> 0 < num ->
        (Store.listPayments filters s).1
        = take (Z.to_nat (num / Z.pos den))
            (Store.listPayments (without_limit filters) s).1
        /\ (List.length (Store.listPayments filters s).1
            <= Z.to_nat (num / Z.pos den))%nat
        /\ (num < Z.pos den -> (Store.listPayments filters s).1 = []))
  /\ ((forall num den,
         PaymentListFilters.limit filters = LimitRatio num den -> num <= 0) ->
      (Store.listPayments filters s).1
      = (Store.listPayments (without_limit filters) s).1)
  /\ (Store.listPayments filters s).2 = s.
Proof.
  split; [|split; [|split; [|split]]].
  - unfold Store.listPayments. simpl.
    destruct (limit_positive _); [|apply sort_by_paidAt_desc_sorted].
    destruct (slice_end _);
      [apply newest_first_take|]; apply sort_by_paidAt_desc_sorted.
  - intros t. rewrite listPayments_unlimited.
    apply sort_by_paidAt_desc_stable.
  - intros num den Hlimit Hpos. rewrite listPayments_unlimited.
    unfold Store.listPayments. simpl. rewrite Hlimit. simpl.
    destruct (Z.gtb_spec num 0); [|lia].
    rewrite Z.quot_div_nonneg by lia.
    split; [done|]. split; [rewrite length_take; lia|].
    intros Hlt. by rewrite Z.div_small by lia.
  - intros Hn. rewrite listPayments_unlimited.
    unfold Store.listPayments. simpl.
    destruct (PaymentListFilters.limit filters) as [| |[|]|num den];
      try done.
    specialize (Hn num den eq_refl). simpl.
    destruct (Z.gtb_spec num 0); [lia|done].
  - done.
Qed.

(** On the ledger of three donations, a limit of 2.5 keeps the two newest
    and a limit of 0.5 keeps none. *)
Lemma listed_payments_are_newest_first_witness :
  (Store.listPayments
     (with_limit (LimitRatio 5 2) PaymentListFilters.empty)
     store_with_three_payments).1
  = [donation_paid_at 30; donation_paid_at 20]
  /\ (Store.listPayments
        (with_limit (LimitRatio 1 2) PaymentListFilters.empty)
        store_with_three_payments).1 = [].
Proof.
  split.
  - rewrite (proj1 (proj1 (proj2 (proj2
               (listed_payments_are_newest_first
                  (with_limit (LimitRatio 5 2) PaymentListFilters.empty)
                  store_with_three_payments))) 5 2%positive eq_refl
               ltac:(lia))).
    vm_compute. reflexivity.
  - apply (proj1 (proj2 (proj2
             (listed_payments_are_newest_first
                (with_limit (LimitRatio 1 2) PaymentListFilters.empty)
                store_with_three_payments))) 1 2%positive eq_refl
             ltac:(lia)).
    lia.
Defined.

(** ** The signature verifier *)

Section VerifierFacts.

Variable hmac_digest : string -> list Byte.byte -> encoding -> string.
Variable Buffer_from : string -> encoding -> list Byte.byte.

Lemma missing_false (s : string) : s <> "" -> missing (Some s) = false.
Proof. intros Hs. simpl. by destruct (String.eqb_spec s ""). Qed.

Lemma verify_decoded rawBody header key enc normalized :
  key <> "" -> header <> "" -> normalizeBody rawBody = Ok normalized ->
  verifyTributeSignature hmac_digest Buffer_from rawBody (Some header)
    (Some key) enc
  = Ok (bool_decide
          (Buffer_from (computeDigest hmac_digest normalized key enc) enc
           = Buffer_from header enc)).
Proof.
  intros Hk Hh Hn. unfold verifyTributeSignature.
  rewrite (missing_false key Hk), (missing_false header Hh), Hn. simpl.
  destruct (Nat.eqb_spec
              (List.length (Buffer_from (computeDigest hmac_digest normalized
                                           key enc) enc))
              (List.length (Buffer_from header enc))) as [Hlen|Hlen];
    simpl; [reflexivity|].
  rewrite bool_decide_eq_false_2; [reflexivity|].
  intros Heq. apply Hlen. by rewrite Heq.
Qed.

(** X5. With a key, a header and a body of a supported kind, the verifier
    answers without raising, and answers [true] exactly when the header
    decodes to the bytes the digest of the body decodes to; the comparison
    of lengths rejects nothing that the comparison of bytes would accept.
    In particular the digest itself, when it is not empty, is accepted as
    the header. *)
Theorem signature_is_accepted_iff_it_decodes_to_the_digest rawBody header key
    enc normalized :
  key <> "" -> header <> "" -> normalizeBody rawBody = Ok normalized ->
  (exists valid,
     verifyTributeSignature hmac_digest Buffer_from rawBody (Some header)
       (Some key) enc = Ok valid
     /\ (valid = true <->
         Buffer_from header enc
         = Buffer_from (computeDigest hmac_digest normalized key enc) enc))
  /\ (computeDigest hmac_digest normalized key enc <> "" ->
      verifyTributeSignature hmac_digest Buffer_from rawBody
        (Some (computeDigest hmac_digest normalized key enc)) (Some key) enc
      = Ok true).
Proof.
  intros Hk Hh Hn. split.
  - eexists. split; [by apply verify_decoded|].
    rewrite bool_decide_eq_true. split; intros H; by rewrite H.
  - intros Hd. rewrite (verify_decoded _ _ _ _ normalized) by done.
    by rewrite bool_decide_eq_true_2.
Qed.

(** X6. The verifier checks the key, then the header, then the kind of the
    body: a body of an unsupported kind raises the [TypeError] only when
    both are present. Bodies of supported kinds with the same bytes are
    verified alike. The earlier verifier of the same file agrees with it
    on every [Buffer], and raises its own [TypeError] on every other body
    once key and header are present. *)
Theorem verifier_reads_the_body_after_key_and_header header key enc :
  verifyTributeSignature hmac_digest Buffer_from BodyOther header key enc
  = (if missing key
     then Err (JsError "Tribute API key is required for signature verification")
     else if missing header then Ok false
     else Err (JsTypeError
                 "Expected rawBody to be a Buffer, Uint8Array, ArrayBuffer or string"))
  /\ (forall body body',
        normalizeBody body = normalizeBody body' ->
        verifyTributeSignature hmac_digest Buffer_from body header key enc
        = verifyTributeSignature hmac_digest Buffer_from body' header key enc)
  /\ (forall bytes,
        verifyTributeSignature_buffer_only hmac_digest Buffer_from
          (BodyBuffer bytes) header key enc
        = verifyTributeSignature hmac_digest Buffer_from (BodyBuffer bytes)
            header key enc)
  /\ (forall body,
        (forall bytes, body <> BodyBuffer bytes) ->
        missing key = false -> missing header = false ->
        verifyTributeSignature_buffer_only hmac_digest Buffer_from body
          header key enc
        = Err (JsTypeError
                 "Expected rawBody to be a Buffer produced by express.raw or equivalent")).
Proof.
  split; [|split; [|split]].
  - unfold verifyTributeSignature. simpl.
    by destruct (missing key), (missing header).
  - intros body body' Hn. unfold verifyTributeSignature. by rewrite Hn.
  - intros bytes.
    unfold verifyTributeSignature_buffer_only, verifyTributeSignature.
    reflexivity.
  - intros body Hb Hk Hh. unfold verifyTributeSignature_buffer_only.
    rewrite Hk, Hh. destruct body; try reflexivity. by destruct (Hb bytes).
Qed.

End VerifierFacts.

Lemma signature_is_accepted_iff_it_decodes_to_the_digest_witness :
  verifyTributeSignature sample_hmac_digest sample_Buffer_from
    (BodyString "{}") (Some sample_digest) (Some "test-secret") Hex = Ok true.
Proof.
  apply (signature_is_accepted_iff_it_decodes_to_the_digest
           sample_hmac_digest sample_Buffer_from (BodyString "{}")
           sample_digest "test-secret" Hex sample_body).
  - discriminate.
  - vm_compute. discriminate.
  - reflexivity.
  - vm_compute. discriminate.
Defined.

Lemma verifier_reads_the_body_after_key_and_header_witness :
  verifyTributeSignature sample_hmac_digest sample_Buffer_from
    (BodyString "{}") (Some sample_signature) (Some "test-secret") Hex
  = verifyTributeSignature sample_hmac_digest sample_Buffer_from
      (BodyBuffer sample_body) (Some sample_signature) (Some "test-secret")
      Hex
  /\ verifyTributeSignature_buffer_only sample_hmac_digest sample_Buffer_from
       (BodyString "{}") (Some sample_signature) (Some "test-secret") Hex
     = Err (JsTypeError
              "Expected rawBody to be a Buffer produced by express.raw or equivalent").
Proof.
  split.
  - exact (proj1 (proj2 (verifier_reads_the_body_after_key_and_header
                           sample_hmac_digest sample_Buffer_from
                           (Some sample_signature) (Some "test-secret") Hex))
             (BodyString "{}") (BodyBuffer sample_body) eq_refl).
  - apply (proj2 (proj2 (proj2 (verifier_reads_the_body_after_key_and_header
                           sample_hmac_digest sample_Buffer_from
                           (Some sample_signature) (Some "test-secret") Hex)))
             (BodyString "{}")).
    + intros bytes. discriminate.
    + reflexivity.
    + reflexivity.
Defined.

(** ** Before an event is handled *)

Section EntryFacts.

Variable hmac_digest : string -> list Byte.byte -> encoding -> string.
Variable Buffer_from : string -> encoding -> list Byte.byte.
Variable JSON_parse : list Byte.byte -> json_parsed.

Lemma constructor_apiKey options this :
  constructor options = Ok this -> apiKey this <> "".
Proof.
  unfold constructor.
  destruct (bool_decide (plans options = [])); [discriminate|].
  destruct (String.eqb_spec (apiKey options) ""); [discriminate|].
  destruct (bool_decide (allowedWebhookEvents options = [])); [discriminate|].
  destruct (List.find _ _); [discriminate|]. by intros [= <-].
Qed.

(** X7. For a manager that its constructor accepted, the signature check
    of [handleWebhook] never raises an error of its own: it answers [true]
    or [false]. On [false], which is the answer for an absent or empty
    header, the call raises [TributeSignatureError]; on [true] with a body
    that does not parse, the error of the parser (a [SyntaxError], or the
    [TypeError] of reading [name] of [null]). In all of these the body is
    not handled: store, emissions and publisher calls stay as they were. *)
Theorem unverified_delivery_is_refused options this now rawBody
    signatureHeader w :
  constructor options = Ok this ->
  exists valid,
    verifyTributeSignature hmac_digest Buffer_from (BodyBuffer rawBody)
      signatureHeader (Some (apiKey this)) (signatureEncoding this)
    = Ok valid
    /\ (missing signatureHeader = true -> valid = false)
    /\ (valid = false ->
        handleWebhook hmac_digest Buffer_from JSON_parse this now rawBody
          signatureHeader w = (Err TributeSignatureError, w))
    /\ (valid = true -> JSON_parse rawBody = JsonSyntaxError ->
        handleWebhook hmac_digest Buffer_from JSON_parse this now rawBody
          signatureHeader w = (Err JsSyntaxError, w))
    /\ (valid = true -> JSON_parse rawBody = JsonNull ->
        handleWebhook hmac_digest Buffer_from JSON_parse this now rawBody
          signatureHeader w
        = (Err (JsTypeError "Cannot read properties of null"), w)).
Proof.
  intros Hc. apply constructor_apiKey in Hc.
  assert (Hvalid : exists valid,
    verifyTributeSignature hmac_digest Buffer_from (BodyBuffer rawBody)
      signatureHeader (Some (apiKey this)) (signatureEncoding this)
    = Ok valid /\ (missing signatureHeader = true -> valid = false)).
  { unfold verifyTributeSignature. rewrite (missing_false _ Hc). simpl.
    destruct (missing signatureHeader); [by exists false|].
    destruct (negb _); [by exists false|]. by eexists. }
  destruct Hvalid as (valid & Hv & Hmissing). exists valid.
  split; [exact Hv|]. split; [exact Hmissing|].
  unfold handleWebhook, bind, lift_res, throw. rewrite Hv. simpl.
  split; [|split].
  - by intros ->.
  - by intros -> ->.
  - by intros -> ->.
Qed.

End EntryFacts.

(** Without a header, the sample manager refuses the sample body. *)
Lemma unverified_delivery_is_refused_witness :
  handleWebhook sample_hmac_digest sample_Buffer_from sample_JSON_parse
    sample_config 2000 sample_body None empty_world
  = (Err TributeSignatureError, empty_world).
Proof.
  destruct (unverified_delivery_is_refused sample_hmac_digest
              sample_Buffer_from sample_JSON_parse sample_config
              sample_config 2000 sample_body None empty_world eq_refl)
    as (valid & _ & Hmissing & Hrun & _).
  exact (Hrun (Hmissing eq_refl)).
Defined.

(** ** Creating an intent *)

Lemma find_plan_id this planId plan :
  List.find (fun p => String.eqb (Plan.id p) planId) (plans this) = Some plan ->
  Plan.id plan = planId /\ plan ∈ plans this.
Proof.
  intros Hfind. apply find_some in Hfind as [Hin Heq].
  split; [by apply String.eqb_eq|by apply list_elem_of_In].
Qed.

Lemma listPlans_ids this planId :
  planId ∈ List.map PublicPlan.id (listPlans this)
  <-> exists plan,
        List.find (fun p => String.eqb (Plan.id p) planId) (plans this)
        = Some plan.
Proof.
  unfold listPlans. rewrite List.map_map. simpl.
  rewrite list_elem_of_In, in_map_iff. split.
  - intros (p & Hid & Hin).
    destruct (List.find _ (plans this)) as [plan|] eqn:Hfind; [eauto|].
    apply (find_none _ _ Hfind) in Hin. rewrite Hid in Hin.
    by rewrite String.eqb_refl in Hin.
  - intros (plan & Hfind). apply find_some in Hfind as [Hin Heq].
    exists plan. split; [by apply String.eqb_eq|done].
Qed.

(** X8. [createSubscriptionIntent] succeeds exactly for a plan id that
    [listPlans] shows and a user id that is present; otherwise it raises
    and leaves the world as it was. On success it returns the id it drew
    with the first listed plan of that id and its link, and stores one
    intent under that id, for the plan and the user, created at the time
    of the call and expiring [intentTtlMs] later; [getIntentById] then
    returns this intent without consuming it. Every other intent, and
    everything else of the world, stays as it was. *)
Theorem created_intent_is_stored_until_it_expires this now uuid planId
    telegramUserId metadata w :
  uuid <> "" ->
  ((exists r,
      (createSubscriptionIntent this now uuid planId telegramUserId metadata
         w).1 = Ok r)
   <-> planId ∈ List.map PublicPlan.id (listPlans this)
       /\ user_absent telegramUserId = false)
  /\ (forall e w',
        createSubscriptionIntent this now uuid planId telegramUserId metadata
          w = (Err e, w') -> w' = w)
  /\ (forall intentId link plan w',
        createSubscriptionIntent this now uuid planId telegramUserId metadata
          w = (Ok (intentId, link, plan), w') ->
        intentId = uuid
        /\ List.find (fun p => String.eqb (Plan.id p) planId) (plans this)
           = Some plan
        /\ Plan.id plan = planId
        /\ link = Plan.subscriptionLink plan
        /\ (exists intent,
              getIntentById this (VStr intentId) w' = (Ok (Some intent), w')
              /\ Intent.id intent = uuid
              /\ Intent.planId intent = planId
              /\ Intent.telegramUserId intent = telegramUserId
              /\ Intent.createdAt intent = now
              /\ Intent.expiresAt intent = now + intentTtlMs this)
        /\ (forall other, other <> uuid ->
              Map_get other (Store.intents (w_store w'))
              = Map_get other (Store.intents (w_store w)))
        /\ same_but_intents w w').
Proof.
  intros Huuid. unfold createSubscriptionIntent. fold (user_absent telegramUserId).
  rewrite listPlans_ids.
  destruct (List.find _ (plans this)) as [plan|] eqn:Hfind.
  - destruct (user_absent telegramUserId) eqn:Habs.
    + split; [|split].
      * split; [by intros [r [=]]|by intros [_ [=]]].
      * by intros e w' [= _ <-].
      * intros intentId link plan' w'. discriminate.
    + split; [|split].
      * split; [eauto|]. intros _. eexists. reflexivity.
      * intros e w'. discriminate.
      * intros intentId link plan' w'.
        unfold bind, store_call, ret, Store.saveIntent. simpl.
        intros [= <- <- <- <-]. destruct (find_plan_id _ _ _ Hfind) as [Hid _].
        split; [done|]. split; [done|]. split; [done|]. split; [done|].
        split; [|split].
        -- eexists. unfold getIntentById, store_call, Store.getIntentById.
           simpl. destruct uuid; [done|]. simpl.
           rewrite Map_get_set_eq. destruct w. simpl. repeat split; done.
        -- intros other Hother. simpl. by apply Map_get_set_ne.
        -- by repeat split.
  - split; [|split].
    + split; [by intros [r [=]]|]. by intros [[plan [=]] _].
    + by intros e w' [= _ <-].
    + intros intentId link plan' w'. discriminate.
Qed.

(** The intent of the sample scenario: plan m10 is listed and the user is
    present. *)
Lemma created_intent_is_stored_until_it_expires_witness :
  exists r,
    (createSubscriptionIntent sample_config 1000 "intent-1" "m10"
       (VNum 123456) None empty_world).1 = Ok r.
Proof.
  apply (created_intent_is_stored_until_it_expires sample_config 1000
           "intent-1" "m10" (VNum 123456) None empty_world).
  - discriminate.
  - split; [|reflexivity].
    apply (bool_decide_unpack _). vm_compute. reflexivity.
Defined.

(** ** Dispatch by name *)

Section RoutingFacts.

Variable hmac_digest : string -> list Byte.byte -> encoding -> string.
Variable Buffer_from : string -> encoding -> list Byte.byte.
Variable JSON_parse : list Byte.byte -> json_parsed.

Lemma handleWebhook_verified this now rawBody signatureHeader event w :
  verifyTributeSignature hmac_digest Buffer_from (BodyBuffer rawBody)
    signatureHeader (Some (apiKey this)) (signatureEncoding this) = Ok true ->
  JSON_parse rawBody = JsonObject event ->
  allowed_has this (Envelope.name event) = true ->
  exists name,
    Envelope.name event = VStr name
    /\ name ∈ allowedWebhookEvents this
    /\ handleWebhook hmac_digest Buffer_from JSON_parse this now rawBody
         signatureHeader w
       = match handler_of this now name with
         | Some handler => handler event w
         | None => (Ok None, w)
         end.
Proof.
  intros Hsig Hparse Hallowed.
  unfold handleWebhook, bind, lift_res. rewrite Hsig. simpl.
  rewrite Hparse, Hallowed. simpl.
  destruct (Envelope.name event) as [| |b|n|name]; try discriminate.
  exists name. split; [done|].
  split; [by apply bool_decide_eq_true in Hallowed|].
  unfold handler_of.
  repeat match goal with
         | |- context [String.eqb name ?s] => destruct (String.eqb name s)
         end; reflexivity.
Qed.

(** X9. A verified delivery whose envelope names an event of the
    allow-list of a manager that its constructor accepted always reaches a
    handler, the one of its name, and the outcome of [handleWebhook] is the
    outcome of that handler on the envelope: [new_subscription],
    [cancelled_subscription], [new_donation], [recurrent_donation] and
    [cancelled_donation] go to the handler of the same name. *)
Theorem allowed_event_reaches_the_handler_of_its_name options this now rawBody
    signatureHeader event w :
  constructor options = Ok this ->
  verifyTributeSignature hmac_digest Buffer_from (BodyBuffer rawBody)
    signatureHeader (Some (apiKey this)) (signatureEncoding this) = Ok true ->
  JSON_parse rawBody = JsonObject event ->
  allowed_has this (Envelope.name event) = true ->
  exists name handler,
    Envelope.name event = VStr name
    /\ name ∈ SUPPORTED_WEBHOOK_EVENTS
    /\ handler_of this now name = Some handler
    /\ handleWebhook hmac_digest Buffer_from JSON_parse this now rawBody
         signatureHeader w = handler event w
    /\ (name = "new_subscription" ->
        handler = handleNewSubscription this now)
    /\ (name = "cancelled_subscription" ->
        handler = handleCancelledSubscription this)
    /\ (name = "new_donation" -> handler = handleNewDonation this)
    /\ (name = "recurrent_donation" ->
        handler = handleRecurrentDonation this)
    /\ (name = "cancelled_donation" ->
        handler = handleCancelledDonation this).
Proof.
  intros Hc Hsig Hparse Hallowed.
  destruct (handleWebhook_verified this now rawBody signatureHeader event w
              Hsig Hparse Hallowed) as (name & Hname & _ & Hrun).
  assert (Hsup : name ∈ SUPPORTED_WEBHOOK_EVENTS).
  { apply (constructor_allows_supported_only options this); [done|].
    by rewrite <- Hname. }
  exists name.
  unfold SUPPORTED_WEBHOOK_EVENTS in Hsup.
  rewrite !elem_of_cons, elem_of_nil in Hsup.
  destruct Hsup as [->|[->|[->|[->|[->|[]]]]]];
    eexists; (split; [exact Hname|]);
    (split; [unfold SUPPORTED_WEBHOOK_EVENTS; set_solver|]);
    (split; [reflexivity|]); (split; [exact Hrun|]);
    repeat split; intros; first [reflexivity|discriminate].
Qed.

End RoutingFacts.

(** The sample delivery of [new_subscription] runs [handleNewSubscription]. *)
Lemma allowed_event_reaches_the_handler_of_its_name_witness :
  handleWebhook sample_hmac_digest sample_Buffer_from sample_JSON_parse
    sample_config 2000000 subscription_body (Some subscription_signature)
    world_with_intent
  = handleNewSubscription sample_config 2000000 subscription_event_1644
      world_with_intent.
Proof.
  destruct (allowed_event_reaches_the_handler_of_its_name sample_hmac_digest
              sample_Buffer_from sample_JSON_parse sample_config
              sample_config 2000000 subscription_body
              (Some subscription_signature) subscription_event_1644
              world_with_intent eq_refl)
    as (name & handler & Hname & _ & _ & Hrun & Hnew & _).
  - vm_compute. reflexivity.
  - reflexivity.
  - vm_compute. reflexivity.
  - injection Hname as <-. rewrite Hrun, (Hnew eq_refl). reflexivity.
Defined.

(** ** Events that arrive late *)

(** X10. A subscription event for a stored subscription whose [lastEventAt]
    is not before the ordering timestamp of the event ([sent_at], else
    [created_at]) is ignored: [handleNewSubscription] and
    [handleCancelledSubscription] return [undefined] and change nothing, no
    intent is looked up and the publisher is not called. A cancellation is
    ignored as well when the stored [cancelledAt] is not before the
    [created_at] of the event, whatever the ordering timestamp. The event
    resolves a plan, its timestamps parse and its subscription id is
    truthy. *)
Theorem late_subscription_event_is_ignored this now event w plan ts created
    existing :
  findPlanForPayload (plans this) (payload_of event) = Some plan ->
  getEventTimestamp event = Ok ts ->
  getEventCreatedAt event = Ok created ->
  js_truthy (Payload.subscription_id (payload_of event)) = true ->
  Store.subscriptions (w_store w)
    !! Payload.subscription_id (payload_of event) = Some existing ->
  (ts <= Sub.lastEventAt existing ->
   handleNewSubscription this now event w = (Ok None, w)
   /\ handleCancelledSubscription this event w = (Ok None, w))
  /\ (forall cancelledAt,
        Sub.cancelledAt existing = Some cancelledAt ->
        created <= cancelledAt ->
        handleCancelledSubscription this event w = (Ok None, w)).
Proof.
  intros Hplan Hts Hcreated Hsid Hex.
  unfold handleNewSubscription, handleCancelledSubscription.
  fold (payload_of event). rewrite Hplan.
  unfold bind, lift_res, ret, store_call, Store.getSubscriptionByTributeId.
  rewrite Hts, Hcreated. simpl. rewrite Hsid. simpl. rewrite Hex. simpl.
  split.
  - intros Hle.
    assert (Hge : (Sub.lastEventAt existing >=? ts) = true) by lia.
    rewrite Hge. destruct w. split; [reflexivity|].
    by destruct (isOutdatedEvent (Sub.cancelledAt existing) created).
  - intros cancelledAt Hc Hle. rewrite Hc. simpl.
    assert (Hge : (cancelledAt >=? created) = true) by lia.
    rewrite Hge. by destruct w.
Qed.

(** X11. A donation event for a stored donation whose [lastEventAt] is not
    before the ordering timestamp of the event is ignored by
    [handleNewDonation], [handleRecurrentDonation] and
    [handleCancelledDonation]: they return [undefined] and change nothing.
    The first two do not read [created_at] then: the event is ignored even
    if that field is missing or invalid. A cancellation is ignored as well
    when the stored [cancelledAt] is not before the [created_at] of the
    event. *)
Theorem late_donation_event_is_ignored this event w ts existing :
  nullish (Payload.donation_request_id (payload_of event)) = false ->
  getEventTimestamp event = Ok ts ->
  Store.donations (w_store w)
    !! Payload.donation_request_id (payload_of event) = Some existing ->
  (nullish (Payload.telegram_user_id (payload_of event)) = false ->
   ts <= Donation.lastEventAt existing ->
   handleNewDonation this event w = (Ok None, w)
   /\ handleRecurrentDonation this event w = (Ok None, w))
  /\ (forall created,
        getEventCreatedAt event = Ok created ->
        ts <= Donation.lastEventAt existing
        \/ (exists cancelledAt,
              Donation.cancelledAt existing = Some cancelledAt
              /\ created <= cancelledAt) ->
        handleCancelledDonation this event w = (Ok None, w)).
Proof.
  intros Hid Hts Hex.
  unfold handleNewDonation, handleRecurrentDonation, handleCancelledDonation.
  fold (payload_of event). rewrite Hid.
  unfold bind, lift_res, ret, store_call, Store.getDonationByRequestId.
  rewrite Hts. simpl.
  split.
  - intros Htg Hle. rewrite Htg. simpl. rewrite Hex. simpl.
    assert (Hge : (Donation.lastEventAt existing >=? ts) = true) by lia.
    rewrite Hge. by destruct w.
  - intros created Hcreated Hlate. rewrite Hcreated. simpl. rewrite Hex.
    simpl. destruct Hlate as [Hle|(cancelledAt & Hc & Hle)].
    + assert (Hge : (Donation.lastEventAt existing >=? ts) = true) by lia.
      rewrite Hge. destruct w.
      by destruct (isOutdatedEvent (Donation.cancelledAt existing) created).
    + rewrite Hc. simpl.
      assert (Hge : (cancelledAt >=? created) = true) by lia.
      rewrite Hge. by destruct w.
Qed.

(** The sample [new_subscription] again, after it has been stored. *)
Lemma late_subscription_event_is_ignored_witness :
  handleNewSubscription sample_config 3000000 subscription_event_1644
    world_with_subscription = (Ok None, world_with_subscription).
Proof.
  apply (late_subscription_event_is_ignored sample_config 3000000
           subscription_event_1644 world_with_subscription plan_m10 2000000
           2000000 subscription_1644).
  - vm_compute. reflexivity.
  - reflexivity.
  - reflexivity.
  - reflexivity.
  - vm_compute. reflexivity.
  - simpl. lia.
Defined.

(** A recurrence dated 1500 of the donation cancelled at 2000. *)
Lemma late_donation_event_is_ignored_witness :
  handleRecurrentDonation sample_config
    (donation_event_501 "recurrent_donation" 1500)
    world_with_cancelled_donation
  = (Ok None, world_with_cancelled_donation).
Proof.
  apply (late_donation_event_is_ignored sample_config
           (donation_event_501 "recurrent_donation" 1500)
           world_with_cancelled_donation 1500 cancelled_donation_501).
  - reflexivity.
  - reflexivity.
  - vm_compute. reflexivity.
  - reflexivity.
  - simpl. lia.
Defined.

(** ** Renewals *)

(** X12. A [new_subscription] with a truthy subscription id (so that the
    stored record is loaded; the ids 0 and '' are not) for a subscription
    that is stored with an older [lastEventAt] renews it, whatever its
    stored status: the result
    is [renewed] and carries the stored record as [previousSubscription];
    no intent is looked up or consumed; the record written keeps the stored
    [createdAt], takes the ordering timestamp as [lastEventAt], and is
    [active] with [cancelledAt] and [cancelReason] cleared; one ledger
    entry of kind [subscription] dated from the event's [created_at] is
    appended; the three notifications are emitted. The event resolves a
    plan, its timestamps parse and no publisher failure is re-raised. *)
Theorem stored_subscription_is_renewed this now event w plan ts created
    existing :
  findPlanForPayload (plans this) (payload_of event) = Some plan ->
  getEventTimestamp event = Ok ts ->
  getEventCreatedAt event = Ok created ->
  js_truthy (Payload.subscription_id (payload_of event)) = true ->
  Store.subscriptions (w_store w)
    !! Payload.subscription_id (payload_of event) = Some existing ->
  Sub.lastEventAt existing < ts ->
  (forall raw, Payload.expires_at (payload_of event) <> DInvalid raw) ->
  publisher_quiet this ->
  exists sub ctx w' p,
    handleNewSubscription this now event w
    = (Ok (Some (SubscriptionEvent Renewed sub ctx)), w')
    /\ ctx_previousSubscription ctx = Some existing
    /\ ctx_intent ctx = None
    /\ ctx_intentStatus ctx = None
    /\ Store.intents (w_store w') = Store.intents (w_store w)
    /\ Store.subscriptions (w_store w')
       = <[Payload.subscription_id (payload_of event) := sub]>
           (Store.subscriptions (w_store w))
    /\ Sub.planId sub = Plan.id plan
    /\ Sub.createdAt sub = Sub.createdAt existing
    /\ Sub.lastEventAt sub = ts
    /\ Sub.status sub = SActive
    /\ Sub.cancelledAt sub = None
    /\ Sub.cancelReason sub = VNull
    /\ Store.payments (w_store w') = (Store.payments (w_store w) ++ [p])%list
    /\ Payment.kind p = KSubscription
    /\ Payment.paidAt p = created
    /\ w_emitted w'
       = (w_emitted w
            ++ notifications (SubscriptionEvent Renewed sub ctx))%list.
Proof.
  intros Hplan Hts Hcreated Hsid Hex Hlt Hexpires Hquiet.
  destruct w as [st em pub]. simpl in *.
  unfold handleNewSubscription. fold (payload_of event).
  rewrite Hplan. unfold_monad. rewrite Hts, Hcreated. simpl.
  rewrite Hsid. simpl. rewrite Hex. simpl.
  assert (Hge : (Sub.lastEventAt existing >=? ts) = false) by lia.
  rewrite Hge.
  destruct (Payload.expires_at (payload_of event)) as [|raw|ms] eqn:He;
    [|exfalso; by apply (Hexpires raw)|]; simpl; rewrite Hex.
  all: split_publisher Hquiet.
  all: do 4 eexists; (split; [reflexivity|]); simpl;
    rewrite ?app_three; repeat split; reflexivity.
Qed.

(** The sample subscription, renewed by an event dated 3000000. *)
Lemma stored_subscription_is_renewed_witness :
  exists sub ctx w',
    handleNewSubscription sample_config 3000000
      (Envelope.mk (VStr "new_subscription") (DValid 3000000)
         (DValid 3000000) (Some subscription_payload_1644))
      world_with_subscription
    = (Ok (Some (SubscriptionEvent Renewed sub ctx)), w')
    /\ ctx_previousSubscription ctx = Some subscription_1644.
Proof.
  destruct (stored_subscription_is_renewed sample_config 3000000
              (Envelope.mk (VStr "new_subscription") (DValid 3000000)
                 (DValid 3000000) (Some subscription_payload_1644))
              world_with_subscription plan_m10 3000000 3000000
              subscription_1644)
    as (sub & ctx & w' & p & Hrun & Hprev & _).
  - vm_compute. reflexivity.
  - reflexivity.
  - reflexivity.
  - reflexivity.
  - vm_compute. reflexivity.
  - simpl. lia.
  - intros raw. discriminate.
  - apply sample_config_quiet.
  - exists sub, ctx, w'. split; [exact Hrun|exact Hprev].
Defined.

(** ** First subscriptions and their intents *)

Lemma Map_delete_absent {A : Type} (k : string) (m : list (string * A)) :
  Map_get k m = None -> Map_delete k m = m.
Proof.
  induction m as [|[k0 v0] m IH]; simpl; [done|].
  destruct (decide (k = k0)); [discriminate|]. intros H. by rewrite IH.
Qed.

Lemma scanIntents_all_expired now tg pid entries :
  Forall (fun e => intent_matches tg pid e = true ->
                   intent_expired now e = true) entries ->
  Store.scanIntents now tg pid entries
  = (None, List.filter (other_intent tg pid) entries).
Proof.
  induction entries as [|[k i] entries IH]; simpl; [done|].
  rewrite Forall_cons. intros [Hhead Htail].
  unfold other_intent, intent_matches, intent_expired in *. simpl in *.
  destruct (String.eqb (Intent.planId i) pid
            && String.eqb (js_String (Intent.telegramUserId i))
                          (js_String tg)); simpl.
  - rewrite (Hhead eq_refl). by apply IH.
  - by rewrite (IH Htail).
Qed.

(** X13. A [new_subscription] for a subscription that is not stored is
    refused with [TributeIntentNotFoundError], naming the user and the
    plan, when no intent is stored under the intent id the event names and
    every stored intent of the user and plan has expired at the time of
    the call. Nothing is written, recorded, emitted or published; the only
    trace is that those expired intents are evicted (when the event names
    a user). The event resolves a plan and its timestamps parse. *)
Theorem first_subscription_without_intent_is_refused this now event w plan ts
    created :
  findPlanForPayload (plans this) (payload_of event) = Some plan ->
  getEventTimestamp event = Ok ts ->
  getEventCreatedAt event = Ok created ->
  Store.subscriptions (w_store w)
    !! Payload.subscription_id (payload_of event) = None ->
  (js_truthy (payload_intent_id (payload_of event)) = true ->
   Map_get (js_String (payload_intent_id (payload_of event)))
     (Store.intents (w_store w)) = None) ->
  Forall (fun e =>
            intent_matches (Payload.telegram_user_id (payload_of event))
              (Plan.id plan) e = true ->
            intent_expired now e = true) (Store.intents (w_store w)) ->
  exists w',
    handleNewSubscription this now event w
    = (Err (TributeIntentNotFoundError
              (Payload.telegram_user_id (payload_of event)) (Plan.id plan)),
       w')
    /\ same_but_intents w w'
    /\ Store.intents (w_store w')
       = if strict_eq (Payload.telegram_user_id (payload_of event)) VUndef
         then Store.intents (w_store w)
         else List.filter
                (other_intent (Payload.telegram_user_id (payload_of event))
                   (Plan.id plan))
                (Store.intents (w_store w)).
Proof.
  intros Hplan Hts Hcreated Hnone Hid Hall.
  destruct w as [[intents subs payments dons] em pub]. simpl in *.
  unfold payload_intent_id in Hid.
  unfold handleNewSubscription. fold (payload_of event).
  rewrite Hplan. unfold_monad. rewrite Hts, Hcreated. simpl.
  unfold Store.getSubscriptionByTributeId, Store.consumeIntent. simpl.
  assert (Hscan := scanIntents_all_expired _ _ _ _ Hall).
  destruct (js_truthy (Payload.subscription_id (payload_of event))); simpl;
    rewrite ?Hnone; simpl.
  all: destruct (js_truthy (Payload.intent_id (payload_of event) ?? _));
    simpl; rewrite ?(Hid eq_refl), ?(Map_delete_absent _ _ (Hid eq_refl));
    simpl.
  all: destruct (strict_eq (Payload.telegram_user_id _) VUndef); simpl;
    rewrite ?Hscan; simpl.
  all: eexists; split; [reflexivity|]; split; [by repeat split|reflexivity].
Qed.

(** Without any intent, the sample [new_subscription] is refused. *)
Lemma first_subscription_without_intent_is_refused_witness :
  (handleNewSubscription sample_config 2000000 subscription_event_1644
     empty_world).1
  = Err (TributeIntentNotFoundError (VNum 123456) "m10").
Proof.
  destruct (first_subscription_without_intent_is_refused sample_config
              2000000 subscription_event_1644 empty_world plan_m10 2000000
              2000000) as (w' & Hrun & _ & _).
  - vm_compute. reflexivity.
  - reflexivity.
  - reflexivity.
  - reflexivity.
  - reflexivity.
  - constructor.
  - rewrite Hrun. reflexivity.
Defined.

(** X14. A first [new_subscription] that names a stored intent by its id
    consumes that intent, whatever user and plan the intent was created
    for: the result is [created] and carries the intent; its status is
    [expired] exactly when the intent's [expiresAt] is before the ordering
    timestamp of the event (the time of the call plays no part), and
    [matched] otherwise; the intent is gone from the store afterwards; the
    record written dates [createdAt] from the event's [created_at] and
    takes its metadata from the intent, else from the plan. The event
    resolves a plan, its timestamps parse and no publisher failure is
    re-raised. *)
Theorem first_subscription_consumes_the_named_intent this now event w plan ts
    created intent :
  findPlanForPayload (plans this) (payload_of event) = Some plan ->
  getEventTimestamp event = Ok ts ->
  getEventCreatedAt event = Ok created ->
  Store.subscriptions (w_store w)
    !! Payload.subscription_id (payload_of event) = None ->
  js_truthy (payload_intent_id (payload_of event)) = true ->
  Map_get (js_String (payload_intent_id (payload_of event)))
    (Store.intents (w_store w)) = Some intent ->
  keys_unique (Store.intents (w_store w)) ->
  (forall raw, Payload.expires_at (payload_of event) <> DInvalid raw) ->
  publisher_quiet this ->
  exists sub ctx w',
    handleNewSubscription this now event w
    = (Ok (Some (SubscriptionEvent Created sub ctx)), w')
    /\ ctx_intent ctx = Some intent
    /\ ctx_previousSubscription ctx = None
    /\ (ctx_intentStatus ctx = Some Expired <-> Intent.expiresAt intent < ts)
    /\ (ctx_intentStatus ctx = Some Matched <-> ts <= Intent.expiresAt intent)
    /\ Store.intents (w_store w')
       = Map_delete (js_String (payload_intent_id (payload_of event)))
           (Store.intents (w_store w))
    /\ Map_get (js_String (payload_intent_id (payload_of event)))
         (Store.intents (w_store w')) = None
    /\ Store.subscriptions (w_store w')
       = <[Payload.subscription_id (payload_of event) := sub]>
           (Store.subscriptions (w_store w))
    /\ Sub.createdAt sub = created
    /\ Sub.lastEventAt sub = ts
    /\ Sub.status sub = SActive
    /\ Sub.metadata sub
       = Some (default []
                 (ocoalesce (Intent.metadata intent) (Plan.metadata plan))).
Proof.
  intros Hplan Hts Hcreated Hnone Hid Hintent Hunique Hexpires Hquiet.
  pose proof (Map_get_delete_eq
                (js_String (payload_intent_id (payload_of event)))
                _ Hunique) as Hgone.
  destruct w as [[intents subs payments dons] em pub]. simpl in *.
  unfold payload_intent_id in *.
  unfold handleNewSubscription. fold (payload_of event).
  rewrite Hplan. unfold_monad. rewrite Hts, Hcreated. simpl.
  unfold Store.getSubscriptionByTributeId, Store.consumeIntent. simpl.
  destruct (js_truthy (Payload.subscription_id (payload_of event))); simpl;
    rewrite ?Hnone; simpl; rewrite Hid; simpl; rewrite Hintent; simpl.
  all: destruct (Payload.expires_at (payload_of event)) as [|raw|ms] eqn:He;
    [|exfalso; by apply (Hexpires raw)|]; simpl; rewrite Hnone.
  all: split_publisher Hquiet.
  all: do 3 eexists; (split; [reflexivity|]); simpl.
  all: split; [reflexivity|]; split; [reflexivity|].
  all: split; [destruct (Z.ltb_spec (Intent.expiresAt intent) ts);
               split; first [done|lia|intros; exfalso; lia]|].
  all: split; [destruct (Z.ltb_spec (Intent.expiresAt intent) ts);
               split; first [done|lia|intros; exfalso; lia]|].
  all: repeat split; first [exact Hgone|reflexivity].
Qed.

(** The intent of the sample scenario, named by an event sent before it
    expires and handled long after. *)
Lemma first_subscription_consumes_the_named_intent_witness :
  exists sub ctx w',
    handleNewSubscription sample_config 5000000 subscription_event_in_time
      world_with_intent
    = (Ok (Some (SubscriptionEvent Created sub ctx)), w')
    /\ ctx_intent ctx = Some intent_1
    /\ ctx_intentStatus ctx = Some Matched.
Proof.
  destruct (first_subscription_consumes_the_named_intent sample_config
              5000000 subscription_event_in_time world_with_intent plan_m10
              500000 500000 intent_1)
    as (sub & ctx & w' & Hrun & Hintent & _ & _ & Hmatched & _).
  - vm_compute. reflexivity.
  - reflexivity.
  - reflexivity.
  - reflexivity.
  - reflexivity.
  - vm_compute. reflexivity.
  - apply (bool_decide_unpack _). vm_compute. reflexivity.
  - intros raw. discriminate.
  - apply sample_config_quiet.
  - exists sub, ctx, w'. split; [exact Hrun|]. split; [exact Hintent|].
    apply Hmatched. simpl. lia.
Defined.

(** ** Cancellations *)

(** X15. A cancellation of something that is not stored is refused and
    changes nothing: [handleCancelledSubscription] and
    [cancelSubscriptionLocally] raise [TributeSubscriptionNotFoundError]
    with the id, [handleCancelledDonation] raises
    [TributeDonationNotFoundError] with the id. (The events resolve a plan
    where one is needed, their timestamps parse, and the ids are
    present.) *)
Theorem cancellation_of_an_unknown_entity_is_refused this now event w :
  (forall plan ts created,
     findPlanForPayload (plans this) (payload_of event) = Some plan ->
     getEventTimestamp event = Ok ts ->
     getEventCreatedAt event = Ok created ->
     Store.subscriptions (w_store w)
       !! Payload.subscription_id (payload_of event) = None ->
     handleCancelledSubscription this event w
     = (Err (TributeSubscriptionNotFoundError
               (Payload.subscription_id (payload_of event))), w))
  /\ (forall ts created,
        nullish (Payload.donation_request_id (payload_of event)) = false ->
        getEventTimestamp event = Ok ts ->
        getEventCreatedAt event = Ok created ->
        Store.donations (w_store w)
          !! Payload.donation_request_id (payload_of event) = None ->
        handleCancelledDonation this event w
        = (Err (TributeDonationNotFoundError
                  (Payload.donation_request_id (payload_of event))), w))
  /\ (forall options stamp,
        id_absent (ManualCancellationOptions.tributeSubscriptionId options)
        = false ->
        ensureDate now (ManualCancellationOptions.cancelledAt options)
          "cancelledAt" = Ok stamp ->
        Store.subscriptions (w_store w)
          !! ManualCancellationOptions.tributeSubscriptionId options = None ->
        cancelSubscriptionLocally this now options w
        = (Err (TributeSubscriptionNotFoundError
                  (ManualCancellationOptions.tributeSubscriptionId options)),
           w)).
Proof.
  destruct w as [st em pub]. simpl. split; [|split].
  - intros plan ts created Hplan Hts Hcreated Hnone.
    unfold handleCancelledSubscription. fold (payload_of event).
    rewrite Hplan. unfold_monad.
    unfold Store.getSubscriptionByTributeId, Store.markSubscriptionCancelled.
    rewrite Hts, Hcreated. simpl.
    destruct (js_truthy _); simpl; rewrite ?Hnone; simpl; rewrite ?Hnone;
      by destruct st.
  - intros ts created Hid Hts Hcreated Hnone.
    unfold handleCancelledDonation. fold (payload_of event).
    rewrite Hid. unfold_monad.
    unfold Store.getDonationByRequestId, Store.markDonationCancelled.
    rewrite Hts, Hcreated. simpl. rewrite Hnone. simpl. rewrite Hnone.
    by destruct st.
  - intros options stamp Hid Hstamp Hnone.
    unfold cancelSubscriptionLocally. unfold id_absent in Hid.
    rewrite Hid. unfold_monad. unfold Store.markSubscriptionCancelled.
    rewrite Hstamp. simpl. rewrite Hnone. by destruct st.
Qed.

(** In the empty store, the cancellation of donation 501 and the manual
    cancellation of subscription 1644 find nothing. *)
Lemma cancellation_of_an_unknown_entity_is_refused_witness :
  handleCancelledDonation sample_config
    (donation_event_501 "cancelled_donation" 2000) empty_world
  = (Err (TributeDonationNotFoundError (VNum 501)), empty_world)
  /\ cancelSubscriptionLocally sample_config 2400000
       early_manual_cancellation empty_world
     = (Err (TributeSubscriptionNotFoundError (VNum 1644)), empty_world).
Proof.
  split.
  - exact (proj1 (proj2 (cancellation_of_an_unknown_entity_is_refused
                           sample_config 2400000
                           (donation_event_501 "cancelled_donation" 2000)
                           empty_world))
             2000 2000 eq_refl eq_refl eq_refl eq_refl).
  - exact (proj2 (proj2 (cancellation_of_an_unknown_entity_is_refused
                           sample_config 2400000
                           (donation_event_501 "cancelled_donation" 2000)
                           empty_world))
             early_manual_cancellation 1500000 eq_refl eq_refl eq_refl).
Defined.

Lemma coalesce_null_twice (v : value) : (v ?? VNull) ?? VNull = v ?? VNull.
Proof. by destruct v. Qed.

Lemma event_times event ts created :
  getEventTimestamp event = Ok ts ->
  getEventCreatedAt event = Ok created ->
  match Envelope.sent_at event with
  | DFalsy => ts = created
  | DInvalid _ => False
  | DValid sent => ts = sent
  end.
Proof.
  unfold getEventTimestamp, getEventCreatedAt.
  destruct (Envelope.sent_at event); simpl; congruence.
Qed.

(** X16. A [cancelled_subscription] for a stored subscription that is
    older than the event (its [lastEventAt] is before the ordering
    timestamp and its [cancelledAt], if any, before the event's
    [created_at]) is accepted: the stored record keeps every field except
    that its status becomes [cancelled], [cancelledAt] the event's
    [created_at], [cancelReason] the payload's reason (else [null]) and
    [lastEventAt] the ordering timestamp; this record is the one returned.
    No ledger entry is appended, no intent is touched, and the three
    notifications are emitted. The event resolves a plan and no publisher
    failure is re-raised. *)
Theorem provider_cancellation_marks_the_stored_subscription this event w plan
    ts created existing :
  findPlanForPayload (plans this) (payload_of event) = Some plan ->
  getEventTimestamp event = Ok ts ->
  getEventCreatedAt event = Ok created ->
  js_truthy (Payload.subscription_id (payload_of event)) = true ->
  Store.subscriptions (w_store w)
    !! Payload.subscription_id (payload_of event) = Some existing ->
  Sub.lastEventAt existing < ts ->
  before (Sub.cancelledAt existing) created ->
  publisher_quiet this ->
  exists ctx w',
    handleCancelledSubscription this event w
    = (Ok (Some (SubscriptionEvent Cancelled
                   (cancelled_subscription existing created
                      (Payload.cancel_reason (payload_of event) ?? VNull) ts)
                   ctx)), w')
    /\ Store.subscriptions (w_store w')
       = <[Payload.subscription_id (payload_of event) :=
             cancelled_subscription existing created
               (Payload.cancel_reason (payload_of event) ?? VNull) ts]>
           (Store.subscriptions (w_store w))
    /\ Store.payments (w_store w') = Store.payments (w_store w)
    /\ Store.intents (w_store w') = Store.intents (w_store w)
    /\ Store.donations (w_store w') = Store.donations (w_store w)
    /\ (exists c, ctx_cancellation ctx = Some c /\ c_cancelledAt c = created)
    /\ w_emitted w'
       = (w_emitted w
            ++ notifications
                 (SubscriptionEvent Cancelled
                    (cancelled_subscription existing created
                       (Payload.cancel_reason (payload_of event) ?? VNull)
                       ts) ctx))%list.
Proof.
  intros Hplan Hts Hcreated Hsid Hex Hlt Hbefore Hquiet.
  pose proof (event_times event ts created Hts Hcreated) as Htimes.
  destruct w as [[intents subs payments dons] em pub]. simpl in *.
  unfold handleCancelledSubscription. fold (payload_of event).
  rewrite Hplan. unfold_monad.
  unfold Store.getSubscriptionByTributeId, Store.markSubscriptionCancelled,
    Store.assignSubscriptionLastEventAt.
  rewrite Hts, Hcreated. simpl. rewrite Hsid. simpl. rewrite Hex. simpl.
  assert (Hc : isOutdatedEvent (Sub.cancelledAt existing) created = false).
  { unfold isOutdatedEvent. destruct (Sub.cancelledAt existing) as [c|];
      [|done]. specialize (Hbefore c eq_refl). lia. }
  assert (Hge : (Sub.lastEventAt existing >=? ts) = false) by lia.
  rewrite Hc, Hge. simpl. rewrite Hex. simpl. rewrite coalesce_null_twice.
  unfold cancelled_subscription.
  destruct (Envelope.sent_at event) as [|raw|sent]; [|done|]; subst ts;
    simpl; rewrite Z.ltb_irrefl; simpl.
  all: split_publisher Hquiet.
  all: do 2 eexists; (split; [reflexivity|]); simpl; rewrite ?app_three;
    repeat split; eauto.
Qed.

(** X17. A [cancelled_donation] for a stored donation that is older than
    the event is accepted: the stored record keeps every field except that
    its status becomes [cancelled], [cancelledAt] the event's [created_at]
    and [lastEventAt] the ordering timestamp; this record is the one
    returned. No ledger entry is appended and the three notifications are
    emitted. No publisher failure is re-raised. *)
Theorem provider_cancellation_marks_the_stored_donation this event w ts
    created existing :
  nullish (Payload.donation_request_id (payload_of event)) = false ->
  getEventTimestamp event = Ok ts ->
  getEventCreatedAt event = Ok created ->
  Store.donations (w_store w)
    !! Payload.donation_request_id (payload_of event) = Some existing ->
  Donation.lastEventAt existing < ts ->
  before (Donation.cancelledAt existing) created ->
  publisher_quiet this ->
  exists ctx w',
    handleCancelledDonation this event w
    = (Ok (Some (DonationEvent DonCancelled
                   (cancelled_donation existing created ts) ctx)), w')
    /\ Store.donations (w_store w')
       = <[Payload.donation_request_id (payload_of event) :=
             cancelled_donation existing created ts]>
           (Store.donations (w_store w))
    /\ Store.payments (w_store w') = Store.payments (w_store w)
    /\ Store.intents (w_store w') = Store.intents (w_store w)
    /\ Store.subscriptions (w_store w') = Store.subscriptions (w_store w)
    /\ (exists c, ctx_cancellation ctx = Some c /\ c_cancelledAt c = created)
    /\ w_emitted w'
       = (w_emitted w
            ++ notifications
                 (DonationEvent DonCancelled
                    (cancelled_donation existing created ts) ctx))%list.
Proof.
  intros Hid Hts Hcreated Hex Hlt Hbefore Hquiet.
  pose proof (event_times event ts created Hts Hcreated) as Htimes.
  destruct w as [[intents subs payments dons] em pub]. simpl in *.
  unfold handleCancelledDonation. fold (payload_of event).
  rewrite Hid. unfold_monad.
  unfold Store.getDonationByRequestId, Store.markDonationCancelled,
    Store.assignDonationLastEventAt.
  rewrite Hts, Hcreated. simpl. rewrite Hex. simpl.
  assert (Hc : isOutdatedEvent (Donation.cancelledAt existing) created
               = false).
  { unfold isOutdatedEvent. destruct (Donation.cancelledAt existing) as [c|];
      [|done]. specialize (Hbefore c eq_refl). lia. }
  assert (Hge : (Donation.lastEventAt existing >=? ts) = false) by lia.
  rewrite Hc, Hge. simpl. rewrite Hex. simpl.
  unfold cancelled_donation.
  destruct (Envelope.sent_at event) as [|raw|sent]; [|done|]; subst ts;
    simpl; rewrite Z.ltb_irrefl; simpl.
  all: split_publisher Hquiet.
  all: do 2 eexists; (split; [reflexivity|]); simpl; rewrite ?app_three;
    repeat split; eauto.
Qed.

Lemma provider_cancellation_marks_the_stored_subscription_witness :
  exists ctx w',
    handleCancelledSubscription sample_config cancellation_event_1644
      world_with_subscription
    = (Ok (Some (SubscriptionEvent Cancelled
                   (cancelled_subscription subscription_1644 3000000 VNull
                      3000000) ctx)), w').
Proof.
  destruct (provider_cancellation_marks_the_stored_subscription
              sample_config cancellation_event_1644 world_with_subscription
              plan_m10 3000000 3000000 subscription_1644)
    as (ctx & w' & Hrun & _).
  - vm_compute. reflexivity.
  - reflexivity.
  - reflexivity.
  - reflexivity.
  - vm_compute. reflexivity.
  - simpl. lia.
  - intros p. discriminate.
  - apply sample_config_quiet.
  - exists ctx, w'. exact Hrun.
Defined.

Lemma provider_cancellation_marks_the_stored_donation_witness :
  exists ctx w',
    handleCancelledDonation sample_config
      (donation_event_501 "cancelled_donation" 2000) world_with_donation
    = (Ok (Some (DonationEvent DonCancelled
                   (cancelled_donation donation_501 2000 2000) ctx)), w').
Proof.
  destruct (provider_cancellation_marks_the_stored_donation sample_config
              (donation_event_501 "cancelled_donation" 2000)
              world_with_donation 2000 2000 donation_501)
    as (ctx & w' & Hrun & _).
  - reflexivity.
  - reflexivity.
  - reflexivity.
  - vm_compute. reflexivity.
  - simpl. lia.
  - intros p. discriminate.
  - apply sample_config_quiet.
  - exists ctx, w'. exact Hrun.
Defined.

(** X18. [cancelSubscriptionLocally] on a stored subscription returns and
    stores that record with status [cancelled], [cancelledAt] the given
    time (the time of the call when none is given), [cancelReason] the
    given reason (['manual'] when none is given) and [lastEventAt] the
    cancellation time or a later valid [sent_at] of the given payload,
    whatever the watermark stored before; every other field is kept. The
    result is marked as manual, no ledger entry is appended, no intent or
    donation is touched, and the three notifications are emitted. No
    publisher failure is re-raised. *)
Theorem manual_cancellation_marks_the_stored_subscription this now options w
    stamp existing :
  id_absent (ManualCancellationOptions.tributeSubscriptionId options)
  = false ->
  ensureDate now (ManualCancellationOptions.cancelledAt options)
    "cancelledAt" = Ok stamp ->
  Store.subscriptions (w_store w)
    !! ManualCancellationOptions.tributeSubscriptionId options
  = Some existing ->
  publisher_quiet this ->
  (ManualCancellationOptions.cancelledAt options = InUndefined ->
   stamp = now)
  /\ exists ctx w',
       cancelSubscriptionLocally this now options w
       = (Ok (SubscriptionEvent Cancelled
                (cancelled_subscription existing stamp
                   (manual_reason
                      (ManualCancellationOptions.cancelReason options))
                   (manual_lastEventAt
                      (ManualCancellationOptions.payload options) stamp))
                ctx), w')
       /\ ctx_source ctx = Some "manual"
       /\ ctx_event ctx = None
       /\ Store.subscriptions (w_store w')
          = <[ManualCancellationOptions.tributeSubscriptionId options :=
                cancelled_subscription existing stamp
                  (manual_reason
                     (ManualCancellationOptions.cancelReason options))
                  (manual_lastEventAt
                     (ManualCancellationOptions.payload options) stamp)]>
              (Store.subscriptions (w_store w))
       /\ Store.payments (w_store w') = Store.payments (w_store w)
       /\ Store.intents (w_store w') = Store.intents (w_store w)
       /\ Store.donations (w_store w') = Store.donations (w_store w)
       /\ w_emitted w'
          = (w_emitted w
               ++ notifications
                    (SubscriptionEvent Cancelled
                       (cancelled_subscription existing stamp
                          (manual_reason
                             (ManualCancellationOptions.cancelReason options))
                          (manual_lastEventAt
                             (ManualCancellationOptions.payload options)
                             stamp))
                       ctx))%list.
Proof.
  intros Hid Hstamp Hex Hquiet. split.
  { intros Hun. rewrite Hun in Hstamp. simpl in Hstamp. congruence. }
  destruct w as [[intents subs payments dons] em pub]. simpl in *.
  destruct options as [id reason cancelledAt payload]. simpl in *.
  unfold cancelSubscriptionLocally. simpl. unfold id_absent in Hid.
  rewrite Hid. unfold_monad.
  unfold Store.markSubscriptionCancelled, Store.assignSubscriptionLastEventAt.
  rewrite Hstamp. simpl. rewrite Hex. simpl.
  unfold cancelled_subscription, manual_reason, manual_lastEventAt.
  destruct reason; simpl.
  all: destruct payload as [[fields [|raw|sent]]|]; simpl;
    rewrite ?Z.ltb_irrefl; simpl.
  all: try (destruct (Z.ltb_spec sent stamp); simpl;
       [rewrite alter_insert_eq; simpl;
        replace (Z.max sent stamp) with stamp by lia
       |replace (Z.max sent stamp) with sent by lia]).
  all: split_publisher Hquiet.
  all: do 2 eexists; (split; [reflexivity|]); simpl; rewrite ?app_three;
    repeat split; eauto.
Qed.

(** The manual cancellation of the sample subscription, dated 1500000. *)
Lemma manual_cancellation_marks_the_stored_subscription_witness :
  exists ctx w',
    cancelSubscriptionLocally sample_config 2400000 early_manual_cancellation
      world_with_subscription
    = (Ok (SubscriptionEvent Cancelled
             (cancelled_subscription subscription_1644 1500000
                (VStr "user_request") 1500000) ctx), w').
Proof.
  destruct (manual_cancellation_marks_the_stored_subscription sample_config
              2400000 early_manual_cancellation world_with_subscription
              1500000 subscription_1644) as (_ & ctx & w' & Hrun & _).
  - reflexivity.
  - reflexivity.
  - vm_compute. reflexivity.
  - apply sample_config_quiet.
  - exists ctx, w'. exact Hrun.
Defined.

(** ** Donations *)

(** X19. A donation event for a donation that is not stored creates the
    record, for [new_donation] and, tolerantly, for [recurrent_donation]
    as well. The record is dated from the event ([createdAt] from
    [created_at], [lastEventAt] from the ordering timestamp), has no
    [cancelledAt], and takes absent fields from the defaults: the period
    is ['once'] for [new_donation], where the status is [completed] for
    ['once'] and [active] otherwise, and ['monthly'] for
    [recurrent_donation], where the status is [active]. One ledger entry
    of kind [donation], dated from [created_at], is appended. (The ids of
    the donation and the user are present, the timestamps parse, and no
    publisher failure is re-raised.) *)
Theorem first_donation_event_creates_the_record this event w ts created :
  nullish (Payload.donation_request_id (payload_of event)) = false ->
  nullish (Payload.telegram_user_id (payload_of event)) = false ->
  getEventTimestamp event = Ok ts ->
  getEventCreatedAt event = Ok created ->
  Store.donations (w_store w)
    !! Payload.donation_request_id (payload_of event) = None ->
  publisher_quiet this ->
  (exists d ctx w' p,
     handleNewDonation this event w
     = (Ok (Some (DonationEvent DonCreated d ctx)), w')
     /\ Donation.period d = Payload.period (payload_of event) ?? VStr "once"
     /\ Donation.status d = status_of_period (Donation.period d)
     /\ Donation.createdAt d = created
     /\ Donation.lastEventAt d = ts
     /\ Donation.cancelledAt d = None
     /\ Donation.amount d = Payload.amount (payload_of event) ?? VNum 0
     /\ Store.donations (w_store w')
        = <[Payload.donation_request_id (payload_of event) := d]>
            (Store.donations (w_store w))
     /\ Store.payments (w_store w') = (Store.payments (w_store w) ++ [p])%list
     /\ Payment.kind p = KDonation
     /\ Payment.paidAt p = created
     /\ Payment.donationRequestId p
        = Payload.donation_request_id (payload_of event))
  /\ (exists d ctx w' p,
        handleRecurrentDonation this event w
        = (Ok (Some (DonationEvent DonRecurrent d ctx)), w')
        /\ Donation.period d
           = Payload.period (payload_of event) ?? VStr "monthly"
        /\ Donation.status d = DActive
        /\ Donation.createdAt d = created
        /\ Donation.lastEventAt d = ts
        /\ Donation.cancelledAt d = None
        /\ Donation.amount d = Payload.amount (payload_of event) ?? VNum 0
        /\ Store.donations (w_store w')
           = <[Payload.donation_request_id (payload_of event) := d]>
               (Store.donations (w_store w))
        /\ Store.payments (w_store w')
           = (Store.payments (w_store w) ++ [p])%list
        /\ Payment.kind p = KDonation
        /\ Payment.paidAt p = created
        /\ Payment.donationRequestId p
           = Payload.donation_request_id (payload_of event)).
Proof.
  intros Hid Htg Hts Hcreated Hnone Hquiet.
  destruct w as [[intents subs payments dons] em pub]. simpl in *.
  unfold handleNewDonation, handleRecurrentDonation.
  fold (payload_of event). rewrite Hid, Htg. unfold_monad.
  unfold Store.getDonationByRequestId. simpl. rewrite Hnone, Hts, Hcreated.
  simpl. unfold status_of_period. split.
  - split_publisher Hquiet.
    all: do 4 eexists; (split; [reflexivity|]); simpl; repeat split;
      by destruct (Payload.period (payload_of event)),
                  (Payload.amount (payload_of event)).
  - split_publisher Hquiet.
    all: do 4 eexists; (split; [reflexivity|]); simpl; repeat split;
      by destruct (Payload.period (payload_of event)),
                  (Payload.amount (payload_of event)).
Qed.

(** The first [new_donation] of the sample donation 501. *)
Lemma first_donation_event_creates_the_record_witness :
  exists ctx w',
    handleNewDonation sample_config (donation_event_501 "new_donation" 1000)
      empty_world
    = (Ok (Some (DonationEvent DonCreated donation_501 ctx)), w').
Proof.
  destruct (first_donation_event_creates_the_record sample_config
              (donation_event_501 "new_donation" 1000) empty_world 1000 1000)
    as [(d & ctx & w' & p & Hrun & _) _].
  - reflexivity.
  - reflexivity.
  - reflexivity.
  - reflexivity.
  - reflexivity.
  - apply sample_config_quiet.
  - exists ctx, w'. rewrite Hrun. vm_compute in Hrun.
    injection Hrun as <- _ _. reflexivity.
Defined.

(** X20. A [new_donation] for a stored donation that is older than the
    event overwrites it, whatever its stored status: the status is again
    decided by the period alone ([completed] for ['once'], else [active])
    and [cancelledAt] is cleared, so a cancelled donation is live again.
    The record keeps the stored [createdAt] and metadata, takes the
    ordering timestamp as [lastEventAt], and takes from the stored record
    the name, period, amount, currency and message that the payload does
    not carry. (The ids of the donation and the user are present, the
    ordering timestamp parses, and no publisher failure is re-raised.) *)
Theorem new_donation_overwrites_the_stored_donation this event w ts existing :
  nullish (Payload.donation_request_id (payload_of event)) = false ->
  nullish (Payload.telegram_user_id (payload_of event)) = false ->
  getEventTimestamp event = Ok ts ->
  Store.donations (w_store w)
    !! Payload.donation_request_id (payload_of event) = Some existing ->
  Donation.lastEventAt existing < ts ->
  publisher_quiet this ->
  exists d ctx w',
    handleNewDonation this event w
    = (Ok (Some (DonationEvent DonCreated d ctx)), w')
    /\ Store.donations (w_store w')
       = <[Payload.donation_request_id (payload_of event) := d]>
           (Store.donations (w_store w))
    /\ Donation.status d = status_of_period (Donation.period d)
    /\ Donation.cancelledAt d = None
    /\ Donation.createdAt d = Donation.createdAt existing
    /\ Donation.lastEventAt d = ts
    /\ Donation.metadata d = Some (default [] (Donation.metadata existing))
    /\ Donation.period d
       = Payload.period (payload_of event) ?? Donation.period existing
         ?? VStr "once"
    /\ Donation.donationName d
       = Payload.donation_name (payload_of event)
         ?? Donation.donationName existing ?? VStr ""
    /\ Donation.amount d
       = Payload.amount (payload_of event) ?? Donation.amount existing
         ?? VNum 0
    /\ Donation.currency d
       = Payload.currency (payload_of event) ?? Donation.currency existing
         ?? VStr ""
    /\ Donation.message d
       = Payload.message (payload_of event) ?? Donation.message existing
         ?? VNull.
Proof.
  intros Hid Htg Hts Hex Hlt Hquiet.
  destruct w as [[intents subs payments dons] em pub]. simpl in *.
  unfold handleNewDonation. fold (payload_of event).
  rewrite Hid, Htg. unfold_monad.
  unfold Store.getDonationByRequestId. simpl. rewrite Hex, Hts. simpl.
  assert (Hge : (Donation.lastEventAt existing >=? ts) = false) by lia.
  rewrite Hge. unfold status_of_period.
  split_publisher Hquiet.
  all: do 3 eexists; (split; [reflexivity|]); simpl; repeat split.
Qed.

(** A [new_donation] dated 3000 for the donation cancelled at 2000. *)
Lemma new_donation_overwrites_the_stored_donation_witness :
  exists d ctx w',
    handleNewDonation sample_config (donation_event_501 "new_donation" 3000)
      world_with_cancelled_donation
    = (Ok (Some (DonationEvent DonCreated d ctx)), w')
    /\ Donation.status d = DActive
    /\ Donation.cancelledAt d = None.
Proof.
  destruct (new_donation_overwrites_the_stored_donation sample_config
              (donation_event_501 "new_donation" 3000)
              world_with_cancelled_donation 3000 cancelled_donation_501)
    as (d & ctx & w' & Hrun & _ & Hstatus & Hcancelled & _ & _ & _ & Hperiod
        & _).
  - reflexivity.
  - reflexivity.
  - reflexivity.
  - vm_compute. reflexivity.
  - simpl. lia.
  - apply sample_config_quiet.
  - exists d, ctx, w'. split; [exact Hrun|]. split; [|exact Hcancelled].
    rewrite Hstatus, Hperiod. reflexivity.
Defined.

(** ** What one delivery may change *)

Lemma Map_delete_sublist {A : Type} (k : string) (m : list (string * A)) :
  sublist (Map_delete k m) m.
Proof.
  induction m as [|[k0 v0] m IH]; simpl; [constructor|].
  destruct (decide (k = k0)).
  - by apply sublist_cons.
  - by apply sublist_skip.
Qed.

Lemma scanIntents_sublist now tg pid entries :
  sublist (Store.scanIntents now tg pid entries).2 entries.
Proof.
  induction entries as [|[k i] entries IH]; simpl; [constructor|].
  destruct (String.eqb (Intent.planId i) pid
            && String.eqb (js_String (Intent.telegramUserId i))
                          (js_String tg)).
  - destruct (Intent.expiresAt i <? now).
    + by apply sublist_cons.
    + apply sublist_cons. reflexivity.
  - destruct (Store.scanIntents now tg pid entries) as [found rest].
    simpl in *. by apply sublist_skip.
Qed.

Lemma delivery_ok_unchanged this sid did w out :
  (forall r, out <> Ok (Some r)) -> delivery_ok this sid did w (out, w).
Proof.
  intros Hout.
  unfold delivery_ok, entities_after, ledger_grows, announced,
    returned_is_stored.
  simpl. split; [by left|].
  split; [exists []; split; [by rewrite app_nil_r|simpl; lia]|].
  split; [reflexivity|].
  destruct out as [[r|]|e]; [by destruct (Hout r)|done|].
  split; [by left|done].
Qed.

Ltac solve_sublist :=
  first
    [ reflexivity
    | apply Map_delete_sublist
    | match goal with
      | H : Store.scanIntents ?n ?t ?p ?X = (_, ?l) |- sublist ?l _ =>
          let Hs := fresh "Hs" in
          pose proof (scanIntents_sublist n t p X) as Hs;
          rewrite H in Hs; simpl in Hs;
          etransitivity; [exact Hs|];
          first [reflexivity | apply Map_delete_sublist]
      end ].

Ltac finish_delivery :=
  unfold delivery_ok, entities_after, ledger_grows, announced,
    publisher_calls, returned_is_stored;
  simpl; rewrite ?app_three, ?alter_insert_eq;
  repeat match goal with
         | H : eventPublisher _ = _ |- _ => rewrite H
         end;
  split;
    [ first [ left; split; reflexivity
            | right; left; eexists; split; reflexivity
            | right; right; eexists; split; reflexivity ] |];
  split;
    [ first [ exists []; split; [by rewrite app_nil_r | simpl; lia]
            | eexists [_]; split; [reflexivity | simpl; lia] ] |];
  split; [solve_sublist|];
  rewrite ?app_nil_r;
  split;
    [ first [ split; reflexivity
            | left; split; reflexivity
            | right;
              match goal with
              | |- context [[(_, ?r); _; _]] => exists r
              end;
              split; [reflexivity|];
              split; [reflexivity|]; first [reflexivity | assumption] ]
    | first [exact I | apply lookup_insert_eq] ].

Lemma handleNewDonation_delivery this event w sid :
  delivery_ok this sid (Payload.donation_request_id (payload_of event)) w
    (handleNewDonation this event w).
Proof.
  destruct w as [st em pub].
  unfold handleNewDonation. fold (payload_of event).
  unfold_monad. unfold publishEvent. simpl.
  repeat (case_step; try (by apply delivery_ok_unchanged)).
  all: finish_delivery.
Qed.

Lemma handleRecurrentDonation_delivery this event w sid :
  delivery_ok this sid (Payload.donation_request_id (payload_of event)) w
    (handleRecurrentDonation this event w).
Proof.
  destruct w as [st em pub].
  unfold handleRecurrentDonation. fold (payload_of event).
  unfold_monad. unfold publishEvent. simpl.
  repeat (case_step; try (by apply delivery_ok_unchanged)).
  all: finish_delivery.
Qed.

Lemma handleCancelledDonation_delivery this event w sid :
  delivery_ok this sid (Payload.donation_request_id (payload_of event)) w
    (handleCancelledDonation this event w).
Proof.
  destruct w as [st em pub].
  unfold handleCancelledDonation. fold (payload_of event).
  unfold_monad. unfold Store.markDonationCancelled, publishEvent. simpl.
  repeat (case_step; try (by apply delivery_ok_unchanged)).
  all: finish_delivery.
Qed.

Lemma handleCancelledSubscription_delivery this event w did :
  delivery_ok this (Payload.subscription_id (payload_of event)) did w
    (handleCancelledSubscription this event w).
Proof.
  destruct w as [st em pub].
  unfold handleCancelledSubscription. fold (payload_of event).
  unfold_monad. unfold Store.markSubscriptionCancelled, publishEvent. simpl.
  repeat (case_step; try (by apply delivery_ok_unchanged)).
  all: finish_delivery.
Qed.

Lemma handleNewSubscription_delivery this now event w did :
  delivery_ok this (Payload.subscription_id (payload_of event)) did w
    (handleNewSubscription this now event w).
Proof.
  destruct w as [st em pub].
  unfold handleNewSubscription. fold (payload_of event).
  unfold_monad. unfold publishEvent. simpl.
  repeat (case_step; try (by apply delivery_ok_unchanged)).
  all: finish_delivery.
Qed.

Section DeliveryFacts.

Variable hmac_digest : string -> list Byte.byte -> encoding -> string.
Variable Buffer_from : string -> encoding -> list Byte.byte.
Variable JSON_parse : list Byte.byte -> json_parsed.

Lemma handleWebhook_delivery this now rawBody signatureHeader w :
  delivery_ok this
    (Payload.subscription_id (parsed_payload (JSON_parse rawBody)))
    (Payload.donation_request_id (parsed_payload (JSON_parse rawBody))) w
    (handleWebhook hmac_digest Buffer_from JSON_parse this now rawBody
       signatureHeader w).
Proof.
  apply handleWebhook_cases.
  - apply delivery_ok_unchanged.
  - intros event ->. simpl.
    split; [|split; [|split; [|split]]]; intros _.
    + apply handleNewSubscription_delivery.
    + apply handleCancelledSubscription_delivery.
    + apply handleNewDonation_delivery.
    + apply handleRecurrentDonation_delivery.
    + apply handleCancelledDonation_delivery.
Qed.

(** X21. Whatever the body, the signature and the outcome (a result,
    [undefined] or an error), one call of [handleWebhook] writes at most
    one stored entity: the subscription under the payload's
    [subscription_id] or the donation under the payload's
    [donation_request_id]; every subscription and donation under another
    key is left as it was. The ledger is only appended to, by at most one
    entry, and intents are only removed, never added or changed. *)
Theorem delivery_writes_at_most_one_entity this now rawBody signatureHeader
    w :
  entities_after
    (Payload.subscription_id (parsed_payload (JSON_parse rawBody)))
    (Payload.donation_request_id (parsed_payload (JSON_parse rawBody)))
    (w_store w)
    (w_store (handleWebhook hmac_digest Buffer_from JSON_parse this now
                rawBody signatureHeader w).2)
  /\ (forall k,
        k <> Payload.subscription_id (parsed_payload (JSON_parse rawBody)) ->
        Store.subscriptions
          (w_store (handleWebhook hmac_digest Buffer_from JSON_parse this now
                      rawBody signatureHeader w).2) !! k
        = Store.subscriptions (w_store w) !! k)
  /\ (forall k,
        k <> Payload.donation_request_id
               (parsed_payload (JSON_parse rawBody)) ->
        Store.donations
          (w_store (handleWebhook hmac_digest Buffer_from JSON_parse this now
                      rawBody signatureHeader w).2) !! k
        = Store.donations (w_store w) !! k)
  /\ ledger_grows (w_store w)
       (w_store (handleWebhook hmac_digest Buffer_from JSON_parse this now
                   rawBody signatureHeader w).2)
  /\ sublist
       (Store.intents
          (w_store (handleWebhook hmac_digest Buffer_from JSON_parse this now
                      rawBody signatureHeader w).2))
       (Store.intents (w_store w)).
Proof.
  destruct (handleWebhook_delivery this now rawBody signatureHeader w)
    as (Hent & Hledger & Hintents & _).
  split; [exact Hent|]. split; [|split; [|split; [exact Hledger|exact Hintents]]].
  - intros k Hk. destruct Hent as [[-> _]|[(s & -> & _)|(d & _ & ->)]];
      try reflexivity.
    by rewrite lookup_insert_ne.
  - intros k Hk. destruct Hent as [[_ ->]|[(s & _ & ->)|(d & -> & _)]];
      try reflexivity.
    by rewrite lookup_insert_ne.
Qed.

End DeliveryFacts.


(** ** Queries *)

Section QueryFacts.

Variable hmac_digest : string -> list Byte.byte -> encoding -> string.
Variable Buffer_from : string -> encoding -> list Byte.byte.
Variable JSON_parse : list Byte.byte -> json_parsed.

(** X23. The record that [handleWebhook] returns is the record it stored:
    the subscription of a returned result is the one stored under the
    payload's [subscription_id], and [getSubscriptionByTributeId] with
    that id gives it back, reading only; the donation of a returned result
    is the one stored under the payload's [donation_request_id]. Asked
    with [undefined], [null] or [''], [getSubscriptionByTributeId] raises a
    [TributeConfigurationError] and reads nothing. *)
Theorem returned_record_is_the_stored_record this now rawBody signatureHeader
    w r w' :
  handleWebhook hmac_digest Buffer_from JSON_parse this now rawBody
    signatureHeader w = (Ok (Some r), w') ->
  match r with
  | SubscriptionEvent _ s _ =>
      Store.subscriptions (w_store w')
        !! Payload.subscription_id (parsed_payload (JSON_parse rawBody))
      = Some s
      /\ getSubscriptionByTributeId this
           (Payload.subscription_id (parsed_payload (JSON_parse rawBody))) w'
         = (if id_absent
                 (Payload.subscription_id
                    (parsed_payload (JSON_parse rawBody)))
            then Err (TributeConfigurationError
                        "tributeSubscriptionId is required")
            else Ok (Some s), w')
  | DonationEvent _ d _ =>
      Store.donations (w_store w')
        !! Payload.donation_request_id (parsed_payload (JSON_parse rawBody))
      = Some d
  end.
Proof.
  intros Hrun.
  destruct (handleWebhook_delivery hmac_digest Buffer_from JSON_parse this now
              rawBody signatureHeader w) as (_ & _ & _ & _ & Hstored).
  unfold returned_is_stored in Hstored. rewrite Hrun in Hstored.
  simpl in Hstored. destruct r as [ty s ctx|ty d ctx]; [|exact Hstored].
  split; [exact Hstored|].
  unfold getSubscriptionByTributeId. fold (id_absent
    (Payload.subscription_id (parsed_payload (JSON_parse rawBody)))).
  destruct (id_absent _); [reflexivity|].
  unfold store_call, Store.getSubscriptionByTributeId. simpl.
  rewrite Hstored. by destruct w'.
Qed.

End QueryFacts.

(** The sample delivery stores what it returns. *)
Lemma returned_record_is_the_stored_record_witness :
  Store.subscriptions (w_store first_delivery.2) !! VNum 1644
  = Some subscription_1644.
Proof.
  exact (proj1 (returned_record_is_the_stored_record sample_hmac_digest
                  sample_Buffer_from sample_JSON_parse sample_config 2000000
                  subscription_body (Some subscription_signature)
                  world_with_intent created_result_1644 first_delivery.2
                  eq_refl)).
Defined.

(** ** Events that cannot be dated *)

Lemma parseDate_error v fieldName e :
  parseDate v fieldName = Err e -> is_TributeConfigurationError e.
Proof. destruct v; simpl; intros [= <-]; by eexists. Qed.

(** X24. The ordering timestamp of an event is its [sent_at] when that
    field is present, else its [created_at]; a present but unparsable
    [sent_at] is an error even when [created_at] is valid. An event whose
    ordering timestamp cannot be read is refused by each of the five
    handlers with that [TributeConfigurationError], before anything is
    written: the world stays as it was. (A subscription event resolves a
    plan first, a donation event carries its ids first.) *)
Theorem undated_event_is_refused this now event w e :
  getEventTimestamp event = Err e ->
  is_TributeConfigurationError e
  /\ (Envelope.sent_at event = DFalsy ->
      forall created, Envelope.created_at event <> DValid created)
  /\ (forall sent, Envelope.sent_at event <> DValid sent)
  /\ (forall plan,
        findPlanForPayload (plans this) (payload_of event) = Some plan ->
        handleNewSubscription this now event w = (Err e, w)
        /\ handleCancelledSubscription this event w = (Err e, w))
  /\ (nullish (Payload.donation_request_id (payload_of event)) = false ->
      handleCancelledDonation this event w = (Err e, w)
      /\ (nullish (Payload.telegram_user_id (payload_of event)) = false ->
          handleNewDonation this event w = (Err e, w)
          /\ handleRecurrentDonation this event w = (Err e, w))).
Proof.
  intros Hts. split; [|split; [|split; [|split]]].
  - unfold getEventTimestamp in Hts.
    destruct (Envelope.sent_at event); by apply parseDate_error in Hts.
  - intros Hsent created Hcreated. unfold getEventTimestamp in Hts.
    rewrite Hsent, Hcreated in Hts. discriminate.
  - intros sent Hsent. unfold getEventTimestamp in Hts.
    rewrite Hsent in Hts. discriminate.
  - intros plan Hplan.
    unfold handleNewSubscription, handleCancelledSubscription.
    fold (payload_of event). rewrite Hplan. unfold bind, lift_res.
    by rewrite Hts.
  - intros Hid.
    unfold handleNewDonation, handleRecurrentDonation,
      handleCancelledDonation.
    fold (payload_of event). rewrite Hid.
    unfold bind, lift_res, store_call, Store.getDonationByRequestId.
    split; [by rewrite Hts|]. intros ->. simpl.
    rewrite Hts. by destruct w.
Qed.

(** A cancellation of donation 501 whose [sent_at] does not parse. *)
Lemma undated_event_is_refused_witness :
  handleCancelledDonation sample_config
    (Envelope.mk (VStr "cancelled_donation") (DValid 2000)
       (DInvalid "yesterday") (Some donation_payload_501))
    world_with_donation
  = (Err (TributeConfigurationError
            ("Invalid " +:+ dq +:+ "sent_at" +:+ dq
             +:+ " timestamp: yesterday")), world_with_donation).
Proof.
  exact (proj1
           (proj2 (proj2 (proj2 (proj2
              (undated_event_is_refused sample_config 0
                 (Envelope.mk (VStr "cancelled_donation") (DValid 2000)
                    (DInvalid "yesterday") (Some donation_payload_501))
                 world_with_donation
                 (TributeConfigurationError
                    ("Invalid " +:+ dq +:+ "sent_at" +:+ dq
                     +:+ " timestamp: yesterday"))
                 eq_refl)))) eq_refl)).
Defined.

(** ** The ledger after a delivery *)

Lemma listPayments_all s :
  (Store.listPayments PaymentListFilters.empty s).1 ≡ₚ Store.payments s.
Proof.
  unfold Store.listPayments. simpl.
  rewrite sort_by_paidAt_desc_perm.
  assert (Hall : forall l,
    List.filter (Store.payment_passes PaymentListFilters.empty) l = l).
  { induction l as [|p l IH]; simpl; [done|]. by rewrite IH. }
  by rewrite Hall.
Qed.

Section LedgerFacts.

Variable hmac_digest : string -> list Byte.byte -> encoding -> string.
Variable Buffer_from : string -> encoding -> list Byte.byte.
Variable JSON_parse : list Byte.byte -> json_parsed.

(** X26. After a delivery that returns a result, [listPayments] without
    filters lists every payment it listed before and, unless the result
    is a cancellation, exactly one more: the ledger entry the delivery
    appended. After a cancellation it lists the same payments as before.
    The manager's [listPayments] is the store's, and reads only. *)
Theorem accepted_payment_is_listed this now rawBody signatureHeader w r w' :
  handleWebhook hmac_digest Buffer_from JSON_parse this now rawBody
    signatureHeader w = (Ok (Some r), w') ->
  (match r with
   | SubscriptionEvent Cancelled _ _ | DonationEvent DonCancelled _ _ =>
       (Store.listPayments PaymentListFilters.empty (w_store w')).1
       = (Store.listPayments PaymentListFilters.empty (w_store w)).1
   | _ =>
       exists p,
         Store.payments (w_store w') = (Store.payments (w_store w) ++ [p])%list
         /\ (Store.listPayments PaymentListFilters.empty (w_store w')).1
            ≡ₚ p :: (Store.listPayments PaymentListFilters.empty
                       (w_store w)).1
   end)
  /\ (forall filters,
        listPayments this filters w'
        = (Ok (Store.listPayments filters (w_store w')).1, w')).
Proof.
  intros Hrun.
  pose proof (handleWebhook_accepted hmac_digest Buffer_from JSON_parse this
                now rawBody signatureHeader w) as Hacc.
  rewrite Hrun in Hacc. destruct (Hacc r eq_refl) as (_ & _ & Hledger).
  simpl in Hledger. split.
  - destruct r as [[| |] s ctx|[| |] d ctx]; simpl in Hledger.
    all: lazymatch type of Hledger with
         | _ = _ => unfold Store.listPayments; simpl; by rewrite Hledger
         | _ =>
             destruct Hledger as [p Hp]; exists p; split; [exact Hp|];
             rewrite !listPayments_all, Hp; by rewrite Permutation_app_comm
         end.
  - intros filters. unfold listPayments, store_call. simpl. by destruct w'.
Qed.

End LedgerFacts.

(** The sample delivery of [new_subscription] adds one listed payment. *)
Lemma accepted_payment_is_listed_witness :
  exists p,
    (Store.listPayments PaymentListFilters.empty (w_store first_delivery.2)).1
    ≡ₚ p :: (Store.listPayments PaymentListFilters.empty
               (w_store world_with_intent)).1.
Proof.
  destruct (proj1 (accepted_payment_is_listed sample_hmac_digest
                     sample_Buffer_from sample_JSON_parse sample_config
                     2000000 subscription_body (Some subscription_signature)
                     world_with_intent created_result_1644 first_delivery.2
                     eq_refl)) as (p & _ & Hp).
  exists p. exact Hp.
Defined.

(** ** An intent consumed by a refused event *)

(** X27. The [expires_at] of the payload is parsed after the intent has
    been consumed: a first [new_subscription] that names a stored intent
    and carries an [expires_at] that is not a date is refused with a
    [TributeConfigurationError], no subscription or payment is written and
    nothing is emitted, but the intent is gone from the store. *)
Theorem refused_event_has_consumed_its_intent this now event w plan ts
    created intent raw :
  findPlanForPayload (plans this) (payload_of event) = Some plan ->
  getEventTimestamp event = Ok ts ->
  getEventCreatedAt event = Ok created ->
  Store.subscriptions (w_store w)
    !! Payload.subscription_id (payload_of event) = None ->
  js_truthy (payload_intent_id (payload_of event)) = true ->
  Map_get (js_String (payload_intent_id (payload_of event)))
    (Store.intents (w_store w)) = Some intent ->
  keys_unique (Store.intents (w_store w)) ->
  Payload.expires_at (payload_of event) = DInvalid raw ->
  exists w',
    handleNewSubscription this now event w
    = (Err (TributeConfigurationError
              ("Invalid " +:+ dq +:+ "payload.expires_at" +:+ dq
               +:+ " timestamp: " +:+ raw)), w')
    /\ same_but_intents w w'
    /\ Store.intents (w_store w')
       = Map_delete (js_String (payload_intent_id (payload_of event)))
           (Store.intents (w_store w))
    /\ Map_get (js_String (payload_intent_id (payload_of event)))
         (Store.intents (w_store w')) = None.
Proof.
  intros Hplan Hts Hcreated Hnone Hid Hintent Hunique Hexpires.
  pose proof (Map_get_delete_eq
                (js_String (payload_intent_id (payload_of event)))
                _ Hunique) as Hgone.
  destruct w as [[intents subs payments dons] em pub]. simpl in *.
  unfold payload_intent_id in *.
  unfold handleNewSubscription. fold (payload_of event).
  rewrite Hplan. unfold_monad. rewrite Hts, Hcreated. simpl.
  unfold Store.getSubscriptionByTributeId, Store.consumeIntent. simpl.
  destruct (js_truthy (Payload.subscription_id (payload_of event))); simpl;
    rewrite ?Hnone; simpl; rewrite Hid; simpl; rewrite Hintent; simpl;
    rewrite Hexpires; simpl.
  all: eexists; split; [reflexivity|]; simpl;
    split; [by repeat split|]; split; [reflexivity|exact Hgone].
Qed.

(** The sample event with an [expires_at] that is not a date. *)
Lemma refused_event_has_consumed_its_intent_witness :
  exists w',
    (handleNewSubscription sample_config 2000000
       (Envelope.mk (VStr "new_subscription") (DValid 2000000)
          (DValid 2000000)
          (Some (Payload.mk (VNum 1644) (VNum 1547) (VNum 1000) (VNum 1000)
                   (VStr "eur") (VStr "monthly") (VNum 123456) VUndef
                   (VStr "intent-1") VUndef (DInvalid "soon") VUndef VUndef
                   VUndef VUndef VUndef VUndef)))
       world_with_intent).2 = w'
    /\ Map_get "intent-1" (Store.intents (w_store w')) = None.
Proof.
  destruct (refused_event_has_consumed_its_intent sample_config 2000000
              (Envelope.mk (VStr "new_subscription") (DValid 2000000)
                 (DValid 2000000)
                 (Some (Payload.mk (VNum 1644) (VNum 1547) (VNum 1000)
                          (VNum 1000) (VStr "eur") (VStr "monthly")
                          (VNum 123456) VUndef (VStr "intent-1") VUndef
                          (DInvalid "soon") VUndef VUndef VUndef VUndef
                          VUndef VUndef)))
              world_with_intent plan_m10 2000000 2000000 intent_1 "soon")
    as (w' & Hrun & _ & _ & Hgone).
  - vm_compute. reflexivity.
  - reflexivity.
  - reflexivity.
  - reflexivity.
  - reflexivity.
  - vm_compute. reflexivity.
  - apply (bool_decide_unpack _). vm_compute. reflexivity.
  - reflexivity.
  - exists w'. split; [by rewrite Hrun|exact Hgone].
Defined.

(** ** The options of a manual cancellation *)

(** X28. [cancelSubscriptionLocally] checks its options before it touches
    the store: without a subscription id ([undefined], [null] or ['']) it
    raises a [TributeConfigurationError]; with one, a [cancelledAt] that
    cannot be read as a date raises a [TributeConfigurationError] as
    well; in both cases nothing changes. A [cancelledAt] is read as a date
    exactly when it is a valid [Date], a number that is a valid time, a
    string that parses, or absent, which stands for the time of the
    call. *)
Theorem manual_cancellation_checks_its_options this now options w :
  (id_absent (ManualCancellationOptions.tributeSubscriptionId options) = true ->
   cancelSubscriptionLocally this now options w
   = (Err (TributeConfigurationError
             "tributeSubscriptionId is required to cancel subscription"), w))
  /\ (forall e,
        id_absent (ManualCancellationOptions.tributeSubscriptionId options)
        = false ->
        ensureDate now (ManualCancellationOptions.cancelledAt options)
          "cancelledAt" = Err e ->
        cancelSubscriptionLocally this now options w = (Err e, w)
        /\ is_TributeConfigurationError e)
  /\ (forall stamp,
        ensureDate now (ManualCancellationOptions.cancelledAt options)
          "cancelledAt" = Ok stamp
        <-> ManualCancellationOptions.cancelledAt options
            = InDate (Some stamp)
            \/ (ManualCancellationOptions.cancelledAt options = InUndefined
                /\ stamp = now)
            \/ ManualCancellationOptions.cancelledAt options
               = InNumber (Some stamp)
            \/ ManualCancellationOptions.cancelledAt options
               = InString (DValid stamp)).
Proof.
  unfold cancelSubscriptionLocally, id_absent.
  split; [|split].
  - by intros ->.
  - intros e -> He. unfold bind, lift_res. rewrite He. split; [done|].
    destruct (ManualCancellationOptions.cancelledAt options)
      as [[t|]| |[t|]|s|]; simpl in He; try discriminate;
      try (injection He as <-; by eexists).
    by apply parseDate_error in He.
  - intros stamp.
    destruct (ManualCancellationOptions.cancelledAt options)
      as [[t|]| |[t|]|[|raw|t]|]; simpl; split;
      try (intros [= <-]); try discriminate; auto.
    all: intros [H|[[H1 H2]|[H|H]]]; try discriminate;
      try (injection H as ->); by subst.
Qed.

(** A manual cancellation without an id, and one dated by a string that
    is not a date. *)
Lemma manual_cancellation_checks_its_options_witness :
  cancelSubscriptionLocally sample_config 2400000
    (ManualCancellationOptions.mk VNull VUndef InUndefined None)
    world_with_subscription
  = (Err (TributeConfigurationError
            "tributeSubscriptionId is required to cancel subscription"),
     world_with_subscription)
  /\ (cancelSubscriptionLocally sample_config 2400000
        (ManualCancellationOptions.mk (VNum 1644) VUndef
           (InString (DInvalid "never")) None)
        world_with_subscription).2 = world_with_subscription.
Proof.
  split.
  - exact (proj1 (manual_cancellation_checks_its_options sample_config
                    2400000
                    (ManualCancellationOptions.mk VNull VUndef InUndefined
                       None)
                    world_with_subscription) eq_refl).
  - destruct (proj1 (proj2 (manual_cancellation_checks_its_options
                              sample_config 2400000
                              (ManualCancellationOptions.mk (VNum 1644)
                                 VUndef (InString (DInvalid "never")) None)
                              world_with_subscription))
                _ eq_refl eq_refl) as [Hrun _].
    by rewrite Hrun.
Defined.

(** ** The constructor *)

Lemma supported_names_ok names allowed :
  supported_names names = Ok allowed ->
  names = VStr <$> allowed
  /\ Forall (fun name => name ∈ SUPPORTED_WEBHOOK_EVENTS) allowed.
Proof.
  revert allowed. induction names as [|v names IH]; simpl; intros allowed.
  - intros [= <-]. by split.
  - destruct v as [| |b|n|name]; try discriminate.
    destruct (decide (name ∈ SUPPORTED_WEBHOOK_EVENTS)) as [Hin|Hin];
      [rewrite bool_decide_eq_true_2 by done
      |rewrite bool_decide_eq_false_2 by done; discriminate].
    destruct (supported_names names) as [rest|e]; [|discriminate].
    intros [= <-]. destruct (IH rest eq_refl) as [-> Hall].
    split; [reflexivity|by constructor].
Qed.

Lemma supported_names_complete names :
  names_supported names -> exists allowed, supported_names names = Ok allowed.
Proof.
  unfold names_supported. induction names as [|v names IH]; simpl; intros Hall.
  - by eexists.
  - destruct (Hall v) as (name & -> & Hin); [by left|].
    rewrite bool_decide_eq_true_2 by done.
    destruct IH as [rest ->]; [|by eexists].
    intros v Hv. apply Hall. by right.
Qed.

Lemma supported_names_error names e :
  supported_names names = Err e -> is_TributeConfigurationError e.
Proof.
  induction names as [|v names IH]; simpl; [discriminate|].
  destruct v as [| |b|n|name]; try (intros [= <-]; by eexists).
  destruct (bool_decide _); [|intros [= <-]; by eexists].
  destruct (supported_names names); [discriminate|].
  intros [= <-]. by apply IH.
Qed.

Lemma supported_names_nonempty names allowed :
  names <> [] -> supported_names names = Ok allowed -> allowed <> [].
Proof.
  intros Hne Hok. apply supported_names_ok in Hok as [-> _].
  by destruct allowed.
Qed.

Lemma allowed_events_of_ok events allowed :
  allowed_events_of events = Ok allowed ->
  allowed <> []
  /\ Forall (fun name => name ∈ SUPPORTED_WEBHOOK_EVENTS) allowed
  /\ match events with
     | EventsUndefined => allowed = SUPPORTED_WEBHOOK_EVENTS
     | EventsNotArray => False
     | EventsArray names => names <> [] /\ names = VStr <$> allowed
     end.
Proof.
  destruct events as [| |names]; unfold allowed_events_of.
  - intros [= <-]. split; [done|]. split; [|done].
    rewrite Forall_forall. by intros name Hname.
  - discriminate.
  - destruct names as [|v names]; [discriminate|].
    intros Hok. assert (Hne : v :: names <> []) by done.
    pose proof (supported_names_nonempty _ _ Hne Hok).
    apply supported_names_ok in Hok as [Hnames Hall]. by repeat split.
Qed.

Lemma allowed_events_of_complete events :
  match events with
  | EventsUndefined => True
  | EventsNotArray => False
  | EventsArray names => names <> [] /\ names_supported names
  end ->
  exists allowed, allowed_events_of events = Ok allowed.
Proof.
  destruct events as [| |names]; [by eexists|done|].
  intros [Hne Hall]. destruct names as [|v names]; [done|].
  by apply supported_names_complete.
Qed.

Lemma allowed_events_of_error events e :
  allowed_events_of events = Err e -> is_TributeConfigurationError e.
Proof.
  destruct events as [| |[|v names]]; unfold allowed_events_of;
    try discriminate; try (intros [= <-]; by eexists).
  apply supported_names_error.
Qed.

Lemma failure_mode_of_ok mode :
  (exists m, failure_mode_of mode = Some m)
  <-> mode = VUndef \/ mode = VStr "throw" \/ mode = VStr "log".
Proof.
  split.
  - intros [m Hm]. destruct mode as [| |b|n|s]; simpl in Hm;
      try discriminate; [by left|].
    destruct (String.eqb_spec s "throw") as [-> | _]; [by right; left|].
    destruct (String.eqb_spec s "log") as [-> | _]; [by right; right|].
    discriminate.
  - intros [-> | [-> | ->]]; by eexists.
Qed.

Lemma find_unsupported_none allowed :
  Forall (fun name => name ∈ SUPPORTED_WEBHOOK_EVENTS) allowed ->
  List.find
    (fun event => negb (bool_decide (event ∈ SUPPORTED_WEBHOOK_EVENTS)))
    allowed = None.
Proof.
  induction 1 as [|name allowed Hin Hall IH]; simpl; [done|].
  by rewrite bool_decide_eq_true_2.
Qed.

(** What a successful construction went through. *)
Lemma new_TributeSubscriptionManager_ok options manager :
  new_TributeSubscriptionManager options = Ok manager ->
  exists plans allowed mode,
    ManagerOptions.plans options = Some plans /\ plans <> []
    /\ js_truthy (ManagerOptions.apiKey options) = true
    /\ ManagerOptions.store options = true
    /\ allowed_events_of (ManagerOptions.allowedWebhookEvents options)
       = Ok allowed
    /\ ManagerOptions.eventPublisher options <> PublisherOther
    /\ failure_mode_of (ManagerOptions.eventPublisherFailureMode options)
       = Some mode
    /\ manager
       = Manager.mk plans (ManagerOptions.apiKey options)
           (default DEFAULT_INTENT_TTL_MS (ManagerOptions.intentTtlMs options))
           (default Hex (ManagerOptions.signatureEncoding options))
           allowed
           match ManagerOptions.eventPublisher options with
           | PublisherFunction f => Some f
           | _ => None
           end
           mode.
Proof.
  unfold new_TributeSubscriptionManager.
  destruct (ManagerOptions.plans options) as [[|plan plans]|];
    try discriminate.
  destruct (js_truthy _); [|discriminate].
  destruct (ManagerOptions.store options); [|discriminate]. simpl.
  destruct (allowed_events_of _) as [allowed|]; [|discriminate].
  destruct (failure_mode_of _) as [mode|] eqn:Hmode.
  - destruct (ManagerOptions.eventPublisher options); try discriminate.
    all: intros [= <-]; exists (plan :: plans), allowed, mode;
      by repeat split.
  - by destruct (ManagerOptions.eventPublisher options).
Qed.

(** X25. [new TributeSubscriptionManager(options)] succeeds exactly on
    valid options: a non-empty array of plans, a truthy API key, a store
    that is a [SubscriptionStore], an allow-list that is absent or a
    non-empty array of supported event names, a publisher that is absent
    or a function, and a failure mode that is absent, ['throw'] or
    ['log']. Every refusal is a [TributeConfigurationError]; the plans are
    checked first, then the key, then the store, so that options without
    a store are refused. On success the manager holds the plans, the key
    and the allow-list as given and the defaults for what is absent: a
    time to live of fifteen minutes, hex signatures, the five supported
    events, failure mode [throw]; and it passes the checks of the
    constructor on typed options. *)
Theorem constructor_accepts_exactly_valid_options options :
  ((exists manager, new_TributeSubscriptionManager options = Ok manager)
   <-> valid_options options)
  /\ (forall e,
        new_TributeSubscriptionManager options = Err e ->
        is_TributeConfigurationError e)
  /\ ((forall plans, ManagerOptions.plans options = Some plans -> plans = []) ->
      new_TributeSubscriptionManager options
      = Err (TributeConfigurationError
               "At least one subscription plan must be provided"))
  /\ (forall plans,
        ManagerOptions.plans options = Some plans -> plans <> [] ->
        (js_truthy (ManagerOptions.apiKey options) = false ->
         new_TributeSubscriptionManager options
         = Err (TributeConfigurationError "Tribute API key is required"))
        /\ (js_truthy (ManagerOptions.apiKey options) = true ->
            ManagerOptions.store options = false ->
            new_TributeSubscriptionManager options
            = Err (TributeConfigurationError
                     "store must extend SubscriptionStore")))
  /\ (forall manager,
        new_TributeSubscriptionManager options = Ok manager ->
        ManagerOptions.plans options = Some (Manager.plans manager)
        /\ Manager.apiKey manager = ManagerOptions.apiKey options
        /\ Manager.intentTtlMs manager
           = default 900000 (ManagerOptions.intentTtlMs options)
        /\ Manager.signatureEncoding manager
           = default Hex (ManagerOptions.signatureEncoding options)
        /\ match ManagerOptions.allowedWebhookEvents options with
           | EventsArray names =>
               names = VStr <$> Manager.allowedWebhookEvents manager
           | _ =>
               Manager.allowedWebhookEvents manager
               = SUPPORTED_WEBHOOK_EVENTS
           end
        /\ (ManagerOptions.eventPublisherFailureMode options = VUndef ->
            Manager.eventPublisherFailureMode manager = FailThrow)
        /\ (ManagerOptions.eventPublisher options = PublisherUndefined ->
            Manager.eventPublisher manager = None)
        /\ (forall this,
              config_of manager = Some this -> constructor this = Ok this)).
Proof.
  split; [|split; [|split; [|split]]].
  - split.
    + intros [manager Hok].
      apply new_TributeSubscriptionManager_ok in Hok
        as (plans & allowed & mode & Hplans & Hne & Hkey & Hstore & Hevents
            & Hpub & Hmode & _).
      unfold valid_options. split; [by exists plans|].
      split; [done|]. split; [done|].
      apply allowed_events_of_ok in Hevents as (_ & Hall & Hnames).
      split.
      { destruct (ManagerOptions.allowedWebhookEvents options) as [| |names];
          [done|done|].
        destruct Hnames as [Hnonempty ->]. split; [done|].
        intros v Hv. apply list_elem_of_fmap in Hv as (name & -> & Hin).
        exists name. split; [done|].
        rewrite Forall_forall in Hall. by apply Hall. }
      split; [done|]. apply failure_mode_of_ok. by exists mode.
    + intros ((plans & Hplans & Hne) & Hkey & Hstore & Hevents & Hpub & Hmode).
      apply allowed_events_of_complete in Hevents as [allowed Hevents].
      apply failure_mode_of_ok in Hmode as [mode Hmode].
      unfold new_TributeSubscriptionManager.
      rewrite Hplans, Hkey, Hstore, Hevents, Hmode. simpl.
      destruct plans; [done|].
      destruct (ManagerOptions.eventPublisher options); [| |done];
        by eexists.
  - intros e. unfold new_TributeSubscriptionManager.
    destruct (ManagerOptions.plans options) as [[|plan plans]|];
      try (intros [= <-]; by eexists).
    destruct (js_truthy _); simpl; [|intros [= <-]; by eexists].
    destruct (ManagerOptions.store options); simpl;
      [|intros [= <-]; by eexists].
    destruct (allowed_events_of _) as [allowed|e'] eqn:Hevents.
    + destruct (failure_mode_of _),
        (ManagerOptions.eventPublisher options); try discriminate;
        intros [= <-]; by eexists.
    + intros [= <-]. by apply allowed_events_of_error in Hevents.
  - intros Hall. unfold new_TributeSubscriptionManager.
    destruct (ManagerOptions.plans options) as [[|plan plans]|]; try done.
    by specialize (Hall _ eq_refl).
  - intros plans Hplans Hne. unfold new_TributeSubscriptionManager.
    rewrite Hplans. destruct plans; [done|].
    split; [by intros ->|]. by intros -> ->.
  - intros manager Hok.
    apply new_TributeSubscriptionManager_ok in Hok
      as (plans & allowed & mode & Hplans & Hne & Hkey & Hstore & Hevents
          & Hpub & Hmode & ->).
    simpl. apply allowed_events_of_ok in Hevents as (Hnonempty & Hall & Hnames).
    split; [done|]. split; [done|]. split; [done|]. split; [done|].
    split.
    { destruct (ManagerOptions.allowedWebhookEvents options);
        [done|done|by destruct Hnames]. }
    split.
    { intros Hundef. rewrite Hundef in Hmode. by injection Hmode as <-. }
    split; [by intros ->|].
    intros this. unfold config_of. simpl.
    destruct (ManagerOptions.apiKey options) as [| |b|n|key]; try discriminate.
    intros [= <-]. unfold constructor. simpl.
    rewrite bool_decide_eq_false_2 by done.
    simpl in Hkey. apply negb_true_iff in Hkey. rewrite Hkey.
    rewrite bool_decide_eq_false_2 by done.
    by rewrite find_unsupported_none.
Qed.

(** The sample options are accepted; without a store they are refused. *)
Lemma constructor_accepts_exactly_valid_options_witness :
  (exists manager, new_TributeSubscriptionManager sample_options = Ok manager)
  /\ new_TributeSubscriptionManager options_without_store
     = Err (TributeConfigurationError "store must extend SubscriptionStore").
Proof.
  split.
  - apply (proj2 (proj1 (constructor_accepts_exactly_valid_options
                           sample_options))).
    split; [exists [plan_m10]; by split|].
    split; [reflexivity|]. split; [reflexivity|]. split; [exact I|].
    split; [discriminate|]. by left.
  - apply (proj2 (proj1 (proj2 (proj2 (proj2
             (constructor_accepts_exactly_valid_options
                options_without_store)))) [plan_m10] eq_refl
             ltac:(discriminate))); reflexivity.
Defined.

(** ** The publisher and the listeners *)

Section AnnouncementFacts.

Variable hmac_digest : string -> list Byte.byte -> encoding -> string.
Variable Buffer_from : string -> encoding -> list Byte.byte.
Variable JSON_parse : list Byte.byte -> json_parsed.

(** X22. The publisher is called at most once per call of [handleWebhook],
    and only with a result whose three local notifications have all been
    emitted before. When the call returns a result, the notifications
    emitted are exactly its three and the publisher, if there is one, got
    exactly that result; when it returns [undefined], nothing was emitted
    and the publisher was not called; when it raises after the publisher
    has been called, the failure mode is [throw]. *)
Theorem publisher_is_called_once_after_the_listeners this now rawBody
    signatureHeader w out w' :
  handleWebhook hmac_digest Buffer_from JSON_parse this now rawBody
    signatureHeader w = (out, w') ->
  (exists calls,
     w_published w' = (w_published w ++ calls)%list
     /\ (List.length calls <= 1)%nat
     /\ (forall r, r ∈ calls ->
           w_emitted w' = (w_emitted w ++ notifications r)%list))
  /\ (forall r, out = Ok (Some r) ->
        w_emitted w' = (w_emitted w ++ notifications r)%list
        /\ w_published w' = (w_published w ++ publisher_calls this r)%list)
  /\ (out = Ok None ->
      w_emitted w' = w_emitted w /\ w_published w' = w_published w)
  /\ (forall e, out = Err e -> w_published w' <> w_published w ->
        eventPublisherFailureMode this = FailThrow).
Proof.
  intros Hrun.
  destruct (handleWebhook_delivery hmac_digest Buffer_from JSON_parse this now
              rawBody signatureHeader w)
    as (_ & _ & _ & Hann & _).
  unfold announced in Hann. rewrite Hrun in Hann. simpl in Hann.
  split; [|split; [|split]].
  - destruct out as [[r|]|e].
    + destruct Hann as [Hem Hpub]. exists (publisher_calls this r).
      split; [exact Hpub|]. unfold publisher_calls.
      destruct (eventPublisher this); (split; [simpl; lia|]).
      * intros r' Hr'. by apply list_elem_of_singleton in Hr' as ->.
      * intros r' Hr'. by apply elem_of_nil in Hr'.
    + destruct Hann as [Hem Hpub]. exists [].
      split; [by rewrite app_nil_r|]. split; [simpl; lia|].
      intros r' Hr'. by apply elem_of_nil in Hr'.
    + destruct Hann as [[Hem Hpub]|(r & Hem & Hpub & Hmode)].
      * exists []. split; [by rewrite app_nil_r|]. split; [simpl; lia|].
        intros r' Hr'. by apply elem_of_nil in Hr'.
      * exists [r]. split; [exact Hpub|]. split; [simpl; lia|].
        intros r' Hr'. by apply list_elem_of_singleton in Hr' as ->.
  - by intros r ->.
  - by intros ->.
  - intros e -> Hchanged.
    destruct Hann as [[Hem Hpub]|(r & Hem & Hpub & Hmode)]; [done|exact Hmode].
Qed.

End AnnouncementFacts.

(** The sample delivery with the offline publisher in mode [throw]: the
    publisher got the result once, after its three notifications. *)
Lemma publisher_is_called_once_after_the_listeners_witness :
  exists calls,
    w_published
      (handleWebhook sample_hmac_digest sample_Buffer_from sample_JSON_parse
         offline_config 2000000 subscription_body
         (Some subscription_signature) world_with_intent).2
    = (w_published world_with_intent ++ calls)%list
    /\ (List.length calls <= 1)%nat.
Proof.
  destruct (publisher_is_called_once_after_the_listeners sample_hmac_digest
              sample_Buffer_from sample_JSON_parse offline_config 2000000
              subscription_body (Some subscription_signature)
              world_with_intent _ _ (surjective_pairing _))
    as [(calls & Hcalls & Hlen & _) _].
  exists calls. by split.
Defined.
